(** * Substitute-teacher resolution: [server.js]

    A shallow embedding of the helpers [normalizeDay] and
    [extractSubjectCode] and of the core routine [findSubstitutes] of
    [server.js], with the four SQL reads [findSubstitutes] issues
    interpreted over an explicit relational store; and of the routes
    around it: the handlers of [GET /api/substitute/:teacherId/:day] and
    [POST /api/attendance] and the statements of [GET /api/teachers] and
    [GET /api/debug/free/:day/:slot].

    Conventions of the embedding.
    - Strings are sequences of 8-bit code units.  The embedding of the
      string operations is exact on ASCII text (code units below 128):
      there [trim] and [\s] strip TAB, LF, VT, FF, CR and SPACE, and
      [toUpperCase], [UPPER] and [LOWER] map the letters a-z and A-Z.
      Beyond ASCII JavaScript knows more white space (U+00A0, U+FEFF,
      ...) and more letters, some of which change length when
      upper-cased; the embedding carries code units above 127 through
      unchanged.  A statement that depends on how a text is trimmed,
      upper-cased or matched is therefore made for ASCII text, with the
      hypothesis [ascii_text] or [ascii_value].
    - The table schema is not part of the sources.  Columns have the types
      of the data model ([is_free] is a boolean, [slot_id] an integer, the
      others are text) and are NOT NULL; comparisons of text are binary
      (the queries normalise case themselves with [LOWER]/[UPPER]).
    - A read without [ORDER BY] returns rows in the order of a nested-loop
      plan over the tables; [ORDER BY] is a stable sort of that order.
    - [console.log]/[console.error] calls are not modelled. *)

From Stdlib Require Import String Ascii List ZArith NArith Bool Lia.
From Stdlib Require Import Sorting.Sorted Sorting.Permutation.
From Stdlib Require Import DecimalString DecimalZ.
Import ListNotations.

Local Open Scope list_scope.
Local Open Scope string_scope.

Set Implicit Arguments.

(* ================================================================= *)
(** ** Characters and strings *)

Module Chars.

Definition code (c : ascii) : N := N_of_ascii c.

Definition between (lo hi : N) (c : ascii) : bool :=
  ((lo <=? code c) && (code c <=? hi))%N.

Definition is_upper (c : ascii) : bool := between 65 90 c.
Definition is_lower (c : ascii) : bool := between 97 122 c.
Definition is_digit (c : ascii) : bool := between 48 57 c.
Definition is_underscore (c : ascii) : bool := (code c =? 95)%N.

(** [[A-Z0-9_]] *)
Definition is_code_char (c : ascii) : bool :=
  is_upper c || is_digit c || is_underscore c.

(** [[A-Za-z0-9_]] *)
Definition is_word_char (c : ascii) : bool :=
  is_upper c || is_lower c || is_digit c || is_underscore c.

(** The code units of ASCII. *)
Definition is_ascii (c : ascii) : bool := (code c <? 128)%N.

(** JavaScript white space and line terminators ([\s], and what
    [String.prototype.trim] strips), in the ASCII range:
    TAB, LF, VT, FF, CR and SPACE.  The white space of JavaScript beyond
    ASCII is not in it. *)
Definition is_js_space (c : ascii) : bool :=
  between 9 13 c || (code c =? 32)%N.

(** MySQL [TRIM(x)] strips spaces only. *)
Definition is_sql_space (c : ascii) : bool := (code c =? 32)%N.

Definition upper (c : ascii) : ascii :=
  if is_lower c then ascii_of_N (code c - 32) else c.

Definition lower (c : ascii) : ascii :=
  if is_upper c then ascii_of_N (code c + 32) else c.

End Chars.

Module Str.

Fixpoint map (f : ascii -> ascii) (s : string) : string :=
  match s with
  | EmptyString => EmptyString
  | String c s' => String (f c) (map f s')
  end.

Fixpoint all (p : ascii -> bool) (s : string) : bool :=
  match s with
  | EmptyString => true
  | String c s' => p c && all p s'
  end.

Fixpoint take_while (p : ascii -> bool) (s : string) : string :=
  match s with
  | EmptyString => EmptyString
  | String c s' => if p c then String c (take_while p s') else EmptyString
  end.

Fixpoint drop_while (p : ascii -> bool) (s : string) : string :=
  match s with
  | EmptyString => EmptyString
  | String c s' => if p c then drop_while p s' else s
  end.

(** Strips the trailing characters that satisfy [p]. *)
Fixpoint drop_while_end (p : ascii -> bool) (s : string) : string :=
  match s with
  | EmptyString => EmptyString
  | String c s' =>
      let t := drop_while_end p s' in
      if p c && (t =? "") then EmptyString else String c t
  end.

Definition trim_with (p : ascii -> bool) (s : string) : string :=
  drop_while_end p (drop_while p s).

Definition is_empty (s : string) : bool := s =? "".

(** [contains pat s]: [pat] occurs in [s]. *)
Definition contains (pat s : string) : bool :=
  match index 0 pat s with Some _ => true | None => false end.

(** The part of [s] before the first occurrence of [sep]; all of [s]
    when [sep] does not occur. *)
Definition before_first (sep s : string) : string :=
  match index 0 sep s with
  | Some n => substring 0 n s
  | None => s
  end.

End Str.

(* ================================================================= *)
(** ** JavaScript values and string methods *)

(** The values that reach the helpers: route parameters are strings, a
    missing one is [undefined]. *)
Inductive jsval : Type :=
| JUndefined
| JNull
| JBool (b : bool)
| JStr (s : string).

Module JS.

(** ToBoolean *)
Definition truthy (v : jsval) : bool :=
  match v with
  | JUndefined | JNull => false
  | JBool b => b
  | JStr s => negb (Str.is_empty s)
  end.

(** [String(v)] *)
Definition String_ (v : jsval) : string :=
  match v with
  | JUndefined => "undefined"
  | JNull => "null"
  | JBool true => "true"
  | JBool false => "false"
  | JStr s => s
  end.

(** [a || b] *)
Definition or (a b : jsval) : jsval := if truthy a then a else b.

(** [s.trim()] and [s.toUpperCase()], as they are on ASCII text. *)
Definition trim (s : string) : string := Str.trim_with Chars.is_js_space s.
Definition toUpperCase (s : string) : string := Str.map Chars.upper s.

(** [s.slice(b, e)] for [0 <= b <= e]. *)
Definition slice (b e : nat) (s : string) : string := substring b (e - b) s.

(** [s.split(sep)] for a non-empty separator string.  [skip] counts the
    characters of a separator just matched that are still to be passed
    over. *)
Fixpoint split_from (sep : string) (skip : nat) (s : string) : list string :=
  match s with
  | EmptyString => [EmptyString]
  | String c s' =>
      match skip with
      | S k => split_from sep k s'
      | O =>
          if prefix sep s
          then EmptyString :: split_from sep (String.length sep - 1) s'
          else
            match split_from sep 0 s' with
            | seg :: segs => String c seg :: segs
            | [] => [String c EmptyString]
            end
      end
  end.

Definition split (sep s : string) : list string := split_from sep 0 s.

(** [/^[A-Z0-9_]+$/.test(s)] *)
Definition test_code (s : string) : bool :=
  negb (Str.is_empty s) && Str.all Chars.is_code_char s.

(** [s.match(/^\s*([A-Za-z0-9_]+)/)], giving capture group 1. *)
Definition match_leading_word (s : string) : option string :=
  let run := Str.take_while Chars.is_word_char
               (Str.drop_while Chars.is_js_space s) in
  if Str.is_empty run then None else Some run.

(** [list.includes(s)] on an array of strings. *)
Definition includes (l : list string) (s : string) : bool :=
  existsb (String.eqb s) l.

End JS.

(* ================================================================= *)
(** ** Helpers of [server.js] *)

(** [normalizeDay], lines 33-38. *)
Definition thursday_spellings : list string :=
  ["THU"; "THUR"; "THURS"; "THURSDAY"].

Definition normalizeDay (d : jsval) : jsval :=
  if negb (JS.truthy d) then d
  else
    let up := JS.toUpperCase (JS.trim (JS.String_ d)) in
    if JS.includes thursday_spellings up then JStr "THUR"
    else JStr (JS.slice 0 3 up).

(** [extractSubjectCode], lines 40-50. *)
Definition extractSubjectCode (activityDescription : jsval) : string :=
  if negb (JS.truthy activityDescription) then "N/A"
  else
    let s := JS.trim (JS.String_ activityDescription) in
    let parts := JS.split " - " s in
    let first :=
      match parts with
      | p0 :: _ =>
          if negb (Str.is_empty p0)
          then
            let codeCandidate := JS.toUpperCase (JS.trim p0) in
            if JS.test_code codeCandidate then Some codeCandidate else None
          else None
      | [] => None
      end in
    match first with
    | Some code => code
    | None =>
        match JS.match_leading_word s with
        | Some m1 => JS.toUpperCase m1
        | None => "N/A"
        end
    end.

(* ================================================================= *)
(** ** The relational store *)

(** Modelled from the spec: the schema of [teacher_attendance] is not in
    the sources; the columns are those the queries name, typed as the
    data model's Teacher (identifier, display name, attendance status). *)
Record AttendanceRow : Type := {
  ta_teacher_id : string;
  ta_teacher_name : string;
  ta_attendance : string
}.

(** Modelled from the spec: the schema of [teacher_timetable] is not in
    the sources; the columns are those the queries name, typed as the
    data model's TimetableEntry (free-text description and room, boolean
    "is free" flag). *)
Record TimetableRow : Type := {
  tt_teacher_id : string;
  tt_day_of_week : string;
  tt_slot_id : Z;
  tt_activity_description : string;
  tt_room_location : string;
  tt_is_free : bool
}.

(** Modelled from the spec: the schema of [time_slots] is not in the
    sources; the data model's Slot (identifier, display time range). *)
Record TimeSlotRow : Type := {
  ts_slot_id : Z;
  ts_time_range : string
}.

(** Modelled from the spec: the schema of [teacher_subject_assignment]
    is not in the sources; the data model's SubjectAssignment. *)
Record AssignmentRow : Type := {
  tsa_teacher_id : string;
  tsa_subject_code : string
}.

(** Modelled from the spec: the schema of [subjects] is not in the
    sources; the columns are those [subjectsAggCTE] names. *)
Record SubjectRow : Type := {
  sbj_subject_code : string;
  sbj_subject_name : string
}.

Record Database : Type := {
  teacher_attendance : list AttendanceRow;
  teacher_timetable : list TimetableRow;
  time_slots : list TimeSlotRow;
  teacher_subject_assignment : list AssignmentRow;
  subjects : list SubjectRow
}.

(** MySQL functions and clauses used by the queries. *)
Module SQL.

Definition UPPER (s : string) : string := Str.map Chars.upper s.
Definition LOWER (s : string) : string := Str.map Chars.lower s.
Definition TRIM (s : string) : string := Str.trim_with Chars.is_sql_space s.

(** [SUBSTRING_INDEX(str, delim, 1)] *)
Definition SUBSTRING_INDEX_1 (str delim : string) : string :=
  Str.before_first delim str.

(** [x LIKE '%pat%'] for a [pat] without wildcards. *)
Definition LIKE_infix (x pat : string) : bool := Str.contains pat x.

(** [COALESCE(v1, ..., vn, dflt)] with a non-null last argument. *)
Fixpoint COALESCE (vs : list (option string)) (dflt : string) : string :=
  match vs with
  | [] => dflt
  | Some v :: _ => v
  | None :: vs' => COALESCE vs' dflt
  end.

Section Rows.
Variable A : Type.

Fixpoint insert_sorted (le : A -> A -> bool) (x : A) (l : list A) : list A :=
  match l with
  | [] => [x]
  | y :: l' => if le x y then x :: l else y :: insert_sorted le x l'
  end.

(** [ORDER BY]: stable with respect to the incoming order. *)
Fixpoint ORDER_BY (le : A -> A -> bool) (l : list A) : list A :=
  match l with
  | [] => []
  | x :: l' => insert_sorted le x (ORDER_BY le l')
  end.

(** [LIMIT 1] *)
Definition LIMIT_1 (l : list A) : list A := firstn 1 l.

(** [a LEFT JOIN b ON on]: the matches of one left row, or a single
    null-extended row. *)
Definition left_matches (B : Type) (on : B -> bool) (bs : list B)
  : list (option B) :=
  match filter on bs with
  | [] => [None]
  | ms => List.map Some ms
  end.
End Rows.

(** Distinct values, in order of first occurrence. *)
Fixpoint distinct_from (seen l : list string) : list string :=
  match l with
  | [] => []
  | x :: l' =>
      if existsb (String.eqb x) seen then distinct_from seen l'
      else x :: distinct_from (x :: seen) l'
  end.

Definition DISTINCT (l : list string) : list string := distinct_from [] l.

(** Lexicographic combination of sort keys. *)
Definition then_by (c1 c2 : comparison) : comparison :=
  match c1 with Eq => c2 | _ => c1 end.

Definition not_gt (c : comparison) : bool :=
  match c with Gt => false | _ => true end.

(** Booleans sort as 0 and 1. *)
Definition bool_compare (a b : bool) : comparison :=
  match a, b with
  | false, true => Lt
  | true, false => Gt
  | _, _ => Eq
  end.

End SQL.

(** *** [subjectsAggCTE], lines 53-61 *)

Record SubjectsAgg : Type := {
  sa_teacher_id : string;
  sa_subjects_codes : string;
  sa_subjects_detail : string
}.

(** [teacher_subject_assignment tsa LEFT JOIN subjects s
     ON s.subject_code = tsa.subject_code] *)
Definition tsa_left_join_subjects (db : Database)
  : list (AssignmentRow * option SubjectRow) :=
  flat_map
    (fun tsa =>
       map (fun s => (tsa, s))
         (SQL.left_matches
            (fun s => sbj_subject_code s =? tsa_subject_code tsa)
            (subjects db)))
    (teacher_subject_assignment db).

(** [CONCAT(tsa.subject_code, ' - ', COALESCE(s.subject_name, ''))] *)
Definition detail_item (r : AssignmentRow * option SubjectRow) : string :=
  tsa_subject_code (fst r) ++ " - "
    ++ SQL.COALESCE [option_map sbj_subject_name (snd r)] "".

(** One row per [tsa.teacher_id]; both aggregates are
    [GROUP_CONCAT(DISTINCT ... ORDER BY tsa.subject_code SEPARATOR ...)]
    ([group_concat_max_len] is taken large enough not to truncate). *)
Definition subjects_agg (db : Database) : list SubjectsAgg :=
  let joined := tsa_left_join_subjects db in
  map
    (fun tid =>
       let grp :=
         SQL.ORDER_BY
           (fun a b => String.leb (tsa_subject_code (fst a))
                                  (tsa_subject_code (fst b)))
           (filter (fun r => tsa_teacher_id (fst r) =? tid) joined) in
       {| sa_teacher_id := tid;
          sa_subjects_codes :=
            String.concat ", "
              (SQL.DISTINCT (map (fun r => tsa_subject_code (fst r)) grp));
          sa_subjects_detail :=
            String.concat " | " (SQL.DISTINCT (map detail_item grp)) |})
    (SQL.DISTINCT (map (fun r => tsa_teacher_id (fst r)) joined)).

(** [LEFT JOIN subjects_agg sa ON LOWER(sa.teacher_id) = LOWER(tid)] *)
Definition join_subjects_agg (db : Database) (tid : string)
  : list (option SubjectsAgg) :=
  SQL.left_matches
    (fun sa => SQL.LOWER (sa_teacher_id sa) =? SQL.LOWER tid)
    (subjects_agg db).

(** *** [qAttendance], line 74 *)

Record AttRow : Type := {
  att_teacher_name : string;
  att_attendance : string
}.

Definition qAttendance (db : Database) (p1 : string) : list AttRow :=
  SQL.LIMIT_1
    (map (fun r => {| att_teacher_name := ta_teacher_name r;
                      att_attendance := ta_attendance r |})
       (filter (fun r => SQL.LOWER (ta_teacher_id r) =? SQL.LOWER p1)
          (teacher_attendance db))).

(** *** [qAbsentTeacherInfo], lines 84-94 *)

Record AbsentInfoRow : Type := {
  info_teacher_name : string;
  absent_teacher_subject_detail : string
}.

Definition qAbsentTeacherInfo (db : Database) (p1 : string)
  : list AbsentInfoRow :=
  SQL.LIMIT_1
    (flat_map
       (fun ta =>
          map (fun sa =>
                 {| info_teacher_name := ta_teacher_name ta;
                    absent_teacher_subject_detail :=
                      SQL.COALESCE [option_map sa_subjects_detail sa;
                                    option_map sa_subjects_codes sa]
                        "Subject(s) Not Assigned" |})
            (join_subjects_agg db (ta_teacher_id ta)))
       (filter (fun ta => SQL.LOWER (ta_teacher_id ta) =? SQL.LOWER p1)
          (teacher_attendance db))).

(** *** [qClasses], lines 103-118, and the subquery [c] of [qSubs],
    lines 143-154 *)

(** A class of the absent teacher that needs cover.  [qClasses] and the
    subquery [c] of [qSubs] have the same [FROM], [JOIN] and [WHERE]
    clauses; [qClasses] adds the column [is_lab] and the [ORDER BY]. *)
Record ClassRow : Type := {
  cls_absent_teacher_id : string;
  cls_day_of_week : string;
  cls_slot_id : Z;
  cls_time_range : string;
  cls_class_to_cover : string;
  cls_room_location : string;
  cls_is_lab : bool
}.

Definition classes_of (db : Database) (p1 p2 : string) : list ClassRow :=
  flat_map
    (fun tt =>
       flat_map
         (fun ts =>
            if (ts_slot_id ts =? tt_slot_id tt)%Z
               && (SQL.LOWER (tt_teacher_id tt) =? SQL.LOWER p1)
               && (SQL.UPPER (tt_day_of_week tt) =? SQL.UPPER p2)
               && Bool.eqb (tt_is_free tt) false
            then [ {| cls_absent_teacher_id := tt_teacher_id tt;
                      cls_day_of_week := tt_day_of_week tt;
                      cls_slot_id := tt_slot_id tt;
                      cls_time_range := ts_time_range ts;
                      cls_class_to_cover := tt_activity_description tt;
                      cls_room_location := tt_room_location tt;
                      cls_is_lab :=
                        SQL.LIKE_infix
                          (SQL.UPPER (tt_activity_description tt)) "LAB" |} ]
            else [])
         (time_slots db))
    (teacher_timetable db).

Definition qClasses (db : Database) (p1 p2 : string) : list ClassRow :=
  SQL.ORDER_BY (fun a b => (cls_slot_id a <=? cls_slot_id b)%Z)
    (classes_of db p1 p2).

(** *** [qSubs], lines 121-178 *)

Definition BEST_FIT : string := "BEST FIT (Same Subject)".
Definition GOOD_FIT : string := "GOOD FIT (Free, Any Subject)".

Record SubRow : Type := {
  sub_absent_teacher_id : string;
  sub_slot_id : Z;
  sub_time_range : string;
  sub_class_to_cover : string;
  sub_room_location : string;
  substitute_teacher_id : string;
  substitute_teacher_name : string;
  sub_subjects_codes : string;
  sub_subjects_detail : string;
  substitution_priority : string
}.

(** [EXISTS (SELECT 1 FROM teacher_timetable t
             WHERE LOWER(t.teacher_id) = LOWER(tid)
               AND UPPER(t.day_of_week) = UPPER(day)
               AND t.slot_id = slot AND t.is_free = free)] *)
Definition exists_timetable (db : Database) (tid day : string) (slot : Z)
           (free : bool) : bool :=
  existsb
    (fun t =>
       (SQL.LOWER (tt_teacher_id t) =? SQL.LOWER tid)
       && (SQL.UPPER (tt_day_of_week t) =? SQL.UPPER day)
       && (tt_slot_id t =? slot)%Z
       && Bool.eqb (tt_is_free t) free)
    (teacher_timetable db).

(** The [EXISTS] of the [CASE]. *)
Definition teaches_subject_of (db : Database) (tid class_to_cover : string)
  : bool :=
  existsb
    (fun tsa =>
       (SQL.LOWER (tsa_teacher_id tsa) =? SQL.LOWER tid)
       && (SQL.UPPER (SQL.TRIM (tsa_subject_code tsa))
           =? SQL.UPPER (SQL.SUBSTRING_INDEX_1 class_to_cover " - ")))
    (teacher_subject_assignment db).

Definition priority_of (db : Database) (tid class_to_cover : string)
  : string :=
  if teaches_subject_of db tid class_to_cover then BEST_FIT else GOOD_FIT.

(** [JOIN teacher_attendance s ON ...] *)
Definition on_present_other (c : ClassRow) (s : AttendanceRow) : bool :=
  (SQL.UPPER (SQL.TRIM (ta_attendance s)) =? "PRESENT")
  && negb (SQL.LOWER (ta_teacher_id s)
           =? SQL.LOWER (cls_absent_teacher_id c)).

(** The [WHERE] clause. *)
Definition where_available (db : Database) (c : ClassRow) (s : AttendanceRow)
  : bool :=
  exists_timetable db (ta_teacher_id s) (cls_day_of_week c) (cls_slot_id c) true
  || negb (exists_timetable db (ta_teacher_id s) (cls_day_of_week c)
             (cls_slot_id c) false).

Definition sub_row (db : Database) (c : ClassRow) (s : AttendanceRow)
           (sa : option SubjectsAgg) : SubRow :=
  {| sub_absent_teacher_id := cls_absent_teacher_id c;
     sub_slot_id := cls_slot_id c;
     sub_time_range := cls_time_range c;
     sub_class_to_cover := cls_class_to_cover c;
     sub_room_location := cls_room_location c;
     substitute_teacher_id := ta_teacher_id s;
     substitute_teacher_name := ta_teacher_name s;
     sub_subjects_codes := SQL.COALESCE [option_map sa_subjects_codes sa] "";
     sub_subjects_detail := SQL.COALESCE [option_map sa_subjects_detail sa] "";
     substitution_priority :=
       priority_of db (ta_teacher_id s) (cls_class_to_cover c) |}.

(** [ORDER BY c.slot_id,
             (substitution_priority = 'BEST FIT (Same Subject)') DESC,
             s.teacher_name] *)
Definition is_best (r : SubRow) : bool := substitution_priority r =? BEST_FIT.

Definition sub_compare (a b : SubRow) : comparison :=
  SQL.then_by (Z.compare (sub_slot_id a) (sub_slot_id b))
    (SQL.then_by (SQL.bool_compare (is_best b) (is_best a))
       (String.compare (substitute_teacher_name a)
                       (substitute_teacher_name b))).

Definition sub_le (a b : SubRow) : bool := SQL.not_gt (sub_compare a b).

Definition subs_of (db : Database) (p1 p2 : string) : list SubRow :=
  flat_map
    (fun c =>
       flat_map
         (fun s =>
            if on_present_other c s && where_available db c s
            then map (sub_row db c s) (join_subjects_agg db (ta_teacher_id s))
            else [])
         (teacher_attendance db))
    (classes_of db p1 p2).

(** The statement has two placeholders; [findSubstitutes] passes four
    values, of which the client-side formatter uses the first two. *)
Definition qSubs (db : Database) (p1 p2 _p3 _p4 : string) : list SubRow :=
  SQL.ORDER_BY sub_le (subs_of db p1 p2).

(* ================================================================= *)
(** ** The store handle [sqldb] and exceptions *)

(** What a failed read rejects with: the driver's error, whatever it is. *)
Inductive StoreError : Type :=
| MkStoreError (code : string).

Inductive Query : Type :=
| QAttendance
| QAbsentTeacherInfo
| QClasses
| QSubs.

(** The store during one resolution: the tables, and for each read
    whether it fails ([findSubstitutes] issues each read at most once). *)
Record Store : Type := {
  tables : Database;
  fault : Query -> option StoreError
}.

(** A thrown value: an [Error] made by [server.js], or the rejection of
    the store, passed on as it is. *)
Inductive thrown : Type :=
| JsError (message : string)
| StoreRejection (e : StoreError).

Inductive outcome (A : Type) : Type :=
| Returned (a : A)
| Thrown (t : thrown).

Arguments Returned {A} a.
Arguments Thrown {A} t.

Definition bind {A B : Type} (m : outcome A) (k : A -> outcome B)
  : outcome B :=
  match m with
  | Returned a => k a
  | Thrown t => Thrown t
  end.

Notation "x <- m ;; k" := (bind m (fun x => k))
  (at level 61, m at next level, right associativity).

(** [try { body } catch (error) { handler }] *)
Definition try_catch {A : Type} (body : outcome A)
           (handler : thrown -> outcome A) : outcome A :=
  match body with
  | Returned a => Returned a
  | Thrown t => handler t
  end.

(** [await sqldb.query(q, params)], with [rows] what the statement
    evaluates to on the tables. *)
Definition sqldb_query {R : Type} (st : Store) (q : Query) (rows : R)
  : outcome R :=
  match fault st q with
  | Some e => Thrown (StoreRejection e)
  | None => Returned rows
  end.

(* ================================================================= *)
(** ** [findSubstitutes], lines 64-228 *)

Record Candidate : Type := {
  substitute_id : string;
  substitute_name : string;
  priority : string;
  subjects_codes : string;
  subjects_detail : string
}.

Record CoverageSlot : Type := {
  slot_id : Z;
  slot : string;
  class_info : string;
  subject : string;
  room : option string;
  is_lab : bool;
  available_substitutes : list Candidate
}.

Record Report : Type := {
  absentName : string;
  absentTeacherSubjectDetail : string;
  schedule : list CoverageSlot;
  note : option string
}.

(** A [Map] with string keys: the entries in insertion order. *)
Module JsMap.
Section Values.
Variable V : Type.

Definition t : Type := list (string * V).

Definition has (key : string) (m : t) : bool :=
  existsb (fun kv => fst kv =? key) m.

(** [m.set(key, v)]: a present key keeps its place. *)
Fixpoint set (key : string) (v : V) (m : t) : t :=
  match m with
  | [] => [(key, v)]
  | (k, v0) :: m' =>
      if k =? key then (k, v) :: m' else (k, v0) :: set key v m'
  end.

(** Mutation of the object stored under [key]. *)
Fixpoint update (key : string) (f : V -> V) (m : t) : t :=
  match m with
  | [] => []
  | (k, v) :: m' =>
      if k =? key then (k, f v) :: m' else (k, v) :: update key f m'
  end.

(** [Array.from(m.values())] *)
Definition values (m : t) : list V := map snd m.
End Values.
End JsMap.

(** [`${n}`] for an integer [n]. *)
Definition string_of_Z (z : Z) : string := NilZero.string_of_int (Z.to_int z).

(** [`${slot_id}|${class_to_cover}`] *)
Definition key_of (slot_id : Z) (class_to_cover : string) : string :=
  string_of_Z slot_id ++ "|" ++ class_to_cover.

(** [x || null] on a string. *)
Definition or_null (s : string) : option string :=
  if Str.is_empty s then None else Some s.

Definition new_slot (row : ClassRow) : CoverageSlot :=
  {| slot_id := cls_slot_id row;
     slot := cls_time_range row;
     class_info := cls_class_to_cover row;
     subject := extractSubjectCode (JStr (cls_class_to_cover row));
     room := or_null (cls_room_location row);
     is_lab := cls_is_lab row;
     available_substitutes := [] |}.

(** Body of [for (const row of classes)], lines 194-207. *)
Definition add_class (byKey : JsMap.t CoverageSlot) (row : ClassRow)
  : JsMap.t CoverageSlot :=
  let key := key_of (cls_slot_id row) (cls_class_to_cover row) in
  if negb (JsMap.has key byKey) then JsMap.set key (new_slot row) byKey
  else byKey.

Definition candidate_of (s : SubRow) : Candidate :=
  {| substitute_id := substitute_teacher_id s;
     substitute_name := substitute_teacher_name s;
     priority := substitution_priority s;
     subjects_codes := sub_subjects_codes s;
     subjects_detail := sub_subjects_detail s |}.

(** [slot.available_substitutes.push(c)] *)
Definition push_substitute (c : Candidate) (sl : CoverageSlot)
  : CoverageSlot :=
  {| slot_id := slot_id sl;
     slot := slot sl;
     class_info := class_info sl;
     subject := subject sl;
     room := room sl;
     is_lab := is_lab sl;
     available_substitutes := (available_substitutes sl ++ [c])%list |}.

(** Body of [for (const s of subs)], lines 209-220: the slot stored
    under the key is mutated in place. *)
Definition add_sub (byKey : JsMap.t CoverageSlot) (s : SubRow)
  : JsMap.t CoverageSlot :=
  let key := key_of (sub_slot_id s) (sub_class_to_cover s) in
  if JsMap.has key byKey
  then JsMap.update key (push_substitute (candidate_of s)) byKey
  else byKey.

(** [arr.sort(cmp)]: stable; [cmp a b <= 0] keeps [a] before [b]. *)
Definition js_sort {A : Type} (cmp : A -> A -> Z) (l : list A) : list A :=
  SQL.ORDER_BY (fun a b => (cmp a b <=? 0)%Z) l.

(** The grouping and ordering at the end of the [try] block, lines
    193-222. *)
Definition build_schedule (classes : list ClassRow) (subs : list SubRow)
  : list CoverageSlot :=
  let byKey := fold_left add_class classes [] in
  let byKey := fold_left add_sub subs byKey in
  js_sort (fun a b => (slot_id a - slot_id b)%Z) (JsMap.values byKey).

Definition NOT_ABSENT_NOTE : string :=
  "Teacher is not marked as ABSENT in attendance table".

Definition WRAPPED_MESSAGE : string :=
  "Database query failed during substitution search.".

Definition findSubstitutes (st : Store) (absentTeacherIdRaw targetDayRaw : jsval)
  : outcome Report :=
  let absentTeacherId :=
    JS.trim (JS.String_ (JS.or absentTeacherIdRaw (JStr ""))) in
  let targetDay := normalizeDay (JS.or targetDayRaw (JStr "")) in
  if negb (JS.truthy (JStr absentTeacherId))
  then Thrown (JsError "Invalid absent teacher ID.")
  else if negb (JS.truthy targetDay)
  then Thrown (JsError "Invalid or missing day.")
  else
    attRows <- sqldb_query st QAttendance
                 (qAttendance (tables st) absentTeacherId) ;;
    match attRows with
    | [] =>
        Returned {| absentName := "Teacher ID: " ++ absentTeacherId;
                    absentTeacherSubjectDetail := "N/A";
                    schedule := [];
                    note := Some "Teacher not found" |}
    | teacherRow :: _ =>
        let isAbsent :=
          JS.toUpperCase (JS.trim (att_attendance teacherRow)) =? "ABSENT" in
        let absentTeacherName :=
          if negb (Str.is_empty (att_teacher_name teacherRow))
          then att_teacher_name teacherRow
          else "Teacher ID: " ++ absentTeacherId in
        absentInfo <- sqldb_query st QAbsentTeacherInfo
                        (qAbsentTeacherInfo (tables st) absentTeacherId) ;;
        let absentTeacherSubjectDetail :=
          match absentInfo with
          | info :: _ => absent_teacher_subject_detail info
          | [] => "N/A"
          end in
        if negb isAbsent
        then Returned {| absentName := absentTeacherName;
                         absentTeacherSubjectDetail := absentTeacherSubjectDetail;
                         schedule := [];
                         note := Some NOT_ABSENT_NOTE |}
        else
          try_catch
            (classes <- sqldb_query st QClasses
                          (qClasses (tables st) absentTeacherId
                             (JS.String_ targetDay)) ;;
             match classes with
             | [] =>
                 Returned {| absentName := absentTeacherName;
                             absentTeacherSubjectDetail :=
                               absentTeacherSubjectDetail;
                             schedule := [];
                             note := None |}
             | _ :: _ =>
                 subs <- sqldb_query st QSubs
                           (qSubs (tables st) absentTeacherId
                              (JS.String_ targetDay) absentTeacherId
                              (JS.String_ targetDay)) ;;
                 Returned {| absentName := absentTeacherName;
                             absentTeacherSubjectDetail :=
                               absentTeacherSubjectDetail;
                             schedule := build_schedule classes subs;
                             note := None |}
             end)
            (fun _error => Thrown (JsError WRAPPED_MESSAGE))
    end.

(* ================================================================= *)
(** ** Notions used in the statements *)

(** The run of letters, digits and underscores that starts [d] once its
    leading white space is passed, as [/^\s*([A-Za-z0-9_]+)/] captures
    it. *)
Definition leading_word (d : string) : string :=
  Str.take_while Chars.is_word_char (Str.drop_while Chars.is_js_space d).

(** Text made of ASCII code units only, on which the embedding of the
    string operations is exact; and a value that is such a text or is
    not a string. *)
Definition ascii_text (s : string) : bool := Str.all Chars.is_ascii s.

Definition ascii_value (v : jsval) : bool :=
  match v with
  | JStr s => ascii_text s
  | _ => true
  end.

(** [extractSubjectCode] as the specification words it, on the
    description itself: "N/A" for the empty text; the first segment of
    the split on " - ", trimmed and upper-cased, when it is made of
    letters, digits and underscores only; otherwise the upper-cased
    leading run, or "N/A" without one. *)
Definition extractSubjectCode_described (d : string) : string :=
  if Str.is_empty d then "N/A"
  else
    let seg := JS.toUpperCase (JS.trim (Str.before_first " - " d)) in
    if negb (Str.is_empty seg) && Str.all Chars.is_word_char seg then seg
    else if Str.is_empty (leading_word d) then "N/A"
    else JS.toUpperCase (leading_word d).

(** The identity of a coverage slot: slot identifier and class
    description. *)
Definition slot_key (sl : CoverageSlot) : Z * string :=
  (slot_id sl, class_info sl).

Definition class_key (r : ClassRow) : Z * string :=
  (cls_slot_id r, cls_class_to_cover r).

Definition sub_key (s : SubRow) : Z * string :=
  (sub_slot_id s, sub_class_to_cover s).

Definition pair_eqb (a b : Z * string) : bool :=
  (fst a =? fst b)%Z && (snd a =? snd b).

(** The rows of [l] that are the first with their key, [seen] being the
    keys met so far. *)
Fixpoint first_of_each_key (seen : list (Z * string)) (l : list ClassRow)
  : list ClassRow :=
  match l with
  | [] => []
  | r :: l' =>
      if existsb (pair_eqb (class_key r)) seen
      then first_of_each_key seen l'
      else r :: first_of_each_key (class_key r :: seen) l'
  end.

(** The candidates the rows [subs] give to the slot of key [k], in the
    order of [subs]. *)
Definition candidates_for (subs : list SubRow) (k : Z * string)
  : list Candidate :=
  map candidate_of (filter (fun s => pair_eqb (sub_key s) k) subs).

Definition with_substitutes (sl : CoverageSlot) (cs : list Candidate)
  : CoverageSlot :=
  {| slot_id := slot_id sl;
     slot := slot sl;
     class_info := class_info sl;
     subject := subject sl;
     room := room sl;
     is_lab := is_lab sl;
     available_substitutes := cs |}.

(** A coverage slot without its candidate list: the metadata. *)
Definition metadata (sl : CoverageSlot) : CoverageSlot :=
  with_substitutes sl [].

Definition slot_le (a b : CoverageSlot) : Prop := (slot_id a <= slot_id b)%Z.

(** The parameters [findSubstitutes] derives from its arguments. *)
Definition id_of (absentTeacherIdRaw : jsval) : string :=
  JS.trim (JS.String_ (JS.or absentTeacherIdRaw (JStr ""))).

Definition day_of (targetDayRaw : jsval) : string :=
  JS.String_ (normalizeDay (JS.or targetDayRaw (JStr ""))).

(** The teacher's name, or the fallback built from the identifier. *)
Definition resolved_name (row : AttRow) (id : string) : string :=
  if negb (Str.is_empty (att_teacher_name row)) then att_teacher_name row
  else "Teacher ID: " ++ id.

(** The subject-detail summary read by [qAbsentTeacherInfo]. *)
Definition subject_detail_of (db : Database) (id : string) : string :=
  match qAbsentTeacherInfo db id with
  | info :: _ => absent_teacher_subject_detail info
  | [] => "N/A"
  end.

Definition marked_absent (row : AttRow) : bool :=
  JS.toUpperCase (JS.trim (att_attendance row)) =? "ABSENT".

(** The attendance row a resolution works with: the first whose
    identifier is [id], case-insensitively. *)
Definition teacher_row (db : Database) (id : string) : option AttendanceRow :=
  find (fun ta => SQL.LOWER (ta_teacher_id ta) =? SQL.LOWER id)
    (teacher_attendance db).

(** The name reported for a teacher: the display name, or the identifier
    asked for when the display name is empty. *)
Definition display_name (ta : AttendanceRow) (id : string) : string :=
  if Str.is_empty (ta_teacher_name ta) then "Teacher ID: " ++ id
  else ta_teacher_name ta.

(** The subject-detail summary of teacher [tid]: the "code - name" list of
    the teacher's aggregated assignments, or the literal for a teacher
    without assignments. *)
Definition subject_summary (db : Database) (tid : string) : string :=
  match filter (fun sa => SQL.LOWER (sa_teacher_id sa) =? SQL.LOWER tid)
          (subjects_agg db) with
  | sa :: _ => sa_subjects_detail sa
  | [] => "Subject(s) Not Assigned"
  end.

(** The identifier is, case-insensitively, that of a teacher of the
    store. *)
Definition known (db : Database) (id : string) : bool :=
  existsb (fun ta => SQL.LOWER (ta_teacher_id ta) =? SQL.LOWER id)
    (teacher_attendance db).

(** The identifier is that of a teacher of the store who is marked
    absent. *)
Definition known_absent (db : Database) (id : string) : bool :=
  match qAttendance db id with
  | row :: _ => marked_absent row
  | [] => false
  end.

(** The timetable entries of teacher [id] on [day] that are not free. *)
Definition needs_cover (id day : string) (tt : TimetableRow) : bool :=
  (SQL.LOWER (tt_teacher_id tt) =? SQL.LOWER id)
  && (SQL.UPPER (tt_day_of_week tt) =? SQL.UPPER day)
  && negb (tt_is_free tt).

Definition entries_to_cover (db : Database) (id day : string)
  : list TimetableRow :=
  filter (needs_cover id day) (teacher_timetable db).

Definition timetable_key (tt : TimetableRow) : Z * string :=
  (tt_slot_id tt, tt_activity_description tt).

(** The slot identifier has a row in [time_slots]. *)
Definition slot_known (db : Database) (z : Z) : bool :=
  existsb (fun ts => (ts_slot_id ts =? z)%Z) (time_slots db).

(** Row [t] of the timetable is that of teacher [tid] for [day] and
    [slot]. *)
Definition in_cell (tid day : string) (slot : Z) (t : TimetableRow) : bool :=
  (SQL.LOWER (tt_teacher_id t) =? SQL.LOWER tid)
  && (SQL.UPPER (tt_day_of_week t) =? SQL.UPPER day)
  && (tt_slot_id t =? slot)%Z.

(** Teacher [tid] has some timetable entry, free or busy, for [day] and
    [slot]. *)
Definition has_entry (db : Database) (tid day : string) (slot : Z) : bool :=
  existsb (in_cell tid day slot) (teacher_timetable db).

Definition has_free_entry (db : Database) (tid day : string) (slot : Z)
  : bool :=
  existsb (fun t => in_cell tid day slot t && tt_is_free t)
    (teacher_timetable db).

Definition has_busy_entry (db : Database) (tid day : string) (slot : Z)
  : bool :=
  existsb (fun t => in_cell tid day slot t && negb (tt_is_free t))
    (teacher_timetable db).

(** The eligibility of teacher [sid] to cover [slot] on [day] for the
    absent teacher [absent]. *)
Definition eligible (db : Database) (absent day : string) (slot : Z)
           (sid : string) : Prop :=
  (exists ta, In ta (teacher_attendance db)
              /\ ta_teacher_id ta = sid
              /\ SQL.UPPER (SQL.TRIM (ta_attendance ta)) = "PRESENT")
  /\ SQL.LOWER sid <> SQL.LOWER absent
  /\ (has_free_entry db sid day slot = true
      \/ has_entry db sid day slot = false).

(** Modelled from the spec: the key of [teacher_timetable], whose schema
    is not in the sources.  The data model has a timetable entry unique
    per teacher (a case-insensitive key), day and slot. *)
Fixpoint timetable_unique (l : list TimetableRow) : bool :=
  match l with
  | [] => true
  | t :: l' =>
      negb (existsb (in_cell (tt_teacher_id t) (tt_day_of_week t)
                       (tt_slot_id t)) l')
      && timetable_unique l'
  end.

(** A three-way comparison that behaves as an order with ties. *)
Record cmp_ok (A : Type) (cmp : A -> A -> comparison) : Prop := {
  cmp_antisym : forall a b, cmp b a = CompOpp (cmp a b);
  cmp_eq_l : forall a b c, cmp a b = Eq -> cmp a c = cmp b c;
  cmp_lt_trans : forall a b c, cmp a b = Lt -> cmp b c = Lt -> cmp a c = Lt
}.

(** The order of two candidates of one slot: the first is not after the
    second in "best fit first, then by name". *)
Definition cand_before (a b : Candidate) : Prop :=
  (priority b = BEST_FIT -> priority a = BEST_FIT)
  /\ (priority a = priority b ->
      String.leb (substitute_name a) (substitute_name b) = true).

(** The comparator of the final [sort]. *)
Definition by_slot_id (a b : CoverageSlot) : Z := (slot_id a - slot_id b)%Z.

(** The reads a resolution issues when the reads before them go through:
    the attendance read always, the subject-detail read for a known
    teacher, the coverage read for an absent one, the candidate read when
    there are classes to cover. *)
Definition issued (db : Database) (id day : string) (q : Query) : bool :=
  match q with
  | QAttendance => true
  | QAbsentTeacherInfo => known db id
  | QClasses => known_absent db id
  | QSubs =>
      known_absent db id
      && match qClasses db id day with [] => false | _ :: _ => true end
  end.

(** All four reads go through. *)
Definition healthy (st : Store) : Prop := forall q, fault st q = None.

(** The map entry the first loop makes for a class row. *)
Definition entry (r : ClassRow) : string * CoverageSlot :=
  (key_of (cls_slot_id r) (cls_class_to_cover r), new_slot r).

(** A slot after the rows [subs] have been pushed to it. *)
Definition attach (subs : list SubRow) (sl : CoverageSlot) : CoverageSlot :=
  with_substitutes sl
    (available_substitutes sl ++ candidates_for subs (slot_key sl))%list.

(** Every entry sits under the key of its slot, and no key occurs twice. *)
Definition keyed (m : JsMap.t CoverageSlot) : Prop :=
  Forall (fun kv => fst kv = key_of (slot_id (snd kv)) (class_info (snd kv))) m
  /\ NoDup (map fst m).

(** No ["|"] in [s]. *)
Definition no_bar (s : string) : bool :=
  Str.all (fun c => negb (Ascii.eqb c "|")) s.

(* ================================================================= *)
(** ** Sample stores *)

(** T1 is absent and has two classes on Monday; T2, T3 and T4 are
    present, T3 is busy in slot 1 and T4 is free there. *)
Definition demo_db : Database :=
  {| teacher_attendance :=
       [ {| ta_teacher_id := "T1"; ta_teacher_name := "Asha";
            ta_attendance := "Absent" |};
         {| ta_teacher_id := "T2"; ta_teacher_name := "Zed";
            ta_attendance := " present " |};
         {| ta_teacher_id := "T3"; ta_teacher_name := "Bob";
            ta_attendance := "PRESENT" |};
         {| ta_teacher_id := "T4"; ta_teacher_name := "Cy";
            ta_attendance := "PRESENT" |} ];
     teacher_timetable :=
       [ {| tt_teacher_id := "t1"; tt_day_of_week := "Mon"; tt_slot_id := 2;
            tt_activity_description := "CS101 - Lab work";
            tt_room_location := ""; tt_is_free := false |};
         {| tt_teacher_id := "T1"; tt_day_of_week := "MON"; tt_slot_id := 1;
            tt_activity_description := "MATH - Algebra";
            tt_room_location := "R1"; tt_is_free := false |};
         {| tt_teacher_id := "T3"; tt_day_of_week := "MON"; tt_slot_id := 1;
            tt_activity_description := "PHY - Optics";
            tt_room_location := "R2"; tt_is_free := false |};
         {| tt_teacher_id := "T4"; tt_day_of_week := "MON"; tt_slot_id := 1;
            tt_activity_description := "";
            tt_room_location := ""; tt_is_free := true |} ];
     time_slots := [ {| ts_slot_id := 1; ts_time_range := "9-10" |};
                     {| ts_slot_id := 2; ts_time_range := "10-11" |} ];
     teacher_subject_assignment :=
       [ {| tsa_teacher_id := "T2"; tsa_subject_code := " math " |};
         {| tsa_teacher_id := "T2"; tsa_subject_code := "CS101" |};
         {| tsa_teacher_id := "T4"; tsa_subject_code := "cs101" |} ];
     subjects := [ {| sbj_subject_code := "CS101";
                      sbj_subject_name := "Computing" |} ] |}.

Definition no_fault : Query -> option StoreError := fun _ => None.

Definition demo_store : Store := {| tables := demo_db; fault := no_fault |}.

(** T1 is absent and teaches in slot 7, which [time_slots] does not
    list. *)
Definition unlisted_slot_db : Database :=
  {| teacher_attendance :=
       [ {| ta_teacher_id := "T1"; ta_teacher_name := "Asha";
            ta_attendance := "ABSENT" |} ];
     teacher_timetable :=
       [ {| tt_teacher_id := "T1"; tt_day_of_week := "MON"; tt_slot_id := 7;
            tt_activity_description := "MATH - Algebra";
            tt_room_location := "R1"; tt_is_free := false |} ];
     time_slots := [ {| ts_slot_id := 1; ts_time_range := "9-10" |} ];
     teacher_subject_assignment := [];
     subjects := [] |}.

Definition unlisted_slot_store : Store :=
  {| tables := unlisted_slot_db; fault := no_fault |}.

(** T1 is absent and teaches in slot 1; T2 is present and has two
    entries for that slot, one busy and one free. *)
Definition double_entry_db : Database :=
  {| teacher_attendance :=
       [ {| ta_teacher_id := "T1"; ta_teacher_name := "Asha";
            ta_attendance := "ABSENT" |};
         {| ta_teacher_id := "T2"; ta_teacher_name := "Zed";
            ta_attendance := "PRESENT" |} ];
     teacher_timetable :=
       [ {| tt_teacher_id := "T1"; tt_day_of_week := "MON"; tt_slot_id := 1;
            tt_activity_description := "MATH - Algebra";
            tt_room_location := "R1"; tt_is_free := false |};
         {| tt_teacher_id := "T2"; tt_day_of_week := "MON"; tt_slot_id := 1;
            tt_activity_description := "PHY - Optics";
            tt_room_location := "R2"; tt_is_free := false |};
         {| tt_teacher_id := "T2"; tt_day_of_week := "MON"; tt_slot_id := 1;
            tt_activity_description := "";
            tt_room_location := ""; tt_is_free := true |} ];
     time_slots := [ {| ts_slot_id := 1; ts_time_range := "9-10" |} ];
     teacher_subject_assignment := [];
     subjects := [] |}.

Definition double_entry_store : Store :=
  {| tables := double_entry_db; fault := no_fault |}.

(** The demo tables behind a store whose attendance read fails. *)
Definition attendance_down : Query -> option StoreError :=
  fun q =>
    match q with
    | QAttendance => Some (MkStoreError "ECONNRESET")
    | _ => None
    end.

Definition attendance_down_store : Store :=
  {| tables := demo_db; fault := attendance_down |}.

(** The demo tables behind a store whose candidate read fails. *)
Definition subs_down : Query -> option StoreError :=
  fun q =>
    match q with
    | QSubs => Some (MkStoreError "ER_PARSE_ERROR")
    | _ => None
    end.

Definition subs_down_store : Store :=
  {| tables := demo_db; fault := subs_down |}.

(* ================================================================= *)
(** ** The routes of [server.js] *)

(** A handler is a function from the request to the response it sends
    (and, for the one that writes, to the tables afterwards).  Route
    parameters are strings; the fields of a JSON body are values of
    [jsval], so numbers, arrays and objects in a body are not covered. *)

(** A value that [findSubstitutes] takes for missing: falsy, or a string
    of (ASCII) white space only. *)
Definition blank (v : jsval) : bool :=
  match v with
  | JStr s => Str.all Chars.is_js_space s
  | _ => negb (JS.truthy v)
  end.

(** [error.message] of a thrown value; the text a [StoreError] carries is
    the message of the driver's error. *)
Definition message_of (t : thrown) : string :=
  match t with
  | JsError m => m
  | StoreRejection (MkStoreError m) => m
  end.

(** [s || dflt] on strings. *)
Definition or_string (s dflt : string) : string :=
  if Str.is_empty s then dflt else s.

(** [x || undefined] on an optional string. *)
Definition or_undefined (x : option string) : option string :=
  match x with
  | Some s => if Str.is_empty s then None else Some s
  | None => None
  end.

(** A route parameter or body field that may be missing:
    [req.params.x || ''] on a string-valued parameter. *)
Definition param_or_empty (x : option string) : string :=
  match x with
  | Some s => s
  | None => ""
  end.

(** What [GET /api/substitute/:teacherId/:day] sends. *)
Inductive SubstituteResponse : Type :=
| SubstituteOk (absent_teacher absent_teacher_subject : string)
               (schedule_to_cover : list CoverageSlot)
               (note_field : option string)
| SubstituteError (status : Z) (message : string).

(** The handler of [GET /api/substitute/:teacherId/:day], lines
    260-279. *)
Definition get_substitute (st : Store) (teacherId day : option string)
  : SubstituteResponse :=
  let absentTeacherId := JS.toUpperCase (param_or_empty teacherId) in
  let targetDay := normalizeDay (JStr (param_or_empty day)) in
  if negb (JS.truthy (JStr absentTeacherId))
  then SubstituteError 400 "Missing teacherId param."
  else if negb (JS.truthy targetDay)
  then SubstituteError 400 "Missing or invalid day param."
  else
    match findSubstitutes st (JStr absentTeacherId) targetDay with
    | Returned result =>
        SubstituteOk
          (or_string (absentName result) ("Teacher ID: " ++ absentTeacherId))
          (or_string (absentTeacherSubjectDetail result) "N/A")
          (schedule result)
          (or_undefined (note result))
    | Thrown error =>
        SubstituteError 500
          ("Error fetching substitution data: "
             ++ or_string (message_of error) "unknown")
    end.

(** A response whose body is [{ message }]. *)
Record MessageResponse : Type := {
  status_code : Z;
  message_text : string
}.

(** [UPDATE teacher_attendance SET attendance = ? WHERE teacher_id = ?],
    line 251: the table afterwards. *)
Definition UPDATE_attendance (db : Database) (attendance teacher_id : string)
  : Database :=
  {| teacher_attendance :=
       map (fun r =>
              if ta_teacher_id r =? teacher_id
              then {| ta_teacher_id := ta_teacher_id r;
                      ta_teacher_name := ta_teacher_name r;
                      ta_attendance := attendance |}
              else r)
         (teacher_attendance db);
     teacher_timetable := teacher_timetable db;
     time_slots := time_slots db;
     teacher_subject_assignment := teacher_subject_assignment db;
     subjects := subjects db |}.

(** [result.affectedRows] of that statement: the rows the [WHERE] clause
    matches (the driver connects with the found-rows flag). *)
Definition affectedRows (db : Database) (teacher_id : string) : nat :=
  length (filter (fun r => ta_teacher_id r =? teacher_id)
            (teacher_attendance db)).

(** The handler of [POST /api/attendance], lines 244-258, on the tables:
    the response and the tables afterwards.  [failure] is the rejection
    of the statement, if it fails; a failed statement changes nothing. *)
Definition post_attendance (db : Database) (failure : option StoreError)
           (teacherId status : jsval) : MessageResponse * Database :=
  if negb (JS.truthy teacherId) || negb (JS.truthy status)
  then ({| status_code := 400;
           message_text := "Missing teacherId or status." |}, db)
  else
    match teacherId with
    | JStr t =>
        if (50 <? String.length t)%nat
        then ({| status_code := 400; message_text := "Invalid teacherId." |},
              db)
        else
          let normalized := JS.trim (JS.String_ status) in
          match failure with
          | Some _ =>
              ({| status_code := 500;
                  message_text := "Error updating attendance." |}, db)
          | None =>
              let db' := UPDATE_attendance db normalized t in
              if (affectedRows db t =? 0)%nat
              then ({| status_code := 404;
                       message_text := "Teacher not found." |}, db')
              else ({| status_code := 200;
                       message_text :=
                         "Teacher " ++ t ++ " marked as " ++ normalized
                           ++ "." |}, db')
          end
    | _ => ({| status_code := 400; message_text := "Invalid teacherId." |}, db)
    end.

(** The rows of [GET /api/teachers], line 236:
    [SELECT teacher_id, teacher_name, attendance FROM teacher_attendance
     ORDER BY teacher_id]. *)
Definition qTeachers (db : Database) : list AttendanceRow :=
  SQL.ORDER_BY (fun a b => String.leb (ta_teacher_id a) (ta_teacher_id b))
    (teacher_attendance db).

(** The statement of [GET /api/debug/free/:day/:slot], lines 289-310:
    the present teachers free in a slot, by identifier. *)
Definition qDebugFree (db : Database) (day : string) (slot : Z)
  : list (string * string) :=
  SQL.ORDER_BY (fun a b => String.leb (fst a) (fst b))
    (map (fun s => (ta_teacher_id s, ta_teacher_name s))
       (filter
          (fun s =>
             (SQL.UPPER (SQL.TRIM (ta_attendance s)) =? "PRESENT")
             && (exists_timetable db (ta_teacher_id s) day slot true
                 || negb (exists_timetable db (ta_teacher_id s) day slot
                            false)))
          (teacher_attendance db))).

(** The joined assignment rows of teacher [tid] in [subjectsAggCTE], in
    the order of the aggregates: by subject code. *)
Definition assignment_group (db : Database) (tid : string)
  : list (AssignmentRow * option SubjectRow) :=
  SQL.ORDER_BY
    (fun a b => String.leb (tsa_subject_code (fst a))
                           (tsa_subject_code (fst b)))
    (filter (fun r => tsa_teacher_id (fst r) =? tid)
       (tsa_left_join_subjects db)).

(** The subject codes [subjects_codes] lists for teacher [tid]. *)
Definition listed_codes (db : Database) (tid : string) : list string :=
  SQL.DISTINCT (map (fun r => tsa_subject_code (fst r))
                  (assignment_group db tid)).


(** The row [r] after [SET attendance = ? WHERE teacher_id = ?]. *)
Definition set_attendance (attendance teacher_id : string) (r : AttendanceRow)
  : AttendanceRow :=
  if ta_teacher_id r =? teacher_id
  then {| ta_teacher_id := ta_teacher_id r;
          ta_teacher_name := ta_teacher_name r;
          ta_attendance := attendance |}
  else r.

(* ================================================================= *)
(** ** Properties *)

(** *** Strings *)

Lemma includes_In (l : list string) (s : string) :
  JS.includes l s = true <-> In s l.
Proof.
  unfold JS.includes. rewrite existsb_exists. split.
  - intros [x [Hx Heq]]. apply String.eqb_eq in Heq. now subst.
  - intros H. exists s. split; [assumption | apply String.eqb_refl].
Qed.

Lemma is_empty_true (s : string) : Str.is_empty s = true <-> s = "".
Proof. unfold Str.is_empty. apply String.eqb_eq. Qed.

Lemma is_empty_false (s : string) : Str.is_empty s = false <-> s <> "".
Proof. unfold Str.is_empty. apply String.eqb_neq. Qed.

(** The first element of [split] is the text before the first separator. *)
Lemma split_head (sep s : string) :
  exists rest, JS.split sep s = Str.before_first sep s :: rest.
Proof.
  unfold JS.split, Str.before_first.
  induction s as [| c s' IH].
  - exists []. simpl. now destruct sep.
  - cbn [JS.split_from index]. destruct (prefix sep (String c s')).
    + eexists. reflexivity.
    + destruct IH as [rest IH]. rewrite IH. exists rest.
      destruct (index 0 sep s'); reflexivity.
Qed.

Lemma prefix_append (p s : string) :
  prefix p s = true -> exists rest, s = p ++ rest.
Proof.
  revert s. induction p as [| a p IH]; intros s H.
  - now exists s.
  - destruct s as [| b s]; [discriminate |]. cbn in H.
    destruct (ascii_dec a b) as [-> | _]; [| discriminate].
    destruct (IH s H) as [rest ->]. now exists rest.
Qed.

(** [before_first] cuts at an occurrence of the separator. *)
Lemma before_first_split (sep s : string) :
  (Str.contains sep s = false /\ Str.before_first sep s = s)
  \/ (Str.contains sep s = true
      /\ exists rest, s = Str.before_first sep s ++ sep ++ rest).
Proof.
  unfold Str.contains, Str.before_first.
  induction s as [| c s IH].
  - destruct sep; cbn; [right | left]; split; try reflexivity.
    now exists "".
  - cbn [index]. destruct (prefix sep (String c s)) eqn:Hp.
    + right. split; [reflexivity |]. cbn. now apply prefix_append.
    + destruct (index 0 sep s) as [n |].
      * right. split; [reflexivity |].
        destruct IH as [[H _] | [_ [rest Hrest]]]; [discriminate |].
        exists rest. cbn. now rewrite <- Hrest.
      * left. now split.
Qed.

(** A trimmed string does not start with a stripped character. *)
Lemma drop_while_end_head (p : ascii -> bool) (s : string) :
  Str.drop_while p s = s -> Str.drop_while p (Str.drop_while_end p s)
                            = Str.drop_while_end p s.
Proof.
  destruct s as [| c s']; [reflexivity |].
  simpl. destruct (p c) eqn:Hc.
  - intros H. exfalso.
    assert (Hlen : forall t, String.length (Str.drop_while p t)
                             <= String.length t).
    { induction t as [| d t IHt]; simpl; [lia |].
      destruct (p d); simpl; lia. }
    specialize (Hlen s'). rewrite H in Hlen. simpl in Hlen. lia.
  - intros _. simpl. rewrite Hc. reflexivity.
Qed.

Lemma drop_while_idem (p : ascii -> bool) (s : string) :
  Str.drop_while p (Str.drop_while p s) = Str.drop_while p s.
Proof.
  induction s as [| c s' IH]; [reflexivity |].
  simpl. destruct (p c) eqn:Hc; [assumption |]. simpl. now rewrite Hc.
Qed.

Lemma drop_while_trim (p : ascii -> bool) (s : string) :
  Str.drop_while p (Str.trim_with p s) = Str.trim_with p s.
Proof.
  unfold Str.trim_with. apply drop_while_end_head, drop_while_idem.
Qed.

(** After upper-casing, "letter, digit or underscore" is [[A-Z0-9_]]. *)
Lemma code_char_upper (c : ascii) :
  Chars.is_code_char (Chars.upper c) = Chars.is_word_char c.
Proof.
  destruct c as [[] [] [] [] [] [] [] []]; reflexivity.
Qed.

Lemma all_code_upper (s : string) :
  Str.all Chars.is_code_char (JS.toUpperCase s) = Str.all Chars.is_word_char s.
Proof.
  unfold JS.toUpperCase.
  induction s as [| c s' IH]; [reflexivity |].
  cbn [Str.map Str.all]. now rewrite code_char_upper, IH.
Qed.

Lemma word_char_upper (c : ascii) :
  Chars.is_word_char (Chars.upper c) = Chars.is_word_char c.
Proof.
  destruct c as [[] [] [] [] [] [] [] []]; reflexivity.
Qed.

Lemma all_word_upper (s : string) :
  Str.all Chars.is_word_char (JS.toUpperCase s) = Str.all Chars.is_word_char s.
Proof.
  unfold JS.toUpperCase.
  induction s as [| c s' IH]; [reflexivity |].
  cbn [Str.map Str.all]. now rewrite word_char_upper, IH.
Qed.

(** The test of [extractSubjectCode] on the first segment, as a
    proposition on the upper-cased segment. *)
Lemma test_code_upper (x : string) :
  JS.test_code (JS.toUpperCase x) = true
  <-> JS.toUpperCase x <> ""
      /\ Str.all Chars.is_word_char (JS.toUpperCase x) = true.
Proof.
  unfold JS.test_code.
  rewrite andb_true_iff, negb_true_iff, is_empty_false.
  now rewrite all_code_upper, all_word_upper.
Qed.

(** [extractSubjectCode] on a non-empty string, with [split] and the two
    regular expressions resolved. *)
Lemma extractSubjectCode_unfold (d : string) :
  d <> "" ->
  extractSubjectCode (JStr d) =
    let s := JS.trim d in
    let seg := JS.toUpperCase (JS.trim (Str.before_first " - " s)) in
    let run := Str.take_while Chars.is_word_char s in
    if JS.test_code seg then seg
    else if Str.is_empty run then "N/A" else JS.toUpperCase run.
Proof.
  intros Hd. unfold extractSubjectCode.
  assert (Ht : JS.truthy (JStr d) = true).
  { cbn. apply negb_true_iff, is_empty_false, Hd. }
  rewrite Ht. cbn [negb JS.String_].
  destruct (split_head " - " (JS.trim d)) as [rest Hsplit].
  rewrite Hsplit. cbv zeta.
  set (p0 := Str.before_first " - " (JS.trim d)).
  assert (Hfirst :
    (if negb (Str.is_empty p0)
     then if JS.test_code (JS.toUpperCase (JS.trim p0))
          then Some (JS.toUpperCase (JS.trim p0)) else None
     else None)
    = if JS.test_code (JS.toUpperCase (JS.trim p0))
      then Some (JS.toUpperCase (JS.trim p0)) else None).
  { destruct (Str.is_empty p0) eqn:He; [| reflexivity].
    apply is_empty_true in He. rewrite He. reflexivity. }
  rewrite Hfirst. clear Hfirst.
  destruct (JS.test_code (JS.toUpperCase (JS.trim p0))); [reflexivity |].
  unfold JS.match_leading_word, JS.trim.
  rewrite drop_while_trim.
  set (run := Str.take_while Chars.is_word_char _).
  destruct (Str.is_empty run); reflexivity.
Qed.

(** *** The leading word of a description *)

Lemma space_not_word (c : ascii) :
  Chars.is_js_space c = true -> Chars.is_word_char c = false.
Proof.
  destruct c as [[] [] [] [] [] [] [] []]; cbn; congruence.
Qed.

Lemma take_while_drop_while_end (x : string) :
  Str.take_while Chars.is_word_char (Str.drop_while_end Chars.is_js_space x)
  = Str.take_while Chars.is_word_char x.
Proof.
  induction x as [| c x IH]; [reflexivity |].
  cbn [Str.drop_while_end Str.take_while].
  destruct (Chars.is_word_char c) eqn:Hw.
  - destruct (Chars.is_js_space c) eqn:Hs.
    + apply space_not_word in Hs. congruence.
    + cbn. now rewrite Hw, IH.
  - destruct (Chars.is_js_space c && _); cbn; [reflexivity |].
    now rewrite Hw.
Qed.

Lemma take_while_all (p : ascii -> bool) (y : string) :
  Str.all p y = true -> Str.take_while p y = y.
Proof.
  induction y as [| c y IH]; [reflexivity |]. cbn.
  intros H. apply andb_true_iff in H as [Hc Hy]. now rewrite Hc, IH.
Qed.

Lemma leading_word_trim (d : string) :
  leading_word (JS.trim d) = leading_word d.
Proof.
  unfold leading_word, JS.trim. rewrite drop_while_trim.
  unfold Str.trim_with. apply take_while_drop_while_end.
Qed.

Lemma before_first_cons (sep : string) (c : ascii) (x : string) :
  Str.before_first sep (String c x)
  = if prefix sep (String c x) then ""
    else String c (Str.before_first sep x).
Proof.
  unfold Str.before_first. cbn [index].
  destruct (prefix sep (String c x)); [reflexivity |].
  destruct (index 0 sep x); reflexivity.
Qed.

Lemma prefix_separator (c : ascii) (x : string) :
  prefix " - " (String c x) = true ->
  exists rest, String c x = String " " (String "-" rest).
Proof.
  intros H. apply prefix_append in H as [rest H]. cbn in H.
  rewrite H. now eexists.
Qed.

Lemma take_while_before_first (x : string) :
  Str.take_while Chars.is_word_char (Str.before_first " - " x)
  = Str.take_while Chars.is_word_char x.
Proof.
  induction x as [| c x IH]; [reflexivity |].
  rewrite before_first_cons.
  destruct (prefix " - " (String c x)) eqn:Hp.
  - apply prefix_separator in Hp as [rest ->]. reflexivity.
  - cbn [Str.take_while]. now rewrite IH.
Qed.

(** Cutting at the first " - " keeps the leading word. *)
Lemma leading_word_before_first (x : string) :
  leading_word (Str.before_first " - " x) = leading_word x.
Proof.
  unfold leading_word. induction x as [| c x IH]; [reflexivity |].
  rewrite before_first_cons.
  destruct (prefix " - " (String c x)) eqn:Hp.
  - apply prefix_separator in Hp as [rest ->]. reflexivity.
  - cbn [Str.drop_while].
    destruct (Chars.is_js_space c); [exact IH |].
    cbn [Str.take_while]. now rewrite take_while_before_first.
Qed.

(** A first segment that passes the test is the leading word. *)
Lemma code_segment_leading_word (x : string) :
  JS.test_code (JS.toUpperCase (JS.trim x)) = true ->
  JS.trim x = leading_word x /\ Str.is_empty (leading_word x) = false.
Proof.
  intros H. apply test_code_upper in H as [Hne Hall].
  rewrite all_word_upper in Hall.
  assert (Heq : JS.trim x = leading_word x).
  { unfold leading_word. unfold JS.trim, Str.trim_with in *.
    rewrite <- take_while_drop_while_end. symmetry.
    now apply take_while_all. }
  split; [assumption |]. rewrite <- Heq.
  apply is_empty_false. intros He. apply Hne. now rewrite He.
Qed.

(** [extractSubjectCode] gives the upper-cased leading word of the
    description, or "N/A": the segment before " - ", when it passes
    the test, is that word. *)
Lemma extractSubjectCode_leading_word (d : string) :
  d <> "" ->
  extractSubjectCode (JStr d)
  = if Str.is_empty (leading_word d) then "N/A"
    else JS.toUpperCase (leading_word d).
Proof.
  intros Hd. rewrite (extractSubjectCode_unfold Hd). cbv zeta.
  fold (leading_word (JS.trim d)).
  assert (Hrun : Str.take_while Chars.is_word_char (JS.trim d)
                 = leading_word d).
  { rewrite <- leading_word_trim. unfold leading_word, JS.trim.
    now rewrite drop_while_trim. }
  rewrite Hrun.
  destruct (JS.test_code _) eqn:Ht; [| reflexivity].
  apply code_segment_leading_word in Ht as [Heq Hne].
  rewrite leading_word_before_first, leading_word_trim in Heq, Hne.
  now rewrite Heq, Hne.
Qed.

Lemma extractSubjectCode_described_leading_word (d : string) :
  d <> "" ->
  extractSubjectCode_described d
  = if Str.is_empty (leading_word d) then "N/A"
    else JS.toUpperCase (leading_word d).
Proof.
  intros Hd. unfold extractSubjectCode_described.
  apply is_empty_false in Hd. rewrite Hd. cbv zeta.
  destruct (negb _ && _) eqn:Ht; [| reflexivity].
  assert (Hc : JS.test_code
                 (JS.toUpperCase (JS.trim (Str.before_first " - " d))) = true).
  { apply test_code_upper. apply andb_true_iff in Ht as [H1 H2].
    apply negb_true_iff, is_empty_false in H1. now split. }
  apply code_segment_leading_word in Hc as [Heq Hne].
  rewrite leading_word_before_first in Heq, Hne.
  now rewrite Heq, Hne.
Qed.

Lemma substring_map (f : ascii -> ascii) (n m : nat) (s : string) :
  substring n m (Str.map f s) = Str.map f (substring n m s).
Proof.
  revert n m. induction s as [| c s IH]; intros [| n] [| m]; cbn;
    try reflexivity; now rewrite ?IH.
Qed.

(** C8, as amended.  On strings of ASCII characters: [normalizeDay] maps
    every string that, trimmed and upper-cased, is one of THU, THUR,
    THURS, THURSDAY to "THUR", and any other non-empty string to the
    first three characters of the string once trimmed and upper-cased,
    which on such a string are also the upper-cased first three
    characters of the trimmed string.  A falsy input is returned as it
    is. *)
Theorem normalizeDay_spec :
  (forall s : string,
      ascii_text s = true ->
      In (JS.toUpperCase (JS.trim s)) thursday_spellings ->
      normalizeDay (JStr s) = JStr "THUR")
  /\ (forall s : string,
         ascii_text s = true ->
         s <> "" ->
         ~ In (JS.toUpperCase (JS.trim s)) thursday_spellings ->
         normalizeDay (JStr s)
         = JStr (JS.slice 0 3 (JS.toUpperCase (JS.trim s)))
         /\ JS.slice 0 3 (JS.toUpperCase (JS.trim s))
            = JS.toUpperCase (JS.slice 0 3 (JS.trim s)))
  /\ (forall v : jsval, JS.truthy v = false -> normalizeDay v = v).
Proof.
  split; [| split].
  - intros s _ Hin. unfold normalizeDay.
    assert (Hs : JS.truthy (JStr s) = true).
    { destruct s; [| reflexivity].
      cbn in Hin. intuition discriminate. }
    rewrite Hs. cbn [negb JS.String_].
    apply includes_In in Hin. now rewrite Hin.
  - intros s _ Hs Hnot. split.
    + unfold normalizeDay.
      assert (Ht : JS.truthy (JStr s) = true).
      { cbn. now apply negb_true_iff, is_empty_false. }
      rewrite Ht. cbn [negb JS.String_].
      destruct (JS.includes thursday_spellings _) eqn:Hinc; [| reflexivity].
      apply includes_In in Hinc. contradiction.
    + unfold JS.slice, JS.toUpperCase. apply substring_map.
  - intros v Hv. unfold normalizeDay. now rewrite Hv.
Qed.

Lemma normalizeDay_spec_witness :
  normalizeDay (JStr "  thursday ") = JStr "THUR"
  /\ normalizeDay (JStr " Friday") = JStr "FRI"
  /\ normalizeDay JUndefined = JUndefined.
Proof.
  destruct normalizeDay_spec as [Hthu [Hother Hfalsy]].
  split; [| split].
  - apply Hthu; [reflexivity |].
    vm_compute. right; right; right; left; reflexivity.
  - apply (Hother " Friday").
    + reflexivity.
    + discriminate.
    + vm_compute. intuition discriminate.
  - apply Hfalsy. reflexivity.
Defined.

(** C8 as stated fails on " monday": the result is "MON", the first three
    characters of the trimmed text, while the upper-cased first three
    characters of the string itself are " MO". *)
Lemma normalizeDay_first_three_counterexample :
  " monday" <> ""
  /\ ~ In (JS.toUpperCase (JS.trim " monday")) thursday_spellings
  /\ normalizeDay (JStr " monday") = JStr "MON"
  /\ JS.toUpperCase (JS.slice 0 3 " monday") = " MO"
  /\ normalizeDay (JStr " monday")
     <> JStr (JS.toUpperCase (JS.slice 0 3 " monday")).
Proof.
  repeat split; try reflexivity; try discriminate.
  vm_compute. intuition discriminate.
Qed.

(** C9, as amended.  [extractSubjectCode] returns "N/A" for an empty or
    falsy input.  On a description of ASCII characters it otherwise
    splits the description on " - " and, when the first segment, trimmed
    and upper-cased, is non-empty and made only of letters, digits and
    underscores, returns it; otherwise it returns the upper-cased run of
    letters, digits and underscores that starts the description once its
    leading white space is passed, or "N/A" when there is no such run.
    So "MATH101 - Algebra" gives "MATH101", "intro class" gives "INTRO"
    and "" gives "N/A". *)
Theorem extractSubjectCode_spec :
  (forall v : jsval, JS.truthy v = false -> extractSubjectCode v = "N/A")
  /\ (forall d : string,
         ascii_text d = true ->
         extractSubjectCode (JStr d) = extractSubjectCode_described d)
  /\ extractSubjectCode (JStr "MATH101 - Algebra") = "MATH101"
  /\ extractSubjectCode (JStr "intro class") = "INTRO"
  /\ extractSubjectCode (JStr "") = "N/A".
Proof.
  split; [| split; [| repeat split]].
  - intros v Hv. unfold extractSubjectCode. now rewrite Hv.
  - intros d _. destruct (string_dec d "") as [-> | Hd]; [reflexivity |].
    now rewrite extractSubjectCode_leading_word,
      extractSubjectCode_described_leading_word.
Qed.

Lemma extractSubjectCode_spec_witness :
  extractSubjectCode JNull = "N/A"
  /\ extractSubjectCode (JStr " cs_1  - x") = "CS_1"
  /\ extractSubjectCode (JStr " intro class") = "INTRO"
  /\ extractSubjectCode (JStr "!!! - x") = "N/A".
Proof.
  destruct extractSubjectCode_spec as [Hfalsy [Hmain _]].
  split; [| split; [| split]].
  - apply Hfalsy. reflexivity.
  - rewrite Hmain; reflexivity.
  - rewrite Hmain; reflexivity.
  - rewrite Hmain; reflexivity.
Defined.

(** C9 as stated fails on " intro class": the first segment is not a
    code, the string itself starts with a space and so has no leading run
    of letters, digits and underscores, yet the result is "INTRO". *)
Lemma extractSubjectCode_leading_run_counterexample :
  " intro class" <> ""
  /\ JS.test_code
       (JS.toUpperCase (JS.trim (Str.before_first " - " " intro class")))
     = false
  /\ Str.take_while Chars.is_word_char " intro class" = ""
  /\ extractSubjectCode (JStr " intro class") = "INTRO"
  /\ extractSubjectCode (JStr " intro class") <> "N/A".
Proof.
  repeat split; try reflexivity; discriminate.
Qed.

(** *** Keys of the grouping map *)

Lemma no_bar_uint (d : Decimal.uint) :
  no_bar (NilEmpty.string_of_uint d) = true.
Proof. induction d; simpl; auto. Qed.

Lemma no_bar_string_of_Z (z : Z) : no_bar (string_of_Z z) = true.
Proof.
  unfold string_of_Z, NilZero.string_of_int, NilZero.string_of_uint.
  destruct (Z.to_int z) as [d | d].
  - destruct d; try reflexivity; apply no_bar_uint.
  - assert (H : forall t, no_bar t = true -> no_bar (String "-" t) = true)
      by (intros t Ht; exact Ht).
    apply H. destruct d; try reflexivity; apply no_bar_uint.
Qed.

Lemma to_int_not_nil (z : Z) :
  Z.to_int z <> Decimal.Pos Decimal.Nil /\ Z.to_int z <> Decimal.Neg Decimal.Nil.
Proof.
  split; intros H; pose proof (DecimalZ.of_to z) as Hz; rewrite H in Hz;
    cbn in Hz; subst z; discriminate.
Qed.

Lemma string_of_Z_inj (a b : Z) : string_of_Z a = string_of_Z b -> a = b.
Proof.
  unfold string_of_Z. intros H.
  apply DecimalZ.to_int_inj.
  destruct (to_int_not_nil a) as [Ha1 Ha2].
  destruct (to_int_not_nil b) as [Hb1 Hb2].
  pose proof (@NilZero.isi _ Ha1 Ha2) as Ia.
  pose proof (@NilZero.isi _ Hb1 Hb2) as Ib.
  rewrite H in Ia. rewrite Ia in Ib. now injection Ib.
Qed.

Lemma bar_split (a b x y : string) :
  no_bar a = true -> no_bar b = true ->
  a ++ "|" ++ x = b ++ "|" ++ y -> a = b /\ x = y.
Proof.
  revert b. induction a as [| c a IH]; intros [| d b] Ha Hb H; cbn in *.
  - injection H as H. now split.
  - injection H as Hc _. subst d. discriminate.
  - injection H as Hc _. subst c. discriminate.
  - injection H as Hc H. subst d.
    apply andb_true_iff in Ha as [_ Ha]. apply andb_true_iff in Hb as [_ Hb].
    destruct (IH b Ha Hb H) as [-> ->]. now split.
Qed.

(** The key string determines the slot identifier and the description. *)
Lemma key_of_inj (z1 z2 : Z) (c1 c2 : string) :
  key_of z1 c1 = key_of z2 c2 -> z1 = z2 /\ c1 = c2.
Proof.
  unfold key_of. intros H.
  apply bar_split in H; try apply no_bar_string_of_Z.
  destruct H as [Hz Hc]. split; [now apply string_of_Z_inj | assumption].
Qed.

Lemma pair_eqb_eq (a b : Z * string) : pair_eqb a b = true <-> a = b.
Proof.
  destruct a as [z1 c1], b as [z2 c2]. unfold pair_eqb. cbn.
  rewrite andb_true_iff, Z.eqb_eq, String.eqb_eq. split.
  - now intros [-> ->].
  - intros H. injection H as -> ->. now split.
Qed.

Lemma pair_eqb_refl (a : Z * string) : pair_eqb a a = true.
Proof. now apply pair_eqb_eq. Qed.

Lemma key_eqb_pair (a b : Z * string) :
  (key_of (fst a) (snd a) =? key_of (fst b) (snd b)) = pair_eqb a b.
Proof.
  destruct (pair_eqb a b) eqn:He.
  - apply pair_eqb_eq in He. subst b. apply String.eqb_refl.
  - apply String.eqb_neq. intros H. apply key_of_inj in H as [H1 H2].
    assert (a = b) by (destruct a, b; cbn in *; congruence).
    apply pair_eqb_eq in H. congruence.
Qed.

(** *** Stable sorting *)

Section Sorting.
Variable A : Type.
Variable le : A -> A -> bool.

Lemma insert_sorted_perm (x : A) (l : list A) :
  Permutation (SQL.insert_sorted le x l) (x :: l).
Proof.
  induction l as [| y l IH]; cbn; [reflexivity |].
  destruct (le x y); [reflexivity |].
  rewrite IH. apply perm_swap.
Qed.

Lemma ORDER_BY_perm (l : list A) : Permutation (SQL.ORDER_BY le l) l.
Proof.
  induction l as [| x l IH]; cbn; [reflexivity |].
  rewrite insert_sorted_perm. now constructor.
Qed.

Lemma ORDER_BY_In (x : A) (l : list A) : In x (SQL.ORDER_BY le l) <-> In x l.
Proof.
  split; apply Permutation_in;
    [apply ORDER_BY_perm | symmetry; apply ORDER_BY_perm].
Qed.

Lemma ORDER_BY_length (l : list A) : length (SQL.ORDER_BY le l) = length l.
Proof. apply Permutation_length, ORDER_BY_perm. Qed.

Hypothesis le_total : forall a b, le a b = true \/ le b a = true.
Hypothesis le_trans :
  forall a b c, le a b = true -> le b c = true -> le a c = true.

Lemma insert_sorted_sorted (x : A) (l : list A) :
  StronglySorted (fun a b => le a b = true) l ->
  StronglySorted (fun a b => le a b = true) (SQL.insert_sorted le x l).
Proof.
  induction l as [| y l IH]; cbn; intros Hs.
  - repeat constructor.
  - inversion Hs as [| ? ? Hs' Hall]; subst.
    destruct (le x y) eqn:Hxy.
    + constructor; [assumption |].
      constructor; [assumption |].
      eapply Forall_impl; [| exact Hall].
      intros z Hz. cbn in Hz. now apply le_trans with y.
    + constructor; [now apply IH |].
      apply Forall_forall. intros z Hz.
      apply (Permutation_in _ (insert_sorted_perm x l)) in Hz.
      destruct Hz as [<- | Hz].
      * destruct (le_total x y) as [H | H]; [congruence | assumption].
      * rewrite Forall_forall in Hall. now apply Hall.
Qed.

Lemma ORDER_BY_sorted (l : list A) :
  StronglySorted (fun a b => le a b = true) (SQL.ORDER_BY le l).
Proof.
  induction l as [| x l IH]; cbn; [constructor |].
  now apply insert_sorted_sorted.
Qed.

End Sorting.

Lemma ORDER_BY_map (A B : Type) (f : A -> B) (le : A -> A -> bool)
      (le' : B -> B -> bool) (l : list A) :
  (forall a b, le' (f a) (f b) = le a b) ->
  SQL.ORDER_BY le' (map f l) = map f (SQL.ORDER_BY le l).
Proof.
  intros Hle. induction l as [| x l IH]; cbn; [reflexivity |].
  rewrite IH. generalize (SQL.ORDER_BY le l). intros t.
  induction t as [| y t IHt]; cbn; [reflexivity |].
  rewrite Hle. destruct (le x y); cbn; [reflexivity | now rewrite IHt].
Qed.

Lemma left_matches_inhabited (B : Type) (on : B -> bool) (bs : list B) :
  exists x, In x (SQL.left_matches on bs).
Proof.
  unfold SQL.left_matches. destruct (filter on bs) as [| b l].
  - exists None. now left.
  - exists (Some b). now left.
Qed.

Lemma StronglySorted_map (A B : Type) (R : A -> A -> Prop)
      (R' : B -> B -> Prop) (f : A -> B) (l : list A) :
  (forall a b, R a b -> R' (f a) (f b)) ->
  StronglySorted R l -> StronglySorted R' (map f l).
Proof.
  intros HR. induction 1 as [| x l Hs IH Hall]; cbn; constructor.
  - assumption.
  - rewrite Forall_forall in *. intros y Hy.
    apply in_map_iff in Hy as [z [<- Hz]]. now apply HR, Hall.
Qed.

(** *** The grouping map *)

Lemma pair_eqb_sym (a b : Z * string) : pair_eqb a b = pair_eqb b a.
Proof.
  unfold pair_eqb. now rewrite Z.eqb_sym, String.eqb_sym.
Qed.

Lemma existsb_pair_In (k : Z * string) (l : list (Z * string)) :
  existsb (pair_eqb k) l = true <-> In k l.
Proof.
  rewrite existsb_exists. split.
  - intros [x [Hx He]]. apply pair_eqb_eq in He. now subst.
  - intros H. exists k. split; [assumption | apply pair_eqb_refl].
Qed.

Lemma has_entries (k : Z * string) (rs : list ClassRow) :
  JsMap.has (key_of (fst k) (snd k)) (map entry rs) = true
  <-> In k (map class_key rs).
Proof.
  unfold JsMap.has. rewrite existsb_exists. split.
  - intros [kv [Hin He]]. apply in_map_iff in Hin as [r [<- Hr]].
    cbn in He. apply String.eqb_eq, key_of_inj in He as [H1 H2].
    apply in_map_iff. exists r. split; [| assumption].
    unfold class_key. destruct k; cbn in *; congruence.
  - intros Hin. apply in_map_iff in Hin as [r [<- Hr]].
    exists (entry r). split; [now apply in_map | apply String.eqb_refl].
Qed.

Lemma set_fresh (V : Type) (key : string) (v : V) (m : JsMap.t V) :
  JsMap.has key m = false -> JsMap.set key v m = (m ++ [(key, v)])%list.
Proof.
  unfold JsMap.has. induction m as [| [k v0] m IH]; cbn; [reflexivity |].
  intros H. apply orb_false_iff in H as [Hk Hm].
  rewrite Hk. now rewrite IH.
Qed.

(** The first loop keeps, in order, the first row of each key. *)
Lemma add_classes_spec (classes rs0 : list ClassRow)
      (seen : list (Z * string)) :
  (forall k, In k seen <-> In k (map class_key rs0)) ->
  fold_left add_class classes (map entry rs0)
  = map entry (rs0 ++ first_of_each_key seen classes)%list.
Proof.
  revert rs0 seen.
  induction classes as [| r classes IH]; intros rs0 seen Hseen; cbn.
  - now rewrite app_nil_r.
  - unfold add_class at 2.
    pose proof (has_entries (class_key r) rs0) as Hhas. cbn in Hhas.
    pose proof (existsb_pair_In (class_key r) seen) as Hex.
    destruct (existsb (pair_eqb (class_key r)) seen) eqn:He.
    + assert (Hh : JsMap.has (key_of (cls_slot_id r) (cls_class_to_cover r))
                     (map entry rs0) = true).
      { apply Hhas, Hseen, Hex. reflexivity. }
      rewrite Hh. cbn. now apply IH.
    + assert (Hh : JsMap.has (key_of (cls_slot_id r) (cls_class_to_cover r))
                     (map entry rs0) = false).
      { apply not_true_is_false. intros Hh.
        apply Hhas, Hseen, Hex in Hh. discriminate. }
      rewrite Hh. cbn. rewrite set_fresh by assumption.
      change [(key_of (cls_slot_id r) (cls_class_to_cover r), new_slot r)]
        with (map entry [r]).
      rewrite <- map_app.
      rewrite (IH (rs0 ++ [r])%list (class_key r :: seen)).
      * now rewrite <- app_assoc.
      * intros k. rewrite map_app, in_app_iff. cbn.
        rewrite Hseen. tauto.
Qed.

Lemma first_of_each_key_fresh (seen : list (Z * string))
      (l : list ClassRow) (r : ClassRow) :
  In r (first_of_each_key seen l) -> In r l /\ ~ In (class_key r) seen.
Proof.
  revert seen. induction l as [| x l IH]; intros seen; cbn; [tauto |].
  destruct (existsb (pair_eqb (class_key x)) seen) eqn:He.
  - intros H. apply IH in H. tauto.
  - intros [<- | H].
    + split; [now left |]. intros Hin.
      apply existsb_pair_In in Hin. congruence.
    + apply IH in H as [H1 H2]. split; [now right |].
      intros Hin. apply H2. now right.
Qed.

Lemma first_of_each_key_NoDup (seen : list (Z * string)) (l : list ClassRow) :
  NoDup (map class_key (first_of_each_key seen l)).
Proof.
  revert seen. induction l as [| x l IH]; intros seen; cbn; [constructor |].
  destruct (existsb (pair_eqb (class_key x)) seen); [apply IH |].
  cbn. constructor; [| apply IH].
  intros Hin. apply in_map_iff in Hin as [r [Hk Hr]].
  apply first_of_each_key_fresh in Hr as [_ Hr]. apply Hr. left. congruence.
Qed.

(** Every key of [l] not yet seen is kept. *)
Lemma first_of_each_key_keys (seen : list (Z * string)) (l : list ClassRow)
      (k : Z * string) :
  In k (map class_key (first_of_each_key seen l))
  <-> In k (map class_key l) /\ ~ In k seen.
Proof.
  revert seen. induction l as [| x l IH]; intros seen; cbn; [tauto |].
  destruct (existsb (pair_eqb (class_key x)) seen) eqn:He.
  - rewrite IH. apply existsb_pair_In in He. split.
    + tauto.
    + intros [[<- | H] Hn]; [contradiction | tauto].
  - cbn. rewrite IH. cbn.
    assert (Hx : ~ In (class_key x) seen).
    { intros Hin. apply existsb_pair_In in Hin. congruence. }
    split.
    + intros [<- | [H Hn]]; [tauto |]. tauto.
    + intros [[<- | H] Hn]; [now left |].
      destruct (pair_eqb (class_key x) k) eqn:Hk.
      * apply pair_eqb_eq in Hk. now left.
      * right. split; [assumption |]. intros [Heq | Hin]; [| tauto].
        subst k. rewrite pair_eqb_refl in Hk. discriminate.
Qed.

Lemma keyed_entries (rs : list ClassRow) :
  NoDup (map class_key rs) -> keyed (map entry rs).
Proof.
  intros Hnd. split.
  - apply Forall_forall. intros kv Hin.
    apply in_map_iff in Hin as [r [<- _]]. reflexivity.
  - rewrite map_map. cbn.
    induction rs as [| r rs IH]; cbn; [constructor |].
    inversion Hnd as [| ? ? Hn Hnd']; subst.
    constructor; [| now apply IH].
    intros Hin. apply in_map_iff in Hin as [r' [Hk Hr']].
    apply key_of_inj in Hk as [H1 H2]. apply Hn.
    apply in_map_iff. exists r'. split; [| assumption].
    unfold class_key. congruence.
Qed.

Lemma with_substitutes_same (sl : CoverageSlot) :
  with_substitutes sl (available_substitutes sl) = sl.
Proof. now destruct sl. Qed.

Lemma attach_nil (sl : CoverageSlot) : attach [] sl = sl.
Proof.
  unfold attach, candidates_for. cbn. rewrite app_nil_r.
  apply with_substitutes_same.
Qed.

Lemma attach_cons (s : SubRow) (subs : list SubRow) (sl : CoverageSlot) :
  attach (s :: subs) sl = attach subs (attach [s] sl).
Proof.
  unfold attach, candidates_for, with_substitutes, slot_key. cbn.
  destruct (pair_eqb (sub_key s) (slot_id sl, class_info sl)); cbn;
    now rewrite <- app_assoc.
Qed.

Lemma update_absent (V : Type) (key : string) (f : V -> V) (m : JsMap.t V) :
  ~ In key (map fst m) -> JsMap.update key f m = m.
Proof.
  induction m as [| [k v] m IH]; cbn; [reflexivity |].
  intros Hn. destruct (String.eqb_spec k key) as [-> | Hk]; [tauto |].
  rewrite IH; tauto.
Qed.

Lemma has_In (V : Type) (key : string) (m : JsMap.t V) :
  JsMap.has key m = true <-> In key (map fst m).
Proof.
  unfold JsMap.has. rewrite existsb_exists, in_map_iff. split.
  - intros [kv [Hin He]]. apply String.eqb_eq in He. now exists kv.
  - intros [kv [He Hin]]. exists kv. split; [assumption |].
    now apply String.eqb_eq.
Qed.

(** One round of the second loop pushes the row to the slot of its key
    and leaves the other slots as they are. *)
Lemma add_sub_spec (m : JsMap.t CoverageSlot) (s : SubRow) :
  keyed m ->
  add_sub m s = map (fun kv => (fst kv, attach [s] (snd kv))) m.
Proof.
  intros [Hkey Hnd]. unfold add_sub.
  set (key := key_of (sub_slot_id s) (sub_class_to_cover s)).
  assert (Hupd : JsMap.update key (push_substitute (candidate_of s)) m
                 = map (fun kv => (fst kv, attach [s] (snd kv))) m).
  { induction m as [| [k v] m IH]; cbn; [reflexivity |].
    inversion Hkey as [| ? ? Hk Hkey']; subst.
    inversion Hnd as [| ? ? Hn Hnd']; subst.
    cbn in Hk.
    assert (Hmatch : (k =? key) = pair_eqb (sub_key s) (slot_key v)).
    { rewrite Hk. unfold key. rewrite pair_eqb_sym.
      apply (key_eqb_pair (slot_key v) (sub_key s)). }
    unfold attach at 1, candidates_for. cbn [filter map].
    rewrite <- Hmatch.
    destruct (String.eqb_spec k key) as [He | He].
    - f_equal. rewrite <- IH by assumption.
      symmetry. apply update_absent. now rewrite <- He.
    - cbn. rewrite app_nil_r, with_substitutes_same. f_equal.
      now apply IH. }
  destruct (JsMap.has key m) eqn:Hhas; [assumption |].
  rewrite <- Hupd. symmetry. apply update_absent.
  intros Hin. apply has_In in Hin. congruence.
Qed.

Lemma keyed_attach (subs : list SubRow) (m : JsMap.t CoverageSlot) :
  keyed m -> keyed (map (fun kv => (fst kv, attach subs (snd kv))) m).
Proof.
  intros [Hkey Hnd]. split.
  - apply Forall_forall. intros kv Hin.
    apply in_map_iff in Hin as [kv0 [<- Hin0]]. cbn.
    rewrite Forall_forall in Hkey. now apply Hkey.
  - rewrite map_map. cbn. exact Hnd.
Qed.

(** The second loop gives each slot the candidates of the rows with its
    key, in the order of the rows. *)
Lemma add_subs_spec (subs : list SubRow) (m : JsMap.t CoverageSlot) :
  keyed m ->
  fold_left add_sub subs m = map (fun kv => (fst kv, attach subs (snd kv))) m.
Proof.
  revert m. induction subs as [| s subs IH]; intros m Hm; cbn.
  - rewrite <- (map_id m) at 1. apply map_ext.
    intros [k v]. cbn. now rewrite attach_nil.
  - rewrite add_sub_spec by assumption.
    rewrite IH by now apply keyed_attach.
    rewrite map_map. apply map_ext. intros [k v]. cbn.
    now rewrite (attach_cons s subs v).
Qed.

(** [build_schedule] in closed form: one slot for the first row of each
    key, carrying the candidates of that key, sorted by slot identifier. *)
Lemma build_schedule_spec (classes : list ClassRow) (subs : list SubRow) :
  build_schedule classes subs
  = js_sort (fun a b => (slot_id a - slot_id b)%Z)
      (map (fun r => with_substitutes (new_slot r)
                       (candidates_for subs (class_key r)))
         (first_of_each_key [] classes)).
Proof.
  unfold build_schedule, JsMap.values.
  change (@nil (string * CoverageSlot)) with (map entry []).
  rewrite (add_classes_spec classes [] []) by (cbn; tauto).
  cbn [app].
  rewrite add_subs_spec
    by (apply keyed_entries, first_of_each_key_NoDup).
  rewrite !map_map. reflexivity.
Qed.

(** *** The paths through [findSubstitutes] *)

Lemma day_of_truthy (d : jsval) :
  JS.truthy (normalizeDay (JS.or d (JStr ""))) = negb (Str.is_empty (day_of d)).
Proof.
  unfold day_of, normalizeDay.
  destruct (JS.truthy (JS.or d (JStr ""))) eqn:Ht; cbn [negb].
  - destruct (JS.includes _ _); reflexivity.
  - unfold JS.or in *. destruct (JS.truthy d) eqn:Hd; [congruence |].
    reflexivity.
Qed.

(** What a returned report is, path by path. *)
Lemma findSubstitutes_returned (st : Store) (i d : jsval) (rep : Report) :
  findSubstitutes st i d = Returned rep ->
  id_of i <> "" /\ day_of d <> "" /\ fault st QAttendance = None
  /\ ((qAttendance (tables st) (id_of i) = []
       /\ rep = {| absentName := "Teacher ID: " ++ id_of i;
                   absentTeacherSubjectDetail := "N/A";
                   schedule := [];
                   note := Some "Teacher not found" |})
      \/ exists row rest,
          qAttendance (tables st) (id_of i) = row :: rest
          /\ fault st QAbsentTeacherInfo = None
          /\ ((marked_absent row = false
               /\ rep = {| absentName := resolved_name row (id_of i);
                           absentTeacherSubjectDetail :=
                             subject_detail_of (tables st) (id_of i);
                           schedule := [];
                           note := Some NOT_ABSENT_NOTE |})
              \/ (marked_absent row = true
                  /\ fault st QClasses = None
                  /\ (qClasses (tables st) (id_of i) (day_of d) = []
                      \/ fault st QSubs = None)
                  /\ rep = {| absentName := resolved_name row (id_of i);
                              absentTeacherSubjectDetail :=
                                subject_detail_of (tables st) (id_of i);
                              schedule :=
                                build_schedule
                                  (qClasses (tables st) (id_of i) (day_of d))
                                  (qSubs (tables st) (id_of i) (day_of d)
                                     (id_of i) (day_of d));
                              note := None |}))).
Proof.
  unfold findSubstitutes. fold (id_of i). rewrite day_of_truthy.
  fold (day_of d). cbn [JS.truthy].
  destruct (Str.is_empty (id_of i)) eqn:Hid; cbn [negb]; [discriminate |].
  destruct (Str.is_empty (day_of d)) eqn:Hday; cbn [negb]; [discriminate |].
  apply is_empty_false in Hid, Hday.
  unfold sqldb_query.
  destruct (fault st QAttendance) eqn:F1; cbn [bind]; [discriminate |].
  intros H. repeat split; try assumption.
  destruct (qAttendance (tables st) (id_of i)) as [| row rest] eqn:Hatt.
  - left. split; [reflexivity |]. now injection H.
  - right. exists row, rest. split; [reflexivity |].
    destruct (fault st QAbsentTeacherInfo) eqn:F2; cbn [bind] in H;
      [discriminate |].
    split; [reflexivity |].
    fold (marked_absent row) in H. fold (resolved_name row (id_of i)) in H.
    fold (subject_detail_of (tables st) (id_of i)) in H.
    destruct (marked_absent row) eqn:Habs; cbn [negb] in H.
    + right. split; [reflexivity |].
      destruct (fault st QClasses) eqn:F3; cbn [bind try_catch] in H;
        [discriminate |].
      split; [reflexivity |].
      destruct (qClasses (tables st) (id_of i) (day_of d)) as [| c cs] eqn:Hc.
      * split; [now left |]. cbn [try_catch] in H. injection H as <-.
        now rewrite build_schedule_spec.
      * destruct (fault st QSubs) eqn:F4; cbn [bind try_catch] in H;
          [discriminate |].
        split; [now right |]. cbn [try_catch] in H. now injection H.
    + left. split; [reflexivity |]. now injection H.
Qed.

(** The path of a known, absent teacher when every read goes through. *)
Lemma findSubstitutes_absent (st : Store) (i d : jsval) :
  id_of i <> "" -> day_of d <> "" -> healthy st ->
  known_absent (tables st) (id_of i) = true ->
  exists row rest,
    qAttendance (tables st) (id_of i) = row :: rest
    /\ findSubstitutes st i d
       = Returned {| absentName := resolved_name row (id_of i);
                     absentTeacherSubjectDetail :=
                       subject_detail_of (tables st) (id_of i);
                     schedule :=
                       build_schedule
                         (qClasses (tables st) (id_of i) (day_of d))
                         (qSubs (tables st) (id_of i) (day_of d)
                            (id_of i) (day_of d));
                     note := None |}.
Proof.
  intros Hid Hday Hst Hka. unfold known_absent in Hka.
  destruct (qAttendance (tables st) (id_of i)) as [| row rest] eqn:Hatt;
    [discriminate |].
  exists row, rest. split; [reflexivity |].
  unfold findSubstitutes. fold (id_of i). rewrite day_of_truthy.
  fold (day_of d). cbn [JS.truthy].
  apply is_empty_false in Hid, Hday. rewrite Hid, Hday. cbn [negb].
  unfold sqldb_query. rewrite !Hst. cbn [bind]. rewrite Hatt.
  fold (marked_absent row). rewrite Hka. cbn [negb].
  fold (resolved_name row (id_of i)).
  fold (subject_detail_of (tables st) (id_of i)).
  destruct (qClasses (tables st) (id_of i) (day_of d)) eqn:Hc;
    cbn [try_catch]; [| reflexivity].
  now rewrite build_schedule_spec.
Qed.

(** *** The schedule *)

Lemma in_build_schedule (classes : list ClassRow) (subs : list SubRow)
      (sl : CoverageSlot) :
  In sl (build_schedule classes subs)
  <-> exists r, In r (first_of_each_key [] classes)
                /\ sl = with_substitutes (new_slot r)
                          (candidates_for subs (class_key r)).
Proof.
  rewrite build_schedule_spec. unfold js_sort.
  rewrite ORDER_BY_In, in_map_iff. split.
  - intros [r [<- Hr]]. now exists r.
  - intros [r [Hr ->]]. now exists r.
Qed.

(** Turns a slot of a returned report into the slot [build_schedule]
    makes of a class row [r]. *)
Ltac slot_of_report Hret Hin r Hr :=
  apply findSubstitutes_returned in Hret as (_ & _ & _ & Hret);
  destruct Hret
    as [[_ ->] | (? & ? & _ & _ & [[_ ->] | (_ & _ & _ & ->)])];
  cbn in Hin; try contradiction;
  apply in_build_schedule in Hin as [r [Hr ->]].

Lemma metadata_build_schedule (classes : list ClassRow) (subs : list SubRow) :
  map metadata (build_schedule classes subs)
  = js_sort by_slot_id (map new_slot (first_of_each_key [] classes)).
Proof.
  rewrite build_schedule_spec. unfold js_sort.
  rewrite <- (ORDER_BY_map metadata
                (fun a b => (slot_id a - slot_id b <=? 0)%Z)
                (fun a b => (by_slot_id a b <=? 0)%Z))
    by reflexivity.
  now rewrite map_map.
Qed.

Lemma build_schedule_sorted (classes : list ClassRow) (subs : list SubRow) :
  StronglySorted slot_le (build_schedule classes subs).
Proof.
  unfold build_schedule, js_sort.
  set (le := fun a b : CoverageSlot => (slot_id a - slot_id b <=? 0)%Z).
  assert (Hs : StronglySorted (fun a b => le a b = true)
                 (SQL.ORDER_BY le
                    (JsMap.values
                       (fold_left add_sub subs (fold_left add_class classes []))))).
  { apply ORDER_BY_sorted; unfold le; intros.
    - rewrite !Z.leb_le. lia.
    - rewrite Z.leb_le in *. lia. }
  revert Hs. generalize (SQL.ORDER_BY le
    (JsMap.values (fold_left add_sub subs (fold_left add_class classes [])))).
  intros l Hs. rewrite <- (map_id l).
  eapply StronglySorted_map; [| exact Hs].
  unfold le, slot_le. intros a b H. apply Z.leb_le in H. lia.
Qed.

Lemma candidates_for_drop (subs1 subs2 : list SubRow) (s : SubRow)
      (k : Z * string) :
  sub_key s <> k ->
  candidates_for (subs1 ++ s :: subs2) k = candidates_for (subs1 ++ subs2) k.
Proof.
  intros Hk. unfold candidates_for. rewrite !filter_app. cbn.
  destruct (pair_eqb (sub_key s) k) eqn:He; [| reflexivity].
  apply pair_eqb_eq in He. contradiction.
Qed.

(** C10.  Every coverage slot of a returned report is made of a row of
    the absent teacher's own non-free timetable read and carries only
    candidates of rows with its own key.  In the grouping, the candidate
    rows never add or change a slot (the metadata of the schedule are
    those of the grouping without candidate rows), and a candidate row
    whose (slot identifier, class description) matches no class row is
    dropped: the schedule is the same without it. *)
Theorem slots_come_from_classes :
  (forall (st : Store) (i d : jsval) (rep : Report),
      findSubstitutes st i d = Returned rep ->
      forall sl, In sl (schedule rep) ->
        (exists r, In r (qClasses (tables st) (id_of i) (day_of d))
                   /\ metadata sl = new_slot r)
        /\ (forall c, In c (available_substitutes sl) ->
              exists s, In s (qSubs (tables st) (id_of i) (day_of d)
                                (id_of i) (day_of d))
                        /\ c = candidate_of s /\ sub_key s = slot_key sl))
  /\ (forall (classes : list ClassRow) (subs : list SubRow),
         map metadata (build_schedule classes subs) = build_schedule classes []
         /\ (forall sl c, In sl (build_schedule classes subs) ->
               In c (available_substitutes sl) ->
               exists s, In s subs /\ c = candidate_of s
                         /\ sub_key s = slot_key sl)
         /\ (forall subs1 subs2 s,
               subs = (subs1 ++ s :: subs2)%list ->
               ~ In (sub_key s) (map class_key classes) ->
               build_schedule classes subs
               = build_schedule classes (subs1 ++ subs2))).
Proof.
  assert (Hgen : forall classes subs sl,
             In sl (build_schedule classes subs) ->
             (exists r, In r classes /\ metadata sl = new_slot r)
             /\ (forall c, In c (available_substitutes sl) ->
                   exists s, In s subs /\ c = candidate_of s
                             /\ sub_key s = slot_key sl)).
  { intros classes subs sl Hin.
    apply in_build_schedule in Hin as [r [Hr ->]].
    apply first_of_each_key_fresh in Hr as [Hr _]. split.
    - now exists r.
    - cbn. unfold candidates_for. intros c Hc.
      apply in_map_iff in Hc as [s [<- Hs]].
      apply filter_In in Hs as [Hs Hk]. apply pair_eqb_eq in Hk.
      now exists s. }
  split.
  - intros st i d rep Hret sl Hin.
    apply findSubstitutes_returned in Hret as (_ & _ & _ & Hcases).
    destruct Hcases
      as [[_ ->] | (row & rest & _ & _ & [[_ ->] | (_ & _ & _ & ->)])];
      cbn in Hin; [contradiction | contradiction | now apply Hgen].
  - intros classes subs. split; [| split].
    + rewrite metadata_build_schedule, build_schedule_spec.
      reflexivity.
    + intros sl c Hsl. now apply (Hgen classes subs sl Hsl).
    + intros subs1 subs2 s -> Hs.
      rewrite !build_schedule_spec. f_equal.
      apply map_ext_in. intros r Hr. f_equal.
      apply candidates_for_drop. intros He. apply Hs.
      apply first_of_each_key_fresh in Hr as [Hr _].
      rewrite He. now apply in_map.
Qed.

Lemma slots_come_from_classes_witness :
  exists rep sl,
    findSubstitutes demo_store (JStr " T1 ") (JStr "monday") = Returned rep
    /\ In sl (schedule rep)
    /\ (exists r, In r (qClasses demo_db "T1" "MON")
                  /\ metadata sl = new_slot r).
Proof.
  eexists. eexists.
  match goal with
  | |- ?A /\ ?B /\ _ =>
      assert (Hret : A) by (vm_compute; reflexivity);
      assert (Hin : B) by (left; reflexivity)
  end.
  split; [exact Hret |]. split; [exact Hin |].
  exact (proj1 (proj1 slots_come_from_classes _ _ _ _ Hret _ Hin)).
Defined.

(** *** The coverage read *)

Lemma in_classes_of (db : Database) (id day : string) (r : ClassRow) :
  In r (classes_of db id day)
  <-> exists tt ts,
      In tt (entries_to_cover db id day) /\ In ts (time_slots db)
      /\ ts_slot_id ts = tt_slot_id tt
      /\ r = {| cls_absent_teacher_id := tt_teacher_id tt;
                cls_day_of_week := tt_day_of_week tt;
                cls_slot_id := tt_slot_id tt;
                cls_time_range := ts_time_range ts;
                cls_class_to_cover := tt_activity_description tt;
                cls_room_location := tt_room_location tt;
                cls_is_lab :=
                  SQL.LIKE_infix (SQL.UPPER (tt_activity_description tt))
                    "LAB" |}.
Proof.
  unfold classes_of, entries_to_cover. rewrite in_flat_map. split.
  - intros [tt [Htt Hin]]. apply in_flat_map in Hin as [ts [Hts Hin]].
    destruct (_ && _ && _ && _) eqn:Hc in Hin; [| contradiction].
    destruct Hin as [<- | []].
    repeat (apply andb_true_iff in Hc as [Hc ?]).
    exists tt, ts. repeat split; try assumption.
    + apply filter_In. split; [assumption |]. unfold needs_cover.
      rewrite H1, H0. now destruct (tt_is_free tt).
    + now apply Z.eqb_eq.
  - intros (tt & ts & Htt & Hts & Heq & ->).
    apply filter_In in Htt as [Htt Hc]. unfold needs_cover in Hc.
    repeat (apply andb_true_iff in Hc as [Hc ?]).
    exists tt. split; [assumption |]. apply in_flat_map.
    exists ts. split; [assumption |].
    rewrite Heq, Z.eqb_refl, Hc, H0. cbn.
    destruct (tt_is_free tt); [discriminate |]. now left.
Qed.

Lemma in_qClasses (db : Database) (id day : string) (r : ClassRow) :
  In r (qClasses db id day) <-> In r (classes_of db id day).
Proof. unfold qClasses. apply ORDER_BY_In. Qed.

(** The keys of the coverage read are those of the entries to cover
    whose slot is listed in [time_slots]. *)
Lemma qClasses_keys (db : Database) (id day : string) (k : Z * string) :
  In k (map class_key (qClasses db id day))
  <-> exists tt, In tt (entries_to_cover db id day)
                 /\ slot_known db (tt_slot_id tt) = true
                 /\ timetable_key tt = k.
Proof.
  rewrite in_map_iff. split.
  - intros [r [<- Hr]]. apply in_qClasses, in_classes_of in Hr.
    destruct Hr as (tt & ts & Htt & Hts & Heq & ->).
    exists tt. repeat split; [assumption |].
    unfold slot_known. apply existsb_exists. exists ts.
    split; [assumption | now apply Z.eqb_eq].
  - intros (tt & Htt & Hk & <-).
    unfold slot_known in Hk. apply existsb_exists in Hk as [ts [Hts Heq]].
    apply Z.eqb_eq in Heq.
    eexists. split; [| apply in_qClasses, in_classes_of].
    2: { exists tt, ts. repeat split; eassumption || reflexivity. }
    reflexivity.
Qed.

Lemma schedule_keys (classes : list ClassRow) (subs : list SubRow) :
  Permutation (map slot_key (build_schedule classes subs))
              (map class_key (first_of_each_key [] classes)).
Proof.
  rewrite build_schedule_spec. unfold js_sort.
  rewrite (Permutation_map slot_key (ORDER_BY_perm _ _)).
  now rewrite map_map.
Qed.

(** C4, as amended.  For a known, absent teacher and a healthy store the
    resolution returns a schedule sorted ascending by slot identifier
    with one coverage slot per (slot identifier, class description) of
    the coverage read, whose metadata are those of the first row of the
    read with that key.  When the N non-free entries of the teacher on
    the target day all have their slot listed in [time_slots] and have
    pairwise distinct (slot identifier, class description) pairs, the
    schedule has exactly N slots. *)
Theorem schedule_one_slot_per_key (st : Store) (i d : jsval) :
  id_of i <> "" -> day_of d <> "" -> healthy st ->
  known_absent (tables st) (id_of i) = true ->
  exists rep,
    findSubstitutes st i d = Returned rep
    /\ StronglySorted slot_le (schedule rep)
    /\ NoDup (map slot_key (schedule rep))
    /\ (forall k, In k (map slot_key (schedule rep))
                  <-> In k (map class_key
                              (qClasses (tables st) (id_of i) (day_of d))))
    /\ map metadata (schedule rep)
       = js_sort by_slot_id
           (map new_slot
              (first_of_each_key []
                 (qClasses (tables st) (id_of i) (day_of d))))
    /\ ((forall tt, In tt (entries_to_cover (tables st) (id_of i) (day_of d)) ->
                    slot_known (tables st) (tt_slot_id tt) = true) ->
        NoDup (map timetable_key
                 (entries_to_cover (tables st) (id_of i) (day_of d))) ->
        length (schedule rep)
        = length (entries_to_cover (tables st) (id_of i) (day_of d))).
Proof.
  intros Hid Hday Hst Hka.
  destruct (findSubstitutes_absent i d Hid Hday Hst Hka)
    as (row & rest & _ & Hret).
  eexists. split; [exact Hret |]. cbn [schedule].
  set (classes := qClasses (tables st) (id_of i) (day_of d)).
  set (subs := qSubs _ _ _ _ _).
  pose proof (schedule_keys classes subs) as Hperm.
  assert (Hnd : NoDup (map slot_key (build_schedule classes subs))).
  { apply (Permutation_NoDup (Permutation_sym Hperm)).
    apply first_of_each_key_NoDup. }
  assert (Hkeys : forall k, In k (map slot_key (build_schedule classes subs))
                            <-> In k (map class_key classes)).
  { intros k. split.
    - intros H. apply (Permutation_in _ Hperm) in H.
      apply first_of_each_key_keys in H. tauto.
    - intros H. apply (Permutation_in _ (Permutation_sym Hperm)).
      apply first_of_each_key_keys. cbn. tauto. }
  repeat split.
  - apply build_schedule_sorted.
  - exact Hnd.
  - apply Hkeys.
  - apply Hkeys.
  - apply metadata_build_schedule.
  - intros Hknown Hdistinct.
    rewrite <- (length_map slot_key (build_schedule classes subs)).
    rewrite <- (length_map timetable_key).
    apply Permutation_length, NoDup_Permutation; try assumption.
    intros k. rewrite Hkeys. unfold classes. rewrite qClasses_keys. split.
    + intros (tt & Htt & _ & <-). now apply in_map.
    + intros Hin. apply in_map_iff in Hin as [tt [<- Htt]].
      exists tt. repeat split; [assumption | now apply Hknown].
Qed.

Lemma schedule_one_slot_per_key_witness :
  exists rep,
    findSubstitutes demo_store (JStr " T1 ") (JStr "monday") = Returned rep
    /\ StronglySorted slot_le (schedule rep)
    /\ length (schedule rep) = 2.
Proof.
  destruct (@schedule_one_slot_per_key demo_store (JStr " T1 ") (JStr "monday"))
    as (rep & Hret & Hsorted & _ & _ & _ & Hlen).
  - vm_compute. discriminate.
  - vm_compute. discriminate.
  - intros q. reflexivity.
  - reflexivity.
  - exists rep. split; [exact Hret |]. split; [exact Hsorted |].
    apply Hlen.
    + intros tt Hin. vm_compute in Hin.
      destruct Hin as [<- | [<- | []]]; reflexivity.
    + vm_compute. repeat constructor; cbn; intuition discriminate.
Defined.

(** C4 as stated fails when the slot of an entry is not listed in
    [time_slots]: the absent teacher has one non-free entry on the day,
    and the schedule is empty. *)
Lemma unlisted_slot_counterexample :
  exists rep,
    known_absent unlisted_slot_db "T1" = true
    /\ NoDup (map timetable_key (entries_to_cover unlisted_slot_db "T1" "MON"))
    /\ length (entries_to_cover unlisted_slot_db "T1" "MON") = 1
    /\ findSubstitutes unlisted_slot_store (JStr "T1") (JStr "MON")
       = Returned rep
    /\ schedule rep = []
    /\ length (schedule rep)
       <> length (entries_to_cover unlisted_slot_db "T1" "MON").
Proof.
  eexists. repeat split; try reflexivity.
  - vm_compute. repeat constructor. intros [].
  - vm_compute. discriminate.
Qed.

(** *** Comparisons *)

Section Comparisons.
Variables A B : Type.

Lemma cmp_eq_r (cmp : A -> A -> comparison) (a b c : A) :
  cmp_ok cmp -> cmp b c = Eq -> cmp a b = cmp a c.
Proof.
  intros H Hbc.
  assert (Hcb : cmp c b = Eq) by (rewrite (cmp_antisym H), Hbc; reflexivity).
  pose proof (cmp_eq_l H c b a Hcb) as He.
  rewrite (cmp_antisym H a c), (cmp_antisym H a b) in He.
  destruct (cmp a b), (cmp a c); cbn in He; congruence.
Qed.

Lemma cmp_ok_on (f : A -> B) (cmp : B -> B -> comparison) :
  cmp_ok cmp -> cmp_ok (fun a b => cmp (f a) (f b)).
Proof.
  intros H. split; intros.
  - apply (cmp_antisym H).
  - now apply (cmp_eq_l H).
  - now apply (cmp_lt_trans H) with (f b).
Qed.

Lemma then_by_Eq (c1 c2 : comparison) :
  SQL.then_by c1 c2 = Eq <-> c1 = Eq /\ c2 = Eq.
Proof. destruct c1, c2; cbn; intuition discriminate. Qed.

Lemma then_by_Lt (c1 c2 : comparison) :
  SQL.then_by c1 c2 = Lt <-> c1 = Lt \/ (c1 = Eq /\ c2 = Lt).
Proof. destruct c1, c2; cbn; intuition discriminate. Qed.

Lemma cmp_ok_then_by (c1 c2 : A -> A -> comparison) :
  cmp_ok c1 -> cmp_ok c2 ->
  cmp_ok (fun a b => SQL.then_by (c1 a b) (c2 a b)).
Proof.
  intros H1 H2. split.
  - intros a b. rewrite (cmp_antisym H1 a b), (cmp_antisym H2 a b).
    now destruct (c1 a b), (c2 a b).
  - intros a b c He. apply then_by_Eq in He as [He1 He2].
    now rewrite (cmp_eq_l H1 a b c He1), (cmp_eq_l H2 a b c He2).
  - intros a b c Hab Hbc.
    apply then_by_Lt in Hab, Hbc. apply then_by_Lt.
    destruct Hab as [Hab | [Eab Hab]], Hbc as [Hbc | [Ebc Hbc]].
    + left. now apply (cmp_lt_trans H1) with b.
    + left. now rewrite <- (@cmp_eq_r c1 a b c H1 Ebc).
    + left. now rewrite (cmp_eq_l H1 a b c Eab).
    + right. split.
      * now rewrite (cmp_eq_l H1 a b c Eab).
      * now apply (cmp_lt_trans H2) with b.
Qed.

Lemma not_gt_total (cmp : A -> A -> comparison) (a b : A) :
  cmp_ok cmp -> SQL.not_gt (cmp a b) = true \/ SQL.not_gt (cmp b a) = true.
Proof.
  intros H. rewrite (cmp_antisym H a b). destruct (cmp a b); cbn; auto.
Qed.

Lemma not_gt_trans (cmp : A -> A -> comparison) (a b c : A) :
  cmp_ok cmp ->
  SQL.not_gt (cmp a b) = true -> SQL.not_gt (cmp b c) = true ->
  SQL.not_gt (cmp a c) = true.
Proof.
  intros H Hab Hbc.
  destruct (cmp a b) eqn:Eab; try discriminate.
  - now rewrite (cmp_eq_l H a b c Eab).
  - destruct (cmp b c) eqn:Ebc; try discriminate.
    + now rewrite <- (@cmp_eq_r cmp a b c H Ebc), Eab.
    + now rewrite (cmp_lt_trans H a b c Eab Ebc).
Qed.

End Comparisons.

Lemma Z_compare_ok : cmp_ok Z.compare.
Proof.
  split.
  - intros a b. apply Z.compare_antisym.
  - intros a b c H. apply Z.compare_eq in H. now subst.
  - intros a b c. rewrite !Z.compare_lt_iff. lia.
Qed.

Lemma ascii_compare_ok : cmp_ok Ascii.compare.
Proof.
  unfold Ascii.compare. split.
  - intros a b. apply N.compare_antisym.
  - intros a b c H. apply N.compare_eq in H. now rewrite H.
  - intros a b c. rewrite !N.compare_lt_iff. apply N.lt_trans.
Qed.

Lemma string_compare_ok : cmp_ok String.compare.
Proof.
  split.
  - intros a b. apply String.compare_antisym.
  - intros a b c H. apply String.compare_eq_iff in H. now subst.
  - intros a. induction a as [| x a IH]; intros [| y b] [| z c];
      cbn; try discriminate; try reflexivity.
    destruct (Ascii.compare x y) eqn:Exy; try discriminate.
    + apply Ascii.compare_eq_iff in Exy. subst y.
      destruct (Ascii.compare x z); try discriminate; [apply IH | reflexivity].
    + intros _.
      destruct (Ascii.compare y z) eqn:Eyz; try discriminate.
      * apply Ascii.compare_eq_iff in Eyz. subst z. now rewrite Exy.
      * intros _.
        now rewrite (cmp_lt_trans ascii_compare_ok x y z Exy Eyz).
Qed.

(** *** The candidate read *)

Lemma sub_compare_ok : cmp_ok sub_compare.
Proof.
  unfold sub_compare.
  apply cmp_ok_then_by; [| apply cmp_ok_then_by].
  - apply (cmp_ok_on sub_slot_id Z_compare_ok).
  - apply (@cmp_ok_on SubRow bool is_best (fun a b => SQL.bool_compare b a)).
    split; [now intros [] [] | now intros [] [] [] | now intros [] [] []].
  - apply (cmp_ok_on substitute_teacher_name string_compare_ok).
Qed.

Lemma qSubs_sorted (db : Database) (p1 p2 p3 p4 : string) :
  StronglySorted (fun a b => sub_le a b = true) (qSubs db p1 p2 p3 p4).
Proof.
  unfold qSubs. apply ORDER_BY_sorted; unfold sub_le.
  - intros a b. apply not_gt_total, sub_compare_ok.
  - intros a b c. apply not_gt_trans, sub_compare_ok.
Qed.

Lemma in_subs_of (db : Database) (p1 p2 : string) (s : SubRow) :
  In s (subs_of db p1 p2)
  <-> exists c ta sa,
      In c (classes_of db p1 p2) /\ In ta (teacher_attendance db)
      /\ on_present_other c ta = true /\ where_available db c ta = true
      /\ In sa (join_subjects_agg db (ta_teacher_id ta))
      /\ s = sub_row db c ta sa.
Proof.
  unfold subs_of. rewrite in_flat_map. split.
  - intros [c [Hc Hin]]. apply in_flat_map in Hin as [ta [Hta Hin]].
    destruct (on_present_other c ta) eqn:Hon; [| contradiction].
    destruct (where_available db c ta) eqn:Hw; [| contradiction].
    cbn in Hin. apply in_map_iff in Hin as [sa [<- Hsa]].
    exists c, ta, sa. repeat split; assumption.
  - intros (c & ta & sa & Hc & Hta & Hon & Hw & Hsa & ->).
    exists c. split; [assumption |]. apply in_flat_map.
    exists ta. split; [assumption |]. rewrite Hon, Hw. cbn.
    now apply in_map.
Qed.

Lemma in_qSubs (db : Database) (p1 p2 p3 p4 : string) (s : SubRow) :
  In s (qSubs db p1 p2 p3 p4) <-> In s (subs_of db p1 p2).
Proof. unfold qSubs. apply ORDER_BY_In. Qed.

Lemma qSubs_priority (db : Database) (p1 p2 p3 p4 : string) (s : SubRow) :
  In s (qSubs db p1 p2 p3 p4) ->
  substitution_priority s = BEST_FIT \/ substitution_priority s = GOOD_FIT.
Proof.
  intros H. apply in_qSubs, in_subs_of in H.
  destruct H as (c & ta & sa & _ & _ & _ & _ & _ & ->).
  cbn. unfold priority_of. destruct (teaches_subject_of _ _ _); auto.
Qed.

(** Two candidate rows of one slot, in the order of the read. *)
Lemma sub_le_same_slot (a b : SubRow) :
  sub_le a b = true -> sub_slot_id a = sub_slot_id b ->
  cand_before (candidate_of a) (candidate_of b).
Proof.
  unfold sub_le, sub_compare, cand_before, is_best. cbn.
  intros Hle Hslot. rewrite Hslot, Z.compare_refl in Hle. cbn in Hle. split.
  - intros Hb. apply String.eqb_eq in Hb. rewrite Hb in Hle.
    destruct (substitution_priority a =? BEST_FIT) eqn:Ha.
    + now apply String.eqb_eq.
    + discriminate.
  - intros Heq. rewrite Heq in Hle.
    destruct (substitution_priority b =? BEST_FIT); cbn in Hle;
      unfold String.leb;
      destruct (substitute_teacher_name a ?= substitute_teacher_name b)%string;
      try reflexivity; discriminate.
Qed.

Lemma StronglySorted_filter_both (A : Type) (R : A -> A -> Prop)
      (p : A -> bool) (l : list A) :
  StronglySorted R l ->
  StronglySorted (fun a b => R a b /\ p a = true /\ p b = true) (filter p l).
Proof.
  induction 1 as [| x l Hs IH Hall]; cbn; [constructor |].
  destruct (p x) eqn:Hx; [| assumption].
  constructor; [assumption |].
  rewrite Forall_forall in *. intros y Hy.
  apply filter_In in Hy as [Hy Hpy]. auto.
Qed.

(** C2.  In every coverage slot of a returned report each candidate is
    tagged BEST FIT or GOOD FIT, no GOOD FIT candidate comes before a
    BEST FIT one, and candidates of the same tier are in ascending order
    of display name (byte-wise lexicographic order). *)
Theorem candidates_ranked (st : Store) (i d : jsval) (rep : Report)
        (sl : CoverageSlot) :
  findSubstitutes st i d = Returned rep ->
  In sl (schedule rep) ->
  StronglySorted cand_before (available_substitutes sl)
  /\ Forall (fun c => priority c = BEST_FIT \/ priority c = GOOD_FIT)
       (available_substitutes sl).
Proof.
  intros Hret Hin.
  slot_of_report Hret Hin r Hr. cbn.
  unfold candidates_for. split.
  - eapply StronglySorted_map;
      [| apply StronglySorted_filter_both, qSubs_sorted].
    cbn. intros a b (Hle & Ha & Hb).
    apply pair_eqb_eq in Ha, Hb. apply sub_le_same_slot; [assumption |].
    unfold sub_key in *. congruence.
  - apply Forall_forall. intros c Hc.
    apply in_map_iff in Hc as [s [<- Hs]]. apply filter_In in Hs as [Hs _].
    cbn. now apply qSubs_priority in Hs.
Qed.

Lemma candidates_ranked_witness :
  exists rep sl,
    findSubstitutes demo_store (JStr " T1 ") (JStr "monday") = Returned rep
    /\ In sl (schedule rep)
    /\ map substitute_name (available_substitutes sl) = ["Cy"; "Zed"; "Bob"]
    /\ StronglySorted cand_before (available_substitutes sl).
Proof.
  eexists. eexists.
  split; [vm_compute; reflexivity |].
  split; [right; left; reflexivity |].
  split; [reflexivity |].
  eapply (@candidates_ranked demo_store (JStr " T1 ") (JStr "monday")).
  - vm_compute. reflexivity.
  - right. left. reflexivity.
Defined.

(** *** Availability *)

Lemma existsb_ext (A : Type) (f g : A -> bool) (l : list A) :
  (forall x, f x = g x) -> existsb f l = existsb g l.
Proof.
  intros H. induction l as [| x l IH]; cbn; [reflexivity |].
  now rewrite H, IH.
Qed.

Lemma exists_timetable_free (db : Database) (tid day : string) (slot : Z) :
  exists_timetable db tid day slot true = has_free_entry db tid day slot.
Proof.
  unfold exists_timetable, has_free_entry, in_cell.
  apply existsb_ext. intros t. now destruct (tt_is_free t).
Qed.

Lemma exists_timetable_busy (db : Database) (tid day : string) (slot : Z) :
  exists_timetable db tid day slot false = has_busy_entry db tid day slot.
Proof.
  unfold exists_timetable, has_busy_entry, in_cell.
  apply existsb_ext. intros t. now destruct (tt_is_free t).
Qed.

Lemma has_entry_split (db : Database) (tid day : string) (slot : Z) :
  has_entry db tid day slot
  = has_free_entry db tid day slot || has_busy_entry db tid day slot.
Proof.
  unfold has_entry, has_free_entry, has_busy_entry.
  induction (teacher_timetable db) as [| t l IH]; cbn; [reflexivity |].
  rewrite IH.
  destruct (in_cell tid day slot t), (tt_is_free t); cbn;
    repeat match goal with |- context [existsb ?f ?l] =>
                             destruct (existsb f l) end; reflexivity.
Qed.

(** The [WHERE] clause selects the teachers with a free entry or with no
    entry at all. *)
Lemma where_available_iff (db : Database) (c : ClassRow) (s : AttendanceRow) :
  where_available db c s = true
  <-> has_free_entry db (ta_teacher_id s) (cls_day_of_week c) (cls_slot_id c)
      = true
      \/ has_entry db (ta_teacher_id s) (cls_day_of_week c) (cls_slot_id c)
         = false.
Proof.
  unfold where_available.
  rewrite exists_timetable_free, exists_timetable_busy, has_entry_split.
  destruct (has_free_entry _ _ _ _), (has_busy_entry _ _ _ _); cbn;
    intuition discriminate.
Qed.

Lemma in_cell_day (tid d1 d2 : string) (slot : Z) (t : TimetableRow) :
  SQL.UPPER d1 = SQL.UPPER d2 ->
  in_cell tid d1 slot t = in_cell tid d2 slot t.
Proof. unfold in_cell. now intros ->. Qed.

Lemma has_free_entry_day (db : Database) (tid d1 d2 : string) (slot : Z) :
  SQL.UPPER d1 = SQL.UPPER d2 ->
  has_free_entry db tid d1 slot = has_free_entry db tid d2 slot.
Proof.
  intros H. unfold has_free_entry. apply existsb_ext. intros t.
  now rewrite (@in_cell_day tid d1 d2 slot t H).
Qed.

Lemma has_entry_day (db : Database) (tid d1 d2 : string) (slot : Z) :
  SQL.UPPER d1 = SQL.UPPER d2 ->
  has_entry db tid d1 slot = has_entry db tid d2 slot.
Proof.
  intros H. unfold has_entry. apply existsb_ext. intros t.
  now apply in_cell_day.
Qed.

(** With at most one entry per cell a teacher is not both free and busy
    in a cell. *)
Lemma unique_free_busy (db : Database) (tid day : string) (slot : Z) :
  timetable_unique (teacher_timetable db) = true ->
  has_free_entry db tid day slot = true ->
  has_busy_entry db tid day slot = false.
Proof.
  unfold has_free_entry, has_busy_entry.
  assert (Hcell : forall t u, in_cell tid day slot t = true ->
                              in_cell tid day slot u = true ->
                              in_cell (tt_teacher_id t) (tt_day_of_week t)
                                (tt_slot_id t) u = true).
  { unfold in_cell. intros t u Ht Hu.
    repeat (apply andb_true_iff in Ht as [Ht ?]).
    repeat (apply andb_true_iff in Hu as [Hu ?]).
    apply String.eqb_eq in Ht, Hu, H0, H2. apply Z.eqb_eq in H, H1.
    rewrite Hu, Ht, H2, H0, H1, H. now rewrite !String.eqb_refl, Z.eqb_refl. }
  induction (teacher_timetable db) as [| t l IH]; cbn; [discriminate |].
  intros Hu Hf. apply andb_true_iff in Hu as [Hfresh Hu].
  apply negb_true_iff in Hfresh.
  assert (Hnone : in_cell tid day slot t = true ->
                  forall p, existsb (fun u => in_cell tid day slot u && p u) l
                            = false).
  { intros Ht p. apply not_true_is_false. intros He.
    apply existsb_exists in He as [u [Hin Hp]].
    apply andb_true_iff in Hp as [Hp _].
    assert (existsb (in_cell (tt_teacher_id t) (tt_day_of_week t)
                       (tt_slot_id t)) l = true)
      by (apply existsb_exists; exists u; split; [assumption | now apply Hcell]).
    congruence. }
  destruct (in_cell tid day slot t) eqn:Ht; cbn in *.
  - rewrite (Hnone eq_refl). rewrite (Hnone eq_refl) in Hf.
    rewrite orb_false_r in *. now rewrite Hf.
  - now apply IH.
Qed.

Lemma classes_of_params (db : Database) (id day : string) (c : ClassRow) :
  In c (classes_of db id day) ->
  SQL.LOWER (cls_absent_teacher_id c) = SQL.LOWER id
  /\ SQL.UPPER (cls_day_of_week c) = SQL.UPPER day.
Proof.
  intros H. apply in_classes_of in H as (tt & ts & Htt & _ & _ & ->). cbn.
  apply filter_In in Htt as [_ Hc]. unfold needs_cover in Hc.
  repeat (apply andb_true_iff in Hc as [Hc ?]).
  split; now apply String.eqb_eq.
Qed.

(** The candidate rows of a class row, teacher by teacher. *)
Lemma candidate_of_class (db : Database) (id day : string) (c : ClassRow)
      (sid : string) :
  In c (classes_of db id day) ->
  (exists s, In s (subs_of db id day) /\ sub_key s = class_key c
             /\ substitute_teacher_id s = sid)
  <-> eligible db id day (cls_slot_id c) sid.
Proof.
  intros Hc. destruct (classes_of_params _ _ _ _ Hc) as [Hid Hday].
  unfold eligible. split.
  - intros (s & Hs & Hk & Hsid).
    apply in_subs_of in Hs
      as (c0 & ta & sa & Hc0 & Hta & Hon & Hw & _ & ->).
    cbn in Hsid. unfold sub_key, class_key in Hk. cbn in Hk.
    injection Hk as Hslot _.
    destruct (classes_of_params _ _ _ _ Hc0) as [Hid0 Hday0].
    unfold on_present_other in Hon.
    apply andb_true_iff in Hon as [Hpres Hother].
    apply String.eqb_eq in Hpres.
    apply negb_true_iff, String.eqb_neq in Hother.
    apply where_available_iff in Hw.
    rewrite (has_free_entry_day db _ _ _ _ Hday0) in Hw.
    rewrite (has_entry_day db _ _ _ _ Hday0) in Hw.
    rewrite Hslot, Hsid in Hw. rewrite Hid0, Hsid in Hother.
    split; [| split; assumption].
    exists ta. repeat split; assumption.
  - intros ((ta & Hta & Hsid & Hpres) & Hother & Hfree).
    destruct (left_matches_inhabited
                (fun sa => SQL.LOWER (sa_teacher_id sa)
                           =? SQL.LOWER (ta_teacher_id ta))
                (subjects_agg db)) as [sa Hsa].
    exists (sub_row db c ta sa). repeat split; [| assumption].
    apply in_subs_of. exists c, ta, sa.
    repeat split; try assumption.
    + unfold on_present_other. apply andb_true_iff. split.
      * now apply String.eqb_eq.
      * apply negb_true_iff, String.eqb_neq. now rewrite Hid, Hsid.
    + apply where_available_iff.
      rewrite (has_free_entry_day db _ _ _ _ Hday).
      rewrite (has_entry_day db _ _ _ _ Hday).
      now rewrite Hsid.
Qed.

(** C1, as amended.  In a coverage slot of a returned report a teacher
    identifier is that of some candidate if and only if it is the
    identifier of a teacher whose attendance, trimmed and upper-cased, is
    "PRESENT", differs case-insensitively from the absent teacher's, and,
    for the target day and the slot, has a timetable entry with
    [is_free = true] or no timetable entry at all.  The absent teacher is
    never a candidate.  A teacher with a busy entry for the slot is a
    candidate only when the teacher also has a free entry for it; so,
    when the timetable has at most one entry per teacher, day and slot,
    a teacher with a busy entry for the slot is never a candidate. *)
Theorem candidates_eligible (st : Store) (i d : jsval) (rep : Report)
        (sl : CoverageSlot) :
  findSubstitutes st i d = Returned rep ->
  In sl (schedule rep) ->
  (forall sid,
      (exists c, In c (available_substitutes sl) /\ substitute_id c = sid)
      <-> eligible (tables st) (id_of i) (day_of d) (slot_id sl) sid)
  /\ (forall c, In c (available_substitutes sl) ->
        SQL.LOWER (substitute_id c) <> SQL.LOWER (id_of i))
  /\ (forall c, In c (available_substitutes sl) ->
        has_busy_entry (tables st) (substitute_id c) (day_of d) (slot_id sl)
        = true ->
        has_free_entry (tables st) (substitute_id c) (day_of d) (slot_id sl)
        = true)
  /\ (timetable_unique (teacher_timetable (tables st)) = true ->
      forall c, In c (available_substitutes sl) ->
        has_busy_entry (tables st) (substitute_id c) (day_of d) (slot_id sl)
        = false).
Proof.
  intros Hret Hin.
  slot_of_report Hret Hin r Hr. cbn.
  apply first_of_each_key_fresh in Hr as [Hr _].
  apply in_qClasses in Hr.
  assert (Hiff : forall sid,
             (exists c, In c (candidates_for
                                (qSubs (tables st) (id_of i) (day_of d)
                                   (id_of i) (day_of d)) (class_key r))
                        /\ substitute_id c = sid)
             <-> eligible (tables st) (id_of i) (day_of d) (cls_slot_id r) sid).
  { intros sid. rewrite <- (candidate_of_class _ _ _ _ sid Hr).
    unfold candidates_for. split.
    - intros (c & Hc & Hsid). apply in_map_iff in Hc as [s [<- Hs]].
      apply filter_In in Hs as [Hs Hk]. apply pair_eqb_eq in Hk.
      apply in_qSubs in Hs. now exists s.
    - intros (s & Hs & Hk & Hsid). exists (candidate_of s).
      split; [| assumption]. apply in_map, filter_In.
      split; [now apply in_qSubs | now apply pair_eqb_eq]. }
  split; [exact Hiff | split; [| split]].
  - intros c Hc.
    assert (He : eligible (tables st) (id_of i) (day_of d) (cls_slot_id r)
                   (substitute_id c)) by (apply Hiff; now exists c).
    apply He.
  - intros c Hc Hbusy.
    assert (He : eligible (tables st) (id_of i) (day_of d) (cls_slot_id r)
                   (substitute_id c)) by (apply Hiff; now exists c).
    destruct He as (_ & _ & [Hfree | Hnone]); [assumption |].
    rewrite has_entry_split in Hnone.
    apply orb_false_iff in Hnone as [_ Hnone]. congruence.
  - intros Hu c Hc.
    assert (He : eligible (tables st) (id_of i) (day_of d) (cls_slot_id r)
                   (substitute_id c)) by (apply Hiff; now exists c).
    destruct He as (_ & _ & [Hfree | Hnone]).
    + now apply unique_free_busy.
    + rewrite has_entry_split in Hnone.
      now apply orb_false_iff in Hnone as [_ Hnone].
Qed.

Lemma candidates_eligible_witness :
  exists rep sl,
    findSubstitutes demo_store (JStr " T1 ") (JStr "monday") = Returned rep
    /\ In sl (schedule rep)
    /\ ((exists c, In c (available_substitutes sl) /\ substitute_id c = "T4")
        <-> eligible demo_db "T1" "MON" 1 "T4")
    /\ (forall c, In c (available_substitutes sl) ->
          has_busy_entry demo_db (substitute_id c) "MON" 1 = false).
Proof.
  eexists. eexists.
  match goal with
  | |- ?A /\ ?B /\ _ =>
      assert (Hret : A) by (vm_compute; reflexivity);
      assert (Hin : B) by (left; reflexivity)
  end.
  split; [exact Hret |]. split; [exact Hin |].
  destruct (@candidates_eligible _ _ _ _ _ Hret Hin)
    as (Hiff & _ & _ & Hbusy).
  split.
  - exact (Hiff "T4").
  - apply Hbusy. reflexivity.
Defined.

(** C1 as stated fails for a teacher with two entries for the slot, one
    busy and one free: the free entry makes the teacher a candidate,
    busy entry or not. *)
Lemma busy_candidate_counterexample :
  exists rep sl c,
    known_absent double_entry_db "T1" = true
    /\ findSubstitutes double_entry_store (JStr "T1") (JStr "MON")
       = Returned rep
    /\ In sl (schedule rep)
    /\ In c (available_substitutes sl)
    /\ substitute_id c = "T2"
    /\ has_busy_entry double_entry_db "T2" "MON" (slot_id sl) = true.
Proof.
  do 3 eexists. split; [reflexivity |].
  split; [vm_compute; reflexivity |].
  split; [left; reflexivity |].
  split; [left; reflexivity |].
  split; reflexivity.
Qed.

(** C3.  A candidate of a coverage slot is tagged BEST FIT exactly when
    some subject assignment of that teacher (identifier compared
    case-insensitively) has a code that, trimmed and upper-cased, equals
    the upper-cased part of the slot's class description before the
    first " - "; otherwise the candidate is tagged GOOD FIT. *)
Theorem best_fit_iff_same_subject (st : Store) (i d : jsval) (rep : Report)
        (sl : CoverageSlot) (c : Candidate) :
  findSubstitutes st i d = Returned rep ->
  In sl (schedule rep) ->
  In c (available_substitutes sl) ->
  (priority c = BEST_FIT
   <-> exists tsa,
       In tsa (teacher_subject_assignment (tables st))
       /\ SQL.LOWER (tsa_teacher_id tsa) = SQL.LOWER (substitute_id c)
       /\ SQL.UPPER (SQL.TRIM (tsa_subject_code tsa))
          = SQL.UPPER (Str.before_first " - " (class_info sl)))
  /\ (priority c <> BEST_FIT -> priority c = GOOD_FIT).
Proof.
  intros Hret Hin Hc.
  slot_of_report Hret Hin r Hr. cbn in *.
  unfold candidates_for in Hc. apply in_map_iff in Hc as [s [<- Hs]].
  apply filter_In in Hs as [Hs Hk]. apply pair_eqb_eq in Hk.
  apply in_qSubs, in_subs_of in Hs
    as (c0 & ta & sa & _ & _ & _ & _ & _ & ->).
  unfold sub_key, class_key in Hk. cbn in Hk. injection Hk as _ Hclass.
  cbn. rewrite <- Hclass. unfold priority_of.
  destruct (teaches_subject_of (tables st) (ta_teacher_id ta)
              (cls_class_to_cover c0)) eqn:Ht.
  - split; [| intros H; now elim H]. split; [intros _ | reflexivity].
    unfold teaches_subject_of in Ht.
    apply existsb_exists in Ht as [tsa [Htsa Hm]].
    apply andb_true_iff in Hm as [H1 H2]. apply String.eqb_eq in H1, H2.
    now exists tsa.
  - split; [| reflexivity]. split; [discriminate |].
    intros (tsa & Htsa & H1 & H2). exfalso.
    assert (teaches_subject_of (tables st) (ta_teacher_id ta)
              (cls_class_to_cover c0) = true); [| congruence].
    unfold teaches_subject_of. apply existsb_exists. exists tsa.
    split; [assumption |]. unfold SQL.SUBSTRING_INDEX_1.
    rewrite H1, H2. now rewrite !String.eqb_refl.
Qed.

Lemma best_fit_iff_same_subject_witness :
  exists rep sl c,
    findSubstitutes demo_store (JStr " T1 ") (JStr "monday") = Returned rep
    /\ In sl (schedule rep)
    /\ In c (available_substitutes sl)
    /\ substitute_id c = "T2"
    /\ class_info sl = "MATH - Algebra"
    /\ (priority c = BEST_FIT
        <-> exists tsa,
            In tsa (teacher_subject_assignment demo_db)
            /\ SQL.LOWER (tsa_teacher_id tsa) = SQL.LOWER "T2"
            /\ SQL.UPPER (SQL.TRIM (tsa_subject_code tsa)) = "MATH").
Proof.
  eexists. eexists. eexists.
  match goal with
  | |- ?A /\ ?B /\ ?C /\ _ =>
      assert (Hret : A) by (vm_compute; reflexivity);
      assert (Hin : B) by (left; reflexivity);
      assert (Hc : C) by (left; reflexivity)
  end.
  split; [exact Hret |]. split; [exact Hin |]. split; [exact Hc |].
  split; [reflexivity |]. split; [reflexivity |].
  exact (proj1 (@best_fit_iff_same_subject _ _ _ _ _ _ Hret Hin Hc)).
Defined.

(** *** The attendance and subject-detail reads *)

Lemma qAttendance_teacher_row (db : Database) (id : string) :
  qAttendance db id
  = match teacher_row db id with
    | Some ta => [ {| att_teacher_name := ta_teacher_name ta;
                      att_attendance := ta_attendance ta |} ]
    | None => []
    end.
Proof.
  unfold qAttendance, teacher_row, SQL.LIMIT_1.
  induction (teacher_attendance db) as [| ta l IH]; cbn; [reflexivity |].
  destruct (SQL.LOWER (ta_teacher_id ta) =? SQL.LOWER id); [reflexivity |].
  exact IH.
Qed.

Lemma known_teacher_row (db : Database) (id : string) :
  known db id = true <-> exists ta, teacher_row db id = Some ta.
Proof.
  unfold known, teacher_row.
  induction (teacher_attendance db) as [| ta l IH]; cbn.
  - split; [discriminate | intros [ta H]; discriminate].
  - destruct (SQL.LOWER (ta_teacher_id ta) =? SQL.LOWER id); cbn.
    + split; [intros _; now exists ta | reflexivity].
    + exact IH.
Qed.

Lemma known_absent_teacher_row (db : Database) (id : string) :
  known_absent db id = true
  <-> exists ta, teacher_row db id = Some ta
                 /\ JS.toUpperCase (JS.trim (ta_attendance ta)) = "ABSENT".
Proof.
  unfold known_absent. rewrite qAttendance_teacher_row.
  destruct (teacher_row db id) as [ta |].
  - unfold marked_absent. cbn. rewrite String.eqb_eq. split.
    + intros H. now exists ta.
    + intros [ta' [Heq H]]. now injection Heq as ->.
  - split; [discriminate | intros [ta [H _]]; discriminate].
Qed.

Lemma subject_detail_of_known (db : Database) (id : string)
      (ta : AttendanceRow) :
  teacher_row db id = Some ta ->
  subject_detail_of db id = subject_summary db (ta_teacher_id ta).
Proof.
  unfold subject_detail_of, qAbsentTeacherInfo, teacher_row, subject_summary,
    SQL.LIMIT_1, join_subjects_agg, SQL.left_matches.
  induction (teacher_attendance db) as [| x l IH]; cbn; [discriminate |].
  destruct (SQL.LOWER (ta_teacher_id x) =? SQL.LOWER id).
  - intros H. injection H as ->. cbn.
    destruct (filter _ (subjects_agg db)); reflexivity.
  - exact IH.
Qed.

Lemma distinct_from_In (x : string) (seen l : list string) :
  In x (SQL.distinct_from seen l) <-> In x l /\ ~ In x seen.
Proof.
  revert seen. induction l as [| y l IH]; intros seen; cbn; [tauto |].
  assert (Hseen : forall z, existsb (String.eqb z) seen = true <-> In z seen).
  { intros z. rewrite existsb_exists. split.
    - intros [w [Hw He]]. apply String.eqb_eq in He. now subst.
    - intros H. exists z. split; [assumption | apply String.eqb_refl]. }
  destruct (existsb (String.eqb y) seen) eqn:He.
  - rewrite IH. apply Hseen in He. split.
    + tauto.
    + intros [[<- | H] Hn]; [contradiction | tauto].
  - cbn. rewrite IH. cbn.
    assert (Hy : ~ In y seen) by (intros H; apply Hseen in H; congruence).
    split.
    + intros [<- | [H Hn]]; tauto.
    + intros [[<- | H] Hn]; [now left |].
      destruct (String.eqb_spec y x) as [-> | Hne]; [now left |].
      right. split; [assumption |]. intros [Heq | Hin]; [congruence | tauto].
Qed.

Lemma DISTINCT_In (x : string) (l : list string) :
  In x (SQL.DISTINCT l) <-> In x l.
Proof. unfold SQL.DISTINCT. rewrite distinct_from_In. cbn. tauto. Qed.

(** [subjects_agg] has a row for exactly the teacher identifiers of the
    assignment table. *)
Lemma subjects_agg_teachers (db : Database) (tid : string) :
  In tid (map sa_teacher_id (subjects_agg db))
  <-> In tid (map tsa_teacher_id (teacher_subject_assignment db)).
Proof.
  unfold subjects_agg. rewrite map_map. cbn [sa_teacher_id].
  rewrite map_id, DISTINCT_In.
  unfold tsa_left_join_subjects. rewrite !in_map_iff. split.
  - intros [[tsa sb] [<- Hin]]. apply in_flat_map in Hin as [tsa' [Htsa Hin]].
    apply in_map_iff in Hin as [sb' [Heq _]]. injection Heq as -> ->.
    now exists tsa.
  - intros [tsa [<- Htsa]].
    destruct (left_matches_inhabited
                (fun sb => sbj_subject_code sb =? tsa_subject_code tsa)
                (subjects db)) as [sb Hsb].
    exists (tsa, sb). split; [reflexivity |].
    apply in_flat_map. exists tsa. split; [assumption |]. now apply in_map.
Qed.

(** A teacher without subject assignment has the literal summary. *)
Lemma subject_summary_unassigned (db : Database) (tid : string) :
  (forall tsa, In tsa (teacher_subject_assignment db) ->
               SQL.LOWER (tsa_teacher_id tsa) <> SQL.LOWER tid) ->
  subject_summary db tid = "Subject(s) Not Assigned".
Proof.
  intros Hnone. unfold subject_summary.
  destruct (filter _ (subjects_agg db)) as [| sa l] eqn:Hf; [reflexivity |].
  assert (Hin : In sa (sa :: l)) by now left.
  rewrite <- Hf in Hin. apply filter_In in Hin as [Hin Hm].
  apply String.eqb_eq in Hm.
  assert (Hid : In (sa_teacher_id sa) (map sa_teacher_id (subjects_agg db)))
    by now apply in_map.
  apply subjects_agg_teachers, in_map_iff in Hid as [tsa [Heq Htsa]].
  exfalso. apply (Hnone tsa Htsa). now rewrite Heq.
Qed.

Lemma resolved_name_display (ta : AttendanceRow) (id : string) :
  resolved_name {| att_teacher_name := ta_teacher_name ta;
                   att_attendance := ta_attendance ta |} id
  = display_name ta id.
Proof.
  unfold resolved_name, display_name. cbn [att_teacher_name].
  now destruct (Str.is_empty (ta_teacher_name ta)).
Qed.

(** The start of [findSubstitutes] for valid arguments. *)
Lemma findSubstitutes_valid (st : Store) (i d : jsval) :
  id_of i <> "" -> day_of d <> "" ->
  findSubstitutes st i d
  = (attRows <- sqldb_query st QAttendance
                  (qAttendance (tables st) (id_of i)) ;;
     match attRows with
     | [] =>
         Returned {| absentName := "Teacher ID: " ++ id_of i;
                     absentTeacherSubjectDetail := "N/A";
                     schedule := [];
                     note := Some "Teacher not found" |}
     | row :: _ =>
         absentInfo <- sqldb_query st QAbsentTeacherInfo
                         (qAbsentTeacherInfo (tables st) (id_of i)) ;;
         if negb (marked_absent row)
         then Returned {| absentName := resolved_name row (id_of i);
                          absentTeacherSubjectDetail :=
                            subject_detail_of (tables st) (id_of i);
                          schedule := [];
                          note := Some NOT_ABSENT_NOTE |}
         else
           try_catch
             (classes <- sqldb_query st QClasses
                           (qClasses (tables st) (id_of i) (day_of d)) ;;
              match classes with
              | [] =>
                  Returned {| absentName := resolved_name row (id_of i);
                              absentTeacherSubjectDetail :=
                                subject_detail_of (tables st) (id_of i);
                              schedule := [];
                              note := None |}
              | _ :: _ =>
                  subs <- sqldb_query st QSubs
                            (qSubs (tables st) (id_of i) (day_of d)
                               (id_of i) (day_of d)) ;;
                  Returned {| absentName := resolved_name row (id_of i);
                              absentTeacherSubjectDetail :=
                                subject_detail_of (tables st) (id_of i);
                              schedule := build_schedule classes subs;
                              note := None |}
              end)
             (fun _ => Thrown (JsError WRAPPED_MESSAGE))
     end).
Proof.
  intros Hid Hday. unfold findSubstitutes.
  fold (id_of i). rewrite day_of_truthy. fold (day_of d). cbn [JS.truthy].
  apply is_empty_false in Hid, Hday. rewrite Hid, Hday. cbn [negb].
  unfold sqldb_query.
  destruct (fault st QAttendance); cbn [bind]; [reflexivity |].
  destruct (qAttendance (tables st) (id_of i)) as [| row rest];
    [reflexivity |].
  destruct (fault st QAbsentTeacherInfo); reflexivity.
Qed.

(** C5.  For valid arguments and reads that go through, resolving an
    identifier that matches no teacher returns the report named
    "Teacher ID: <id>" with subject detail "N/A", an empty schedule and
    the note "Teacher not found"; resolving a teacher whose attendance,
    trimmed and upper-cased, is not "ABSENT" returns the teacher's name
    and subject-detail summary with an empty schedule and the note that
    the teacher is not marked as ABSENT, whatever the timetable holds. *)
Theorem short_circuit_reports (st : Store) (i d : jsval) :
  id_of i <> "" -> day_of d <> "" ->
  fault st QAttendance = None ->
  (known (tables st) (id_of i) = false ->
   findSubstitutes st i d
   = Returned {| absentName := "Teacher ID: " ++ id_of i;
                 absentTeacherSubjectDetail := "N/A";
                 schedule := [];
                 note := Some "Teacher not found" |})
  /\ (forall ta,
         teacher_row (tables st) (id_of i) = Some ta ->
         JS.toUpperCase (JS.trim (ta_attendance ta)) <> "ABSENT" ->
         fault st QAbsentTeacherInfo = None ->
         findSubstitutes st i d
         = Returned {| absentName := display_name ta (id_of i);
                       absentTeacherSubjectDetail :=
                         subject_summary (tables st) (ta_teacher_id ta);
                       schedule := [];
                       note := Some NOT_ABSENT_NOTE |}).
Proof.
  intros Hid Hday F1.
  rewrite (findSubstitutes_valid st i d Hid Hday).
  unfold sqldb_query. rewrite F1. cbn [bind].
  rewrite qAttendance_teacher_row. split.
  - intros Hk. destruct (teacher_row (tables st) (id_of i)) as [ta |] eqn:Hrow;
      [| reflexivity].
    assert (known (tables st) (id_of i) = true)
      by (apply known_teacher_row; now exists ta).
    congruence.
  - intros ta Hrow Hna F2. rewrite Hrow, F2. cbn [bind].
    unfold marked_absent. cbn [att_attendance].
    apply String.eqb_neq in Hna. rewrite Hna. cbn [negb].
    now rewrite resolved_name_display, (subject_detail_of_known _ _ Hrow).
Qed.

Lemma short_circuit_reports_witness :
  findSubstitutes demo_store (JStr "T9") (JStr "monday")
  = Returned {| absentName := "Teacher ID: T9";
                absentTeacherSubjectDetail := "N/A";
                schedule := [];
                note := Some "Teacher not found" |}
  /\ findSubstitutes demo_store (JStr "t2") (JStr "monday")
     = Returned {| absentName := "Zed";
                   absentTeacherSubjectDetail :=
                     " math  -  | CS101 - Computing";
                   schedule := [];
                   note := Some NOT_ABSENT_NOTE |}.
Proof.
  split.
  - refine (proj1 (@short_circuit_reports demo_store (JStr "T9")
                     (JStr "monday") _ _ _) _);
      try reflexivity; vm_compute; discriminate.
  - refine (proj2 (@short_circuit_reports demo_store (JStr "t2")
                     (JStr "monday") _ _ _)
              {| ta_teacher_id := "T2"; ta_teacher_name := "Zed";
                 ta_attendance := " present " |} _ _ _);
      try reflexivity; vm_compute; discriminate.
Defined.

(** C6.  For valid arguments, a known teacher marked absent with no
    non-free timetable entry on the target day, and attendance,
    subject-detail and coverage reads that go through, the resolution
    returns the teacher's name and subject-detail summary, an empty
    schedule and no note. *)
Theorem no_class_no_note (st : Store) (i d : jsval) (ta : AttendanceRow) :
  id_of i <> "" -> day_of d <> "" ->
  fault st QAttendance = None ->
  fault st QAbsentTeacherInfo = None ->
  fault st QClasses = None ->
  teacher_row (tables st) (id_of i) = Some ta ->
  JS.toUpperCase (JS.trim (ta_attendance ta)) = "ABSENT" ->
  entries_to_cover (tables st) (id_of i) (day_of d) = [] ->
  findSubstitutes st i d
  = Returned {| absentName := display_name ta (id_of i);
                absentTeacherSubjectDetail :=
                  subject_summary (tables st) (ta_teacher_id ta);
                schedule := [];
                note := None |}.
Proof.
  intros Hid Hday F1 F2 F3 Hrow Habs Hnone.
  rewrite (findSubstitutes_valid st i d Hid Hday).
  unfold sqldb_query. rewrite F1, F2, F3. cbn [bind].
  rewrite qAttendance_teacher_row, Hrow.
  unfold marked_absent. cbn [att_attendance].
  rewrite Habs, String.eqb_refl. cbn [negb].
  assert (Hc : qClasses (tables st) (id_of i) (day_of d) = []).
  { destruct (qClasses (tables st) (id_of i) (day_of d)) as [| c cs] eqn:Hq;
      [reflexivity |].
    assert (Hin : In c (qClasses (tables st) (id_of i) (day_of d)))
      by (rewrite Hq; now left).
    apply in_qClasses, in_classes_of in Hin as (tt & _ & Htt & _).
    rewrite Hnone in Htt. contradiction. }
  rewrite Hc. cbn [try_catch].
  now rewrite resolved_name_display, (subject_detail_of_known _ _ Hrow).
Qed.

Lemma no_class_no_note_witness :
  findSubstitutes demo_store (JStr "T1") (JStr "Tuesday")
  = Returned {| absentName := "Asha";
                absentTeacherSubjectDetail := "Subject(s) Not Assigned";
                schedule := [];
                note := None |}.
Proof.
  refine (@no_class_no_note demo_store (JStr "T1") (JStr "Tuesday")
            {| ta_teacher_id := "T1"; ta_teacher_name := "Asha";
               ta_attendance := "Absent" |} _ _ _ _ _ _ _ _);
    try reflexivity; vm_compute; discriminate.
Defined.

(** X26.  For valid arguments, when a read that the resolution issues
    fails, the resolution raises and returns no report; when the
    attendance and the subject-detail reads have gone through, what it
    raises is the single error "Database query failed during
    substitution search.", whatever the cause of the failure. *)
Theorem failed_read_raises (st : Store) (i d : jsval) (q : Query)
        (e : StoreError) :
  id_of i <> "" -> day_of d <> "" ->
  issued (tables st) (id_of i) (day_of d) q = true ->
  fault st q = Some e ->
  exists t,
    findSubstitutes st i d = Thrown t
    /\ (forall rep, findSubstitutes st i d <> Returned rep)
    /\ (fault st QAttendance = None ->
        fault st QAbsentTeacherInfo = None ->
        t = JsError WRAPPED_MESSAGE).
Proof.
  intros Hid Hday Hissued Hfault.
  assert (Hthrown : forall t, findSubstitutes st i d = Thrown t ->
                              forall rep, findSubstitutes st i d <> Returned rep)
    by (intros t Ht rep; rewrite Ht; discriminate).
  rewrite (findSubstitutes_valid st i d Hid Hday) in *.
  unfold sqldb_query in *.
  destruct (fault st QAttendance) as [e1 |] eqn:F1; cbn [bind] in *.
  { eexists. split; [reflexivity |]. split; [now apply (Hthrown _ eq_refl) |].
    discriminate. }
  assert (Hk : known (tables st) (id_of i) = true).
  { destruct q; cbn in Hissued; try assumption.
    - congruence.
    - apply known_teacher_row.
      apply known_absent_teacher_row in Hissued as [ta [H _]]. now exists ta.
    - apply andb_true_iff in Hissued as [Hissued _].
      apply known_teacher_row.
      apply known_absent_teacher_row in Hissued as [ta [H _]]. now exists ta. }
  apply known_teacher_row in Hk as [ta Hrow].
  rewrite qAttendance_teacher_row, Hrow in *.
  destruct (fault st QAbsentTeacherInfo) as [e2 |] eqn:F2; cbn [bind] in *.
  { eexists. split; [reflexivity |]. split; [now apply (Hthrown _ eq_refl) |].
    discriminate. }
  assert (Hka : known_absent (tables st) (id_of i) = true).
  { destruct q; cbn in Hissued; try congruence.
    now apply andb_true_iff in Hissued as [Hissued _]. }
  unfold known_absent in Hka. rewrite qAttendance_teacher_row, Hrow in Hka.
  rewrite Hka in *. cbn [negb] in *.
  exists (JsError WRAPPED_MESSAGE).
  assert (Hwrapped : forall A (body : outcome A) (k : A -> outcome Report),
             body = Thrown (StoreRejection e) \/
             (exists a, body = Returned a
                        /\ k a = Thrown (StoreRejection e)) ->
             try_catch (x <- body ;; k x)
               (fun _ => Thrown (JsError WRAPPED_MESSAGE))
             = Thrown (JsError WRAPPED_MESSAGE)).
  { intros A body k [-> | [a [-> Hk]]]; cbn; [reflexivity |].
    now rewrite Hk. }
  match goal with
  | |- ?lhs = _ /\ _ =>
      assert (Heq : lhs = Thrown (JsError WRAPPED_MESSAGE))
  end.
  { destruct q; try congruence.
    - apply Hwrapped. left. now rewrite Hfault.
    - cbn in Hissued. apply andb_true_iff in Hissued as [_ Hc].
      destruct (fault st QClasses) as [e3 |]; [reflexivity |].
      apply Hwrapped. right. eexists. split; [reflexivity |].
      destruct (qClasses (tables st) (id_of i) (day_of d)); [discriminate |].
      now rewrite Hfault. }
  split; [exact Heq |]. split; [now apply (Hthrown _ Heq) | reflexivity].
Qed.

Lemma failed_read_raises_witness :
  exists t,
    findSubstitutes subs_down_store (JStr "T1") (JStr "monday") = Thrown t
    /\ (forall rep, findSubstitutes subs_down_store (JStr "T1") (JStr "monday")
                    <> Returned rep).
Proof.
  destruct (@failed_read_raises subs_down_store (JStr "T1") (JStr "monday")
              QSubs (MkStoreError "ER_PARSE_ERROR"))
    as (t & Ht & Hnone & _).
  - vm_compute. discriminate.
  - vm_compute. discriminate.
  - reflexivity.
  - reflexivity.
  - exists t. split; assumption.
Defined.

(** C7.  The code at the failing input: the attendance read is issued
    and fails, and the resolution raises the store's own error, not the
    wrapped one; on the same tables a failure of the candidate read,
    which is inside the [try] block, is raised as the wrapped error. *)
Theorem attendance_failure_unwrapped :
  issued (tables attendance_down_store) "T1" "MON" QAttendance = true
  /\ fault attendance_down_store QAttendance
     = Some (MkStoreError "ECONNRESET")
  /\ findSubstitutes attendance_down_store (JStr "T1") (JStr "monday")
     = Thrown (StoreRejection (MkStoreError "ECONNRESET"))
  /\ findSubstitutes attendance_down_store (JStr "T1") (JStr "monday")
     <> Thrown (JsError WRAPPED_MESSAGE)
  /\ findSubstitutes subs_down_store (JStr "T1") (JStr "monday")
     = Thrown (JsError WRAPPED_MESSAGE).
Proof.
  split; [reflexivity |]. split; [reflexivity |].
  split; [reflexivity |]. split; [discriminate |].
  vm_compute. reflexivity.
Qed.

(* ================================================================= *)
(** ** Further properties *)

(** *** Blank arguments *)

Lemma drop_while_all (p : ascii -> bool) (s : string) :
  Str.all p s = true -> Str.drop_while p s = "".
Proof.
  induction s as [| c s IH]; [reflexivity |]. cbn.
  intros H. apply andb_true_iff in H as [Hc Hs]. rewrite Hc. now apply IH.
Qed.

Lemma drop_while_head (p : ascii -> bool) (s : string) :
  Str.all p s = false ->
  exists c r, Str.drop_while p s = String c r /\ p c = false.
Proof.
  induction s as [| c s IH]; [discriminate |]. cbn.
  destruct (p c) eqn:Hc; cbn.
  - exact IH.
  - intros _. now exists c, s.
Qed.

Lemma trim_with_empty (p : ascii -> bool) (s : string) :
  Str.trim_with p s = "" <-> Str.all p s = true.
Proof.
  unfold Str.trim_with. split.
  - intros H. destruct (Str.all p s) eqn:Ha; [reflexivity |].
    apply drop_while_head in Ha as (c & r & Hd & Hc).
    rewrite Hd in H. cbn in H. rewrite Hc in H. discriminate.
  - intros H. now rewrite drop_while_all.
Qed.

Lemma toUpperCase_eq_empty (s : string) : JS.toUpperCase s = "" <-> s = "".
Proof. destruct s; cbn; split; congruence. Qed.

Lemma slice3_eq_empty (s : string) : JS.slice 0 3 s = "" <-> s = "".
Proof. destruct s; cbn; split; congruence. Qed.

Lemma id_of_blank (i : jsval) : id_of i = "" <-> blank i = true.
Proof.
  unfold id_of, JS.or, JS.trim.
  destruct i as [| | [] | s]; cbn; try (split; [discriminate | discriminate]);
    try (split; reflexivity).
  destruct (Str.is_empty s) eqn:He; cbn.
  - apply is_empty_true in He. subst s. split; reflexivity.
  - apply trim_with_empty.
Qed.

Lemma normalizeDay_string (s : string) :
  s <> "" ->
  normalizeDay (JStr s)
  = if JS.includes thursday_spellings (JS.toUpperCase (JS.trim s))
    then JStr "THUR"
    else JStr (JS.slice 0 3 (JS.toUpperCase (JS.trim s))).
Proof.
  intros Hs. unfold normalizeDay. cbn [JS.truthy JS.String_].
  apply is_empty_false in Hs. now rewrite Hs.
Qed.

Lemma day_of_blank (d : jsval) : day_of d = "" <-> blank d = true.
Proof.
  unfold day_of, JS.or.
  destruct d as [| | [] | s];
    try (split; [discriminate | discriminate]); try (split; reflexivity).
  cbn [JS.truthy blank]. destruct (Str.is_empty s) eqn:He; cbn [negb].
  - apply is_empty_true in He. subst s. split; reflexivity.
  - apply is_empty_false in He. rewrite (normalizeDay_string He).
    rewrite <- (trim_with_empty Chars.is_js_space s). fold (JS.trim s).
    destruct (JS.includes thursday_spellings _) eqn:Hi; cbn [JS.String_].
    + split; [discriminate |]. intros Hb. rewrite Hb in Hi. discriminate.
    + now rewrite slice3_eq_empty, toUpperCase_eq_empty.
Qed.

(** What [findSubstitutes] does on valid arguments: a report, the
    store's own rejection, or the wrapped error. *)
Lemma findSubstitutes_valid_outcome (st : Store) (i d : jsval) :
  id_of i <> "" -> day_of d <> "" ->
  (exists rep, findSubstitutes st i d = Returned rep)
  \/ (exists e, findSubstitutes st i d = Thrown (StoreRejection e))
  \/ findSubstitutes st i d = Thrown (JsError WRAPPED_MESSAGE).
Proof.
  intros Hid Hday. rewrite (findSubstitutes_valid st i d Hid Hday).
  unfold sqldb_query.
  destruct (fault st QAttendance); cbn [bind]; [right; left; eauto |].
  destruct (qAttendance (tables st) (id_of i)) as [| row rest];
    [left; eauto |].
  destruct (fault st QAbsentTeacherInfo); cbn [bind]; [right; left; eauto |].
  destruct (negb (marked_absent row)); [left; eauto |].
  destruct (fault st QClasses); cbn [bind try_catch]; [right; right; reflexivity |].
  destruct (qClasses (tables st) (id_of i) (day_of d)); cbn [try_catch];
    [left; eauto |].
  destruct (fault st QSubs); cbn [bind try_catch];
    [right; right; reflexivity | left; eauto].
Qed.

Lemma findSubstitutes_blank_id (st : Store) (i d : jsval) :
  id_of i = "" ->
  findSubstitutes st i d = Thrown (JsError "Invalid absent teacher ID.").
Proof.
  intros H. unfold findSubstitutes. fold (id_of i). rewrite H. reflexivity.
Qed.

Lemma findSubstitutes_blank_day (st : Store) (i d : jsval) :
  id_of i <> "" -> day_of d = "" ->
  findSubstitutes st i d = Thrown (JsError "Invalid or missing day.").
Proof.
  intros Hi Hd. unfold findSubstitutes. fold (id_of i).
  rewrite day_of_truthy. cbn [JS.truthy].
  apply is_empty_false in Hi. rewrite Hi, Hd. reflexivity.
Qed.

(** X1.  For an identifier that is not a string or is a string of ASCII
    characters, [findSubstitutes] raises "Invalid absent teacher ID."
    exactly when the identifier is falsy or a string of white space
    only, whatever the day and whatever the state of the store. *)
Theorem invalid_id_iff_blank (st : Store) (i d : jsval) :
  ascii_value i = true ->
  (findSubstitutes st i d = Thrown (JsError "Invalid absent teacher ID.")
   <-> blank i = true).
Proof.
  intros _. rewrite <- id_of_blank. split.
  - intros H. destruct (string_dec (id_of i) "") as [| Hi]; [assumption |].
    exfalso. destruct (string_dec (day_of d) "") as [Hd | Hd].
    + rewrite (findSubstitutes_blank_day st i d Hi Hd) in H. discriminate.
    + destruct (findSubstitutes_valid_outcome st i d Hi Hd)
        as [[rep Hr] | [[e Hr] | Hr]]; rewrite Hr in H; discriminate.
  - apply findSubstitutes_blank_id.
Qed.

Lemma invalid_id_iff_blank_witness :
  ascii_value (JStr "  ") = true
  /\ (findSubstitutes demo_store (JStr "  ") (JStr "mon")
      = Thrown (JsError "Invalid absent teacher ID.")
      <-> blank (JStr "  ") = true).
Proof.
  assert (H : ascii_value (JStr "  ") = true) by reflexivity.
  split; [exact H |].
  exact (@invalid_id_iff_blank demo_store (JStr "  ") (JStr "mon") H).
Defined.

(** X2.  For an identifier and a day that are not strings or are strings
    of ASCII characters, [findSubstitutes] raises "Invalid or missing
    day." exactly when the identifier is not blank and the day is falsy
    or a string of white space only, whatever the state of the store. *)
Theorem invalid_day_iff_blank (st : Store) (i d : jsval) :
  ascii_value i = true -> ascii_value d = true ->
  (findSubstitutes st i d = Thrown (JsError "Invalid or missing day.")
   <-> blank i = false /\ blank d = true).
Proof.
  intros _ _. rewrite <- day_of_blank. split.
  - intros H. destruct (string_dec (id_of i) "") as [Hi | Hi].
    + rewrite (findSubstitutes_blank_id st i d Hi) in H. discriminate.
    + split.
      * apply not_true_is_false. intros Hb. now apply id_of_blank in Hb.
      * destruct (string_dec (day_of d) "") as [| Hd]; [assumption |].
        exfalso. destruct (findSubstitutes_valid_outcome st i d Hi Hd)
          as [[rep Hr] | [[e Hr] | Hr]]; rewrite Hr in H; discriminate.
  - intros [Hi Hd]. apply findSubstitutes_blank_day; [| assumption].
    intros He. apply id_of_blank in He. congruence.
Qed.

Lemma invalid_day_iff_blank_witness :
  ascii_value (JStr "T1") = true /\ ascii_value (JStr " ") = true
  /\ (findSubstitutes demo_store (JStr "T1") (JStr " ")
      = Thrown (JsError "Invalid or missing day.")
      <-> blank (JStr "T1") = false /\ blank (JStr " ") = true).
Proof.
  assert (H1 : ascii_value (JStr "T1") = true) by reflexivity.
  assert (H2 : ascii_value (JStr " ") = true) by reflexivity.
  split; [exact H1 |]. split; [exact H2 |].
  exact (@invalid_day_iff_blank demo_store (JStr "T1") (JStr " ") H1 H2).
Defined.

(** *** [normalizeDay] applied once and twice *)

Lemma upper_upper (c : ascii) : Chars.upper (Chars.upper c) = Chars.upper c.
Proof. destruct c as [[] [] [] [] [] [] [] []]; reflexivity. Qed.

Lemma toUpperCase_idem (s : string) :
  JS.toUpperCase (JS.toUpperCase s) = JS.toUpperCase s.
Proof.
  unfold JS.toUpperCase. induction s as [| c s IH]; [reflexivity |].
  cbn. now rewrite upper_upper, IH.
Qed.

Lemma length_append (a b : string) :
  String.length (a ++ b) = String.length a + String.length b.
Proof. induction a as [| c a IH]; cbn; [reflexivity | now rewrite IH]. Qed.

Lemma length_slice3 (s : string) : String.length (JS.slice 0 3 s) <= 3.
Proof.
  destruct s as [| a [| b [| c s]]]; cbn; try lia.
  destruct s; cbn; lia.
Qed.

Lemma slice3_short (s : string) :
  String.length s <= 3 -> JS.slice 0 3 s = s.
Proof.
  destruct s as [| a [| b [| c [| e s]]]]; cbn; try reflexivity. lia.
Qed.

Lemma length_map (f : ascii -> ascii) (s : string) :
  String.length (Str.map f s) = String.length s.
Proof. induction s as [| c s IH]; cbn; [reflexivity | now rewrite IH]. Qed.

Lemma drop_while_suffix (p : ascii -> bool) (s : string) :
  exists a, s = a ++ Str.drop_while p s.
Proof.
  induction s as [| c s [a IH]]; [now exists "" |]. cbn.
  destruct (p c).
  - exists (String c a). cbn. now rewrite <- IH.
  - now exists "".
Qed.

Lemma drop_while_end_prefix (p : ascii -> bool) (s : string) :
  exists b, s = Str.drop_while_end p s ++ b.
Proof.
  induction s as [| c s [b IH]]; [now exists "" |]. cbn.
  destruct (p c && _).
  - now exists (String c s).
  - exists b. cbn. now rewrite <- IH.
Qed.

(** Trimming shortens, and keeps the length only of a string it leaves
    as it is. *)
Lemma trim_length (p : ascii -> bool) (s : string) :
  String.length (Str.trim_with p s) <= String.length s
  /\ (String.length (Str.trim_with p s) = String.length s ->
      Str.trim_with p s = s).
Proof.
  unfold Str.trim_with.
  destruct (drop_while_suffix p s) as [a Ha].
  destruct (drop_while_end_prefix p (Str.drop_while p s)) as [b Hb].
  assert (Hlen : String.length s
                 = String.length a
                   + (String.length (Str.drop_while_end p (Str.drop_while p s))
                      + String.length b)).
  { rewrite Ha at 1. rewrite length_append. rewrite Hb at 1.
    now rewrite length_append. }
  split; [lia |]. intros He.
  assert (a = "" /\ b = "") as [-> ->].
  { split; [destruct a | destruct b]; cbn in *; trivial; lia. }
  cbn in Ha. rewrite <- Ha in *.
  rewrite Hb at 2. clear. induction (Str.drop_while_end p s); cbn; congruence.
Qed.

Lemma drop_while_end_idem (p : ascii -> bool) (s : string) :
  Str.drop_while_end p (Str.drop_while_end p s) = Str.drop_while_end p s.
Proof.
  induction s as [| c s IH]; [reflexivity |]. cbn.
  destruct (p c) eqn:Hc; cbn.
  - destruct (Str.drop_while_end p s =? "") eqn:He; [reflexivity |].
    cbn. rewrite Hc, IH, He. reflexivity.
  - now rewrite Hc, IH.
Qed.

Lemma trim_idem (s : string) : JS.trim (JS.trim s) = JS.trim s.
Proof.
  unfold JS.trim. unfold Str.trim_with at 1. rewrite drop_while_trim.
  unfold Str.trim_with. apply drop_while_end_idem.
Qed.

Lemma space_upper (c : ascii) :
  Chars.is_js_space (Chars.upper c) = Chars.is_js_space c.
Proof. destruct c as [[] [] [] [] [] [] [] []]; reflexivity. Qed.

Lemma drop_while_upper (s : string) :
  Str.drop_while Chars.is_js_space (JS.toUpperCase s)
  = JS.toUpperCase (Str.drop_while Chars.is_js_space s).
Proof.
  unfold JS.toUpperCase. induction s as [| c s IH]; [reflexivity |].
  cbn. rewrite space_upper. now destruct (Chars.is_js_space c).
Qed.

Lemma drop_while_end_upper (s : string) :
  Str.drop_while_end Chars.is_js_space (JS.toUpperCase s)
  = JS.toUpperCase (Str.drop_while_end Chars.is_js_space s).
Proof.
  unfold JS.toUpperCase. induction s as [| c s IH]; [reflexivity |].
  cbn. rewrite space_upper, IH.
  destruct (Chars.is_js_space c); cbn; [| reflexivity].
  now destruct (Str.drop_while_end Chars.is_js_space s).
Qed.

(** Trimming and upper-casing commute. *)
Lemma trim_upper (s : string) :
  JS.trim (JS.toUpperCase s) = JS.toUpperCase (JS.trim s).
Proof.
  unfold JS.trim, Str.trim_with.
  now rewrite drop_while_upper, drop_while_end_upper.
Qed.

Lemma thursday_prefix (u : string) :
  In u thursday_spellings -> prefix "THU" u = true.
Proof. cbn. intros [<- | [<- | [<- | [<- | []]]]]; reflexivity. Qed.

Lemma thursday_three (u : string) :
  In u thursday_spellings -> String.length u <= 3 -> u = "THU".
Proof.
  cbn. intros [<- | [<- | [<- | [<- | []]]]]; cbn; trivial; lia.
Qed.

Lemma normalizeDay_truthy_shape (v : jsval) :
  JS.truthy v = true ->
  exists r, normalizeDay v = JStr r
            /\ (r = "THUR" \/ String.length r <= 3)
            /\ JS.toUpperCase r = r.
Proof.
  intros Hv. unfold normalizeDay. rewrite Hv. cbn [negb].
  destruct (JS.includes thursday_spellings _).
  - exists "THUR". repeat split. now left.
  - eexists. split; [reflexivity |]. split.
    + right. apply length_slice3.
    + unfold JS.slice, JS.toUpperCase. rewrite <- substring_map.
      fold (JS.toUpperCase (JS.trim (JS.String_ v))).
      now rewrite toUpperCase_idem.
Qed.

(** X3.  On a truthy argument [normalizeDay] gives a string that is
    "THUR" or has at most three characters, and that upper-casing
    leaves as it is. *)
Theorem normalizeDay_shape (v : jsval) :
  JS.truthy v = true ->
  exists r, normalizeDay v = JStr r
            /\ (r = "THUR" \/ String.length r <= 3)
            /\ JS.toUpperCase r = r.
Proof. apply normalizeDay_truthy_shape. Qed.

Lemma normalizeDay_shape_witness :
  exists r, normalizeDay (JBool true) = JStr r
            /\ (r = "THUR" \/ String.length r <= 3)
            /\ JS.toUpperCase r = r.
Proof. apply normalizeDay_shape. reflexivity. Defined.

(** A second pass over a result of at most three characters. *)
Lemma normalizeDay_short (w : string) :
  String.length w <= 3 -> JS.toUpperCase w = w ->
  normalizeDay (JStr w)
  = if w =? "THU" then JStr "THUR" else JStr (JS.trim w).
Proof.
  intros Hlen Hup. destruct (string_dec w "") as [-> | Hw]; [reflexivity |].
  rewrite (normalizeDay_string Hw). rewrite <- trim_upper, Hup.
  destruct (trim_length Chars.is_js_space w) as [Hle Heq].
  fold (JS.trim w) in Hle, Heq.
  destruct (JS.includes thursday_spellings (JS.trim w)) eqn:Hi.
  - apply includes_In in Hi.
    assert (Ht : JS.trim w = "THU") by (apply thursday_three; [assumption | lia]).
    assert (Hwt : JS.trim w = w) by (apply Heq; rewrite Ht in *; cbn in *; lia).
    rewrite Hwt in Ht. subst w. reflexivity.
  - destruct (String.eqb_spec w "THU") as [-> | Hne]; [discriminate |].
    f_equal. apply slice3_short. lia.
Qed.

Lemma normalizeDay_twice (s : string) :
  normalizeDay (normalizeDay (JStr s)) = JStr "THUR"
  <-> prefix "THU" (JS.toUpperCase (JS.trim s)) = true.
Proof.
  destruct (string_dec s "") as [-> | Hs].
  { cbn. split; discriminate. }
  rewrite (normalizeDay_string Hs).
  set (u := JS.toUpperCase (JS.trim s)).
  assert (Hu : JS.toUpperCase u = u) by apply toUpperCase_idem.
  destruct (JS.includes thursday_spellings u) eqn:Hi.
  - apply includes_In in Hi. split; [intros _ | reflexivity].
    now apply thursday_prefix.
  - rewrite normalizeDay_short.
    + rewrite prefix_correct. change (String.length "THU") with 3.
      fold (JS.slice 0 3 u).
      destruct (String.eqb_spec (JS.slice 0 3 u) "THU") as [He | He].
      * split; [intros _; exact He | reflexivity].
      * split; [| intros H; contradiction].
        intros H. injection H as H. exfalso.
        pose proof (length_slice3 u) as Hl.
        destruct (trim_length Chars.is_js_space (JS.slice 0 3 u)) as [Hle _].
        fold (JS.trim (JS.slice 0 3 u)) in Hle. rewrite H in Hle.
        cbn in Hle. lia.
    + apply length_slice3.
    + unfold JS.slice, JS.toUpperCase. rewrite <- substring_map.
      fold (JS.toUpperCase u). now rewrite Hu.
Qed.

(** X4.  Two passes of [normalizeDay], as a request for substitutes
    makes them, give "THUR" exactly for the strings whose trimmed,
    upper-cased text starts with "THU". *)
Theorem normalizeDay_twice_thursday (s : string) :
  normalizeDay (normalizeDay (JStr s)) = JStr "THUR"
  <-> prefix "THU" (JS.toUpperCase (JS.trim s)) = true.
Proof. apply normalizeDay_twice. Qed.

(** X5.  From the second pass on [normalizeDay] changes nothing: a third
    pass gives what two passes give. *)
Theorem normalizeDay_stable_after_two (v : jsval) :
  normalizeDay (normalizeDay (normalizeDay v)) = normalizeDay (normalizeDay v).
Proof.
  destruct (JS.truthy v) eqn:Hv.
  2: { assert (Hn : normalizeDay v = v)
         by (unfold normalizeDay; now rewrite Hv).
       now rewrite !Hn. }
  destruct (normalizeDay_truthy_shape v Hv) as (r & -> & [-> | Hlen] & Hup);
    [reflexivity |].
  rewrite (normalizeDay_short Hlen Hup).
  destruct (r =? "THU") eqn:Hthu; [reflexivity |].
  destruct (trim_length Chars.is_js_space r) as [Hle _].
  fold (JS.trim r) in Hle.
  rewrite normalizeDay_short.
  - rewrite trim_idem.
    destruct (String.eqb_spec (JS.trim r) "THU") as [He | He]; [| reflexivity].
    exfalso. destruct (trim_length Chars.is_js_space r) as [_ Heq].
    fold (JS.trim r) in Heq.
    assert (JS.trim r = r) by (apply Heq; rewrite He in *; cbn in *; lia).
    rewrite H in He. subst r. discriminate.
  - lia.
  - now rewrite <- trim_upper, Hup.
Qed.

(** *** The subject code of a description *)

Lemma all_take_while (p : ascii -> bool) (s : string) :
  Str.all p (Str.take_while p s) = true.
Proof.
  induction s as [| c s IH]; [reflexivity |]. cbn.
  destruct (p c) eqn:Hc; cbn; [now rewrite Hc | reflexivity].
Qed.

Lemma leading_word_all (d : string) :
  Str.all Chars.is_word_char (leading_word d) = true.
Proof. apply all_take_while. Qed.

Lemma drop_while_none (p : ascii -> bool) (s : string) :
  match s with String c _ => p c = false | EmptyString => True end ->
  Str.drop_while p s = s.
Proof. destruct s as [| c s]; [reflexivity |]. cbn. now intros ->. Qed.

Lemma word_not_space (c : ascii) :
  Chars.is_word_char c = true -> Chars.is_js_space c = false.
Proof.
  intros H. destruct (Chars.is_js_space c) eqn:Hs; [| reflexivity].
  apply space_not_word in Hs. congruence.
Qed.

(** A string of letters, digits and underscores is its own leading
    word. *)
Lemma leading_word_word (w : string) :
  Str.all Chars.is_word_char w = true -> leading_word w = w.
Proof.
  intros H. unfold leading_word. rewrite drop_while_none.
  - now apply take_while_all.
  - destruct w as [| c w]; [trivial |]. cbn in H.
    apply andb_true_iff in H as [Hc _]. now apply word_not_space.
Qed.

Lemma leading_word_upper (d : string) :
  leading_word (JS.toUpperCase d) = JS.toUpperCase (leading_word d).
Proof.
  unfold leading_word. rewrite drop_while_upper.
  generalize (Str.drop_while Chars.is_js_space d). intros x.
  unfold JS.toUpperCase. induction x as [| c x IH]; [reflexivity |].
  cbn. rewrite word_char_upper.
  destruct (Chars.is_word_char c); cbn; [now rewrite IH | reflexivity].
Qed.

(** X6.  [extractSubjectCode] gives "N/A" or a non-empty string of
    upper-case letters, digits and underscores, never anything else. *)
Theorem extractSubjectCode_shape (v : jsval) :
  extractSubjectCode v = "N/A"
  \/ JS.test_code (extractSubjectCode v) = true.
Proof.
  destruct (JS.truthy v) eqn:Hv.
  2: { left. unfold extractSubjectCode. now rewrite Hv. }
  assert (Hs : exists d, d <> "" /\ extractSubjectCode v
                                    = extractSubjectCode (JStr d)).
  { destruct v as [| | [] | s]; try discriminate.
    - exists "true". split; [discriminate | reflexivity].
    - exists s. split; [| reflexivity].
      cbn in Hv. now apply negb_true_iff, is_empty_false in Hv. }
  destruct Hs as (d & Hd & ->).
  rewrite (extractSubjectCode_leading_word Hd).
  destruct (Str.is_empty (leading_word d)) eqn:He; [now left |].
  right. apply test_code_upper. split.
  - rewrite toUpperCase_eq_empty. now apply is_empty_false.
  - rewrite all_word_upper. apply leading_word_all.
Qed.

(** X7.  In a description of ASCII characters only the first word
    counts, whatever its case: the description, its upper-cased text and
    its leading word have the same subject code. *)
Theorem extractSubjectCode_first_word (d : string) :
  ascii_text d = true ->
  extractSubjectCode (JStr (leading_word d)) = extractSubjectCode (JStr d)
  /\ extractSubjectCode (JStr (JS.toUpperCase d)) = extractSubjectCode (JStr d).
Proof.
  intros _.
  destruct (string_dec d "") as [-> | Hd]; [split; reflexivity |].
  rewrite (extractSubjectCode_leading_word Hd). split.
  - destruct (Str.is_empty (leading_word d)) eqn:He.
    + apply is_empty_true in He. now rewrite He.
    + assert (Hne : leading_word d <> "") by now apply is_empty_false.
      rewrite (extractSubjectCode_leading_word Hne).
      rewrite (leading_word_word _ (leading_word_all d)). now rewrite He.
  - assert (Hu : JS.toUpperCase d <> "") by now rewrite toUpperCase_eq_empty.
    rewrite (extractSubjectCode_leading_word Hu), leading_word_upper.
    rewrite toUpperCase_idem.
    destruct (leading_word d); reflexivity.
Qed.

Lemma extractSubjectCode_first_word_witness :
  ascii_text " cs101 lab - B2" = true
  /\ extractSubjectCode (JStr (leading_word " cs101 lab - B2"))
     = extractSubjectCode (JStr " cs101 lab - B2")
  /\ extractSubjectCode (JStr (JS.toUpperCase " cs101 lab - B2"))
     = extractSubjectCode (JStr " cs101 lab - B2").
Proof.
  assert (H : ascii_text " cs101 lab - B2" = true) by reflexivity.
  split; [exact H |].
  exact (@extractSubjectCode_first_word " cs101 lab - B2" H).
Defined.

(** *** Subject and fitness of a slot *)

(** The tag of a row of the candidate read. *)
Lemma sub_row_priority (db : Database) (p1 p2 p3 p4 : string) (s : SubRow) :
  In s (qSubs db p1 p2 p3 p4) ->
  (substitution_priority s = BEST_FIT
   <-> exists tsa,
       In tsa (teacher_subject_assignment db)
       /\ SQL.LOWER (tsa_teacher_id tsa) = SQL.LOWER (substitute_teacher_id s)
       /\ SQL.UPPER (SQL.TRIM (tsa_subject_code tsa))
          = SQL.UPPER (Str.before_first " - " (sub_class_to_cover s))).
Proof.
  intros Hs. apply in_qSubs, in_subs_of in Hs
    as (c0 & ta & sa & _ & _ & _ & _ & _ & ->).
  cbn. unfold priority_of, teaches_subject_of, SQL.SUBSTRING_INDEX_1.
  destruct (existsb _ (teacher_subject_assignment db)) eqn:Ht.
  - split; [intros _ | reflexivity].
    apply existsb_exists in Ht as [tsa [Htsa Hm]].
    apply andb_true_iff in Hm as [H1 H2]. apply String.eqb_eq in H1, H2.
    now exists tsa.
  - split; [discriminate |]. intros (tsa & Htsa & H1 & H2). exfalso.
    assert (existsb
              (fun tsa0 =>
                 (SQL.LOWER (tsa_teacher_id tsa0)
                  =? SQL.LOWER (ta_teacher_id ta))
                 && (SQL.UPPER (SQL.TRIM (tsa_subject_code tsa0))
                     =? SQL.UPPER
                          (Str.before_first " - " (cls_class_to_cover c0))))
              (teacher_subject_assignment db) = true); [| congruence].
    apply existsb_exists. exists tsa. split; [assumption |].
    rewrite H1, H2. now rewrite !String.eqb_refl.
Qed.

(** X8.  When the class description of a slot starts with a code, a
    non-empty run of letters, digits and underscores right before the
    first " - ", the slot's [subject] is that code upper-cased, and a
    candidate of the slot is tagged BEST FIT exactly when one of the
    teacher's assigned codes, trimmed and upper-cased, is the slot's
    [subject]. *)
Theorem best_fit_teaches_subject (st : Store) (i d : jsval) (rep : Report)
        (sl : CoverageSlot) (c : Candidate) :
  findSubstitutes st i d = Returned rep ->
  In sl (schedule rep) ->
  In c (available_substitutes sl) ->
  Str.before_first " - " (class_info sl) <> "" ->
  Str.all Chars.is_word_char (Str.before_first " - " (class_info sl)) = true ->
  subject sl = JS.toUpperCase (Str.before_first " - " (class_info sl))
  /\ (priority c = BEST_FIT
      <-> exists tsa,
          In tsa (teacher_subject_assignment (tables st))
          /\ SQL.LOWER (tsa_teacher_id tsa) = SQL.LOWER (substitute_id c)
          /\ SQL.UPPER (SQL.TRIM (tsa_subject_code tsa)) = subject sl).
Proof.
  intros Hret Hin Hc Hne Hword.
  slot_of_report Hret Hin r Hr. cbn in *.
  assert (Hsub : extractSubjectCode (JStr (cls_class_to_cover r))
                 = JS.toUpperCase
                     (Str.before_first " - " (cls_class_to_cover r))).
  { assert (Hd : cls_class_to_cover r <> "").
    { intros He. rewrite He in Hne. now apply Hne. }
    rewrite (extractSubjectCode_leading_word Hd).
    rewrite <- (leading_word_before_first (cls_class_to_cover r)).
    rewrite (leading_word_word _ Hword).
    apply is_empty_false in Hne. now rewrite Hne. }
  split; [exact Hsub |]. rewrite Hsub.
  unfold candidates_for in Hc. apply in_map_iff in Hc as [s [<- Hs]].
  apply filter_In in Hs as [Hs Hk]. apply pair_eqb_eq in Hk.
  unfold sub_key, class_key in Hk. injection Hk as _ Hclass.
  rewrite <- Hclass. cbn. now apply sub_row_priority in Hs.
Qed.

Lemma best_fit_teaches_subject_witness :
  exists rep sl c,
    findSubstitutes demo_store (JStr " T1 ") (JStr "monday") = Returned rep
    /\ In sl (schedule rep)
    /\ In c (available_substitutes sl)
    /\ subject sl = "MATH"
    /\ (priority c = BEST_FIT
        <-> exists tsa,
            In tsa (teacher_subject_assignment demo_db)
            /\ SQL.LOWER (tsa_teacher_id tsa) = SQL.LOWER (substitute_id c)
            /\ SQL.UPPER (SQL.TRIM (tsa_subject_code tsa)) = subject sl).
Proof.
  eexists. eexists. eexists.
  match goal with
  | |- ?A /\ ?B /\ ?C /\ _ =>
      assert (Hret : A) by (vm_compute; reflexivity);
      assert (Hin : B) by (left; reflexivity);
      assert (Hc : C) by (left; reflexivity)
  end.
  split; [exact Hret |]. split; [exact Hin |]. split; [exact Hc |].
  refine (@best_fit_teaches_subject _ _ _ _ _ _ Hret Hin Hc _ _).
  - vm_compute. discriminate.
  - reflexivity.
Defined.

(** *** The subject aggregates *)

Lemma distinct_from_NoDup (seen l : list string) :
  NoDup (SQL.distinct_from seen l).
Proof.
  revert seen. induction l as [| x l IH]; intros seen; cbn; [constructor |].
  destruct (existsb (String.eqb x) seen); [apply IH |].
  constructor; [| apply IH].
  intros Hin. apply distinct_from_In in Hin as [_ Hn]. apply Hn. now left.
Qed.

Lemma distinct_from_sorted (R : string -> string -> Prop)
      (seen l : list string) :
  StronglySorted R l -> StronglySorted R (SQL.distinct_from seen l).
Proof.
  intros Hs. revert seen.
  induction Hs as [| x l Hs IH Hall]; intros seen; cbn; [constructor |].
  destruct (existsb (String.eqb x) seen); [apply IH |].
  constructor; [apply IH |].
  rewrite Forall_forall in *. intros y Hy.
  apply distinct_from_In in Hy as [Hy _]. now apply Hall.
Qed.

Lemma leb_total_trans :
  (forall a b, String.leb a b = true \/ String.leb b a = true)
  /\ (forall a b c, String.leb a b = true -> String.leb b c = true ->
                    String.leb a c = true).
Proof.
  split.
  - intros a b. apply (not_gt_total a b string_compare_ok).
  - intros a b c. apply (@not_gt_trans _ String.compare a b c string_compare_ok).
Qed.

Lemma in_joined (db : Database) (r : AssignmentRow * option SubjectRow) :
  In r (tsa_left_join_subjects db) ->
  In (fst r) (teacher_subject_assignment db).
Proof.
  unfold tsa_left_join_subjects. intros H.
  apply in_flat_map in H as [tsa [Htsa Hin]].
  apply in_map_iff in Hin as [sb [<- _]]. exact Htsa.
Qed.

Lemma joined_covers (db : Database) (tsa : AssignmentRow) :
  In tsa (teacher_subject_assignment db) ->
  exists sb, In (tsa, sb) (tsa_left_join_subjects db).
Proof.
  intros Htsa.
  destruct (left_matches_inhabited
              (fun sb => sbj_subject_code sb =? tsa_subject_code tsa)
              (subjects db)) as [sb Hsb].
  exists sb. unfold tsa_left_join_subjects. apply in_flat_map.
  exists tsa. split; [assumption |]. now apply in_map.
Qed.

Lemma in_assignment_group (db : Database) (tid : string)
      (r : AssignmentRow * option SubjectRow) :
  In r (assignment_group db tid)
  <-> In r (tsa_left_join_subjects db) /\ tsa_teacher_id (fst r) = tid.
Proof.
  unfold assignment_group. rewrite ORDER_BY_In, filter_In.
  now rewrite String.eqb_eq.
Qed.

Lemma subjects_agg_rows (db : Database) (sa : SubjectsAgg) :
  In sa (subjects_agg db) ->
  In (sa_teacher_id sa)
     (map tsa_teacher_id (teacher_subject_assignment db))
  /\ sa_subjects_codes sa
     = String.concat ", " (listed_codes db (sa_teacher_id sa))
  /\ sa_subjects_detail sa
     = String.concat " | "
         (SQL.DISTINCT (map detail_item
                          (assignment_group db (sa_teacher_id sa)))).
Proof.
  intros Hin. split.
  - apply subjects_agg_teachers. now apply in_map.
  - unfold subjects_agg in Hin. apply in_map_iff in Hin as [tid [<- _]].
    split; reflexivity.
Qed.

(** X9.  [subjectsAggCTE] gives one row for each teacher identifier of
    the assignment table, and no identifier twice; the codes a row
    lists are the codes assigned to that identifier, each once, in
    ascending order (the length limit of [GROUP_CONCAT] not being
    reached). *)
Theorem subjects_agg_codes (db : Database) :
  NoDup (map sa_teacher_id (subjects_agg db))
  /\ (forall tid,
         In tid (map sa_teacher_id (subjects_agg db))
         <-> In tid (map tsa_teacher_id (teacher_subject_assignment db)))
  /\ (forall sa,
         In sa (subjects_agg db) ->
         sa_subjects_codes sa
         = String.concat ", " (listed_codes db (sa_teacher_id sa))
         /\ NoDup (listed_codes db (sa_teacher_id sa))
         /\ StronglySorted (fun a b => String.leb a b = true)
              (listed_codes db (sa_teacher_id sa))
         /\ (forall code,
                In code (listed_codes db (sa_teacher_id sa))
                <-> exists tsa,
                    In tsa (teacher_subject_assignment db)
                    /\ tsa_teacher_id tsa = sa_teacher_id sa
                    /\ tsa_subject_code tsa = code)).
Proof.
  split; [| split].
  - unfold subjects_agg. rewrite map_map. cbn [sa_teacher_id].
    rewrite map_id. apply distinct_from_NoDup.
  - apply subjects_agg_teachers.
  - intros sa Hsa. destruct (subjects_agg_rows db sa Hsa) as (_ & Hc & _).
    split; [exact Hc |]. unfold listed_codes.
    split; [apply distinct_from_NoDup |]. split.
    + apply distinct_from_sorted.
      eapply StronglySorted_map;
        [| apply ORDER_BY_sorted
             with (le := fun a b : AssignmentRow * option SubjectRow =>
                           String.leb (tsa_subject_code (fst a))
                                      (tsa_subject_code (fst b)))].
      * cbn. intros a b H. exact H.
      * intros a b. apply leb_total_trans.
      * intros a b c. apply leb_total_trans.
    + intros code. rewrite DISTINCT_In, in_map_iff. split.
      * intros [r [<- Hr]]. apply in_assignment_group in Hr as [Hr Hid].
        exists (fst r). split; [now apply in_joined | now split].
      * intros (tsa & Htsa & Hid & <-).
        destruct (joined_covers db tsa Htsa) as [sb Hsb].
        exists (tsa, sb). split; [reflexivity |].
        apply in_assignment_group. now split.
Qed.

Lemma subjects_agg_codes_witness :
  exists sa,
    In sa (subjects_agg demo_db)
    /\ sa_teacher_id sa = "T2"
    /\ sa_subjects_codes sa = " math , CS101"
    /\ NoDup (listed_codes demo_db (sa_teacher_id sa)).
Proof.
  eexists.
  match goal with
  | |- ?A /\ _ => assert (Hin : A) by (left; reflexivity)
  end.
  split; [exact Hin |]. split; [reflexivity |]. split; [reflexivity |].
  exact (proj1 (proj2 (proj2 (proj2 (subjects_agg_codes demo_db)) _ Hin))).
Defined.

Lemma concat_nonempty (sep x : string) (l : list string) :
  x <> "" -> String.concat sep (x :: l) <> "".
Proof.
  intros Hx. destruct l; cbn; [assumption |].
  destruct x; [contradiction | discriminate].
Qed.

(** The detail of an aggregate row is never empty. *)
Lemma subjects_agg_detail_nonempty (db : Database) (sa : SubjectsAgg) :
  In sa (subjects_agg db) -> sa_subjects_detail sa <> "".
Proof.
  intros Hsa. destruct (subjects_agg_rows db sa Hsa) as (Hid & _ & ->).
  apply in_map_iff in Hid as [tsa [Heq Htsa]].
  destruct (joined_covers db tsa Htsa) as [sb Hsb].
  assert (Hg : In (tsa, sb) (assignment_group db (sa_teacher_id sa)))
    by (apply in_assignment_group; now split).
  destruct (assignment_group db (sa_teacher_id sa)) as [| r g];
    [contradiction |].
  unfold SQL.DISTINCT. cbn [map SQL.distinct_from existsb].
  apply concat_nonempty.
  unfold detail_item. destruct (tsa_subject_code (fst r)); discriminate.
Qed.

(** *** Reports *)

Lemma resolved_name_nonempty (row : AttRow) (id : string) :
  resolved_name row id <> "".
Proof.
  unfold resolved_name.
  destruct (Str.is_empty (att_teacher_name row)) eqn:He; cbn [negb].
  - discriminate.
  - now apply is_empty_false.
Qed.

Lemma In_firstn (A : Type) (n : nat) (x : A) (l : list A) :
  In x (firstn n l) -> In x l.
Proof.
  revert l. induction n as [| n IH]; intros [| y l]; cbn; try tauto.
  intros [-> | H]; [now left | right; now apply IH].
Qed.

Lemma subject_detail_of_nonempty (db : Database) (id : string) :
  subject_detail_of db id <> "".
Proof.
  unfold subject_detail_of.
  destruct (qAbsentTeacherInfo db id) as [| info rest] eqn:Hq; [discriminate |].
  assert (Hin : In info (qAbsentTeacherInfo db id)) by (rewrite Hq; now left).
  unfold qAbsentTeacherInfo, SQL.LIMIT_1 in Hin.
  apply In_firstn in Hin. apply in_flat_map in Hin as [ta [_ Hin]].
  apply in_map_iff in Hin as [sa [<- Hsa]]. cbn.
  destruct sa as [sa |]; cbn; [| discriminate].
  unfold join_subjects_agg, SQL.left_matches in Hsa.
  destruct (filter _ (subjects_agg db)) as [| m ms] eqn:Hf.
  - destruct Hsa as [Hsa | []]. discriminate.
  - apply in_map_iff in Hsa as [sa' [Heq Hin']]. injection Heq as ->.
    rewrite <- Hf in Hin'. apply filter_In in Hin' as [Hin' _].
    now apply subjects_agg_detail_nonempty in Hin'.
Qed.

Lemma report_fields (st : Store) (i d : jsval) (rep : Report) :
  findSubstitutes st i d = Returned rep ->
  absentName rep <> ""
  /\ absentTeacherSubjectDetail rep <> ""
  /\ (note rep = None
      \/ (schedule rep = []
          /\ (note rep = Some "Teacher not found"
              \/ note rep = Some NOT_ABSENT_NOTE))).
Proof.
  intros Hret.
  apply findSubstitutes_returned in Hret as (_ & _ & _ & Hcases).
  destruct Hcases
    as [[_ ->] | (row & rest & _ & _ & [[_ ->] | (_ & _ & _ & ->)])];
    cbn.
  - repeat split; try discriminate. right. auto.
  - repeat split.
    + apply resolved_name_nonempty.
    + apply subject_detail_of_nonempty.
    + right. auto.
  - repeat split.
    + apply resolved_name_nonempty.
    + apply subject_detail_of_nonempty.
    + now left.
Qed.

(** X10.  A returned report always names the teacher and always has a
    subject detail, both non-empty; and a report with a note has an
    empty schedule, the note being "Teacher not found" or the one for a
    teacher not marked absent. *)
Theorem report_well_formed (st : Store) (i d : jsval) (rep : Report) :
  findSubstitutes st i d = Returned rep ->
  absentName rep <> ""
  /\ absentTeacherSubjectDetail rep <> ""
  /\ (note rep = None
      \/ (schedule rep = []
          /\ (note rep = Some "Teacher not found"
              \/ note rep = Some NOT_ABSENT_NOTE))).
Proof. apply report_fields. Qed.

Lemma report_well_formed_witness :
  exists rep,
    findSubstitutes demo_store (JStr "T9") (JStr "monday") = Returned rep
    /\ absentName rep <> ""
    /\ absentTeacherSubjectDetail rep <> "".
Proof.
  eexists.
  match goal with
  | |- ?A /\ _ => assert (Hret : A) by (vm_compute; reflexivity)
  end.
  split; [exact Hret |].
  destruct (@report_well_formed _ _ _ _ Hret) as (Hn & Hd & _).
  now split.
Defined.

(** [findSubstitutes] looks at the day through [day_of] only. *)
Lemma findSubstitutes_day (st : Store) (i d1 d2 : jsval) :
  day_of d1 = day_of d2 ->
  findSubstitutes st i d1 = findSubstitutes st i d2.
Proof.
  intros H. destruct (string_dec (id_of i) "") as [Hi | Hi].
  { now rewrite !findSubstitutes_blank_id. }
  destruct (string_dec (day_of d1) "") as [Hd | Hd].
  - rewrite !findSubstitutes_blank_day; congruence.
  - rewrite !findSubstitutes_valid; try congruence. now rewrite H.
Qed.

(** *** The substitute route *)

Lemma or_empty (s : string) : JS.or (JStr s) (JStr "") = JStr s.
Proof. unfold JS.or. cbn. now destruct s. Qed.

Lemma id_of_string (s : string) : id_of (JStr s) = JS.trim s.
Proof. unfold id_of. now rewrite or_empty. Qed.

Lemma day_of_string (s : string) :
  day_of (JStr s) = JS.String_ (normalizeDay (JStr s)).
Proof. unfold day_of. now rewrite or_empty. Qed.

Lemma normalizeDay_is_string (s : string) :
  exists r, normalizeDay (JStr s) = JStr r.
Proof.
  unfold normalizeDay. destruct (negb _); [now exists s |].
  destruct (JS.includes _ _); eauto.
Qed.

Lemma normalizeDay_truthy_blank (s : string) :
  JS.truthy (normalizeDay (JStr s)) = negb (blank (JStr s)).
Proof.
  pose proof (day_of_truthy (JStr s)) as H. rewrite or_empty in H.
  rewrite H. destruct (blank (JStr s)) eqn:Hb.
  - apply day_of_blank in Hb. now rewrite Hb.
  - destruct (Str.is_empty (day_of (JStr s))) eqn:He; [| reflexivity].
    apply is_empty_true, day_of_blank in He. congruence.
Qed.

Lemma or_undefined_note (st : Store) (i d : jsval) (rep : Report) :
  findSubstitutes st i d = Returned rep ->
  or_undefined (note rep) = note rep.
Proof.
  intros H. apply report_fields in H as (_ & _ & [-> | [_ [-> | ->]]]);
    reflexivity.
Qed.

(** X11.  The route answers with a report exactly when the resolver,
    called on the upper-cased identifier and the normalised day, returns
    one, and then sends its four fields as they are: the fallbacks the
    route has for an empty name, detail or note never apply. *)
Theorem substitute_route_sends_report (st : Store) (teacherId day : option string)
        (n s : string) (sch : list CoverageSlot) (nt : option string) :
  get_substitute st teacherId day = SubstituteOk n s sch nt
  <-> findSubstitutes st (JStr (JS.toUpperCase (param_or_empty teacherId)))
        (normalizeDay (JStr (param_or_empty day)))
      = Returned {| absentName := n;
                    absentTeacherSubjectDetail := s;
                    schedule := sch;
                    note := nt |}.
Proof.
  unfold get_substitute.
  set (id := JS.toUpperCase (param_or_empty teacherId)).
  set (dy := normalizeDay (JStr (param_or_empty day))).
  assert (Hfields : forall rep,
             findSubstitutes st (JStr id) dy = Returned rep ->
             SubstituteOk
               (or_string (absentName rep) ("Teacher ID: " ++ id))
               (or_string (absentTeacherSubjectDetail rep) "N/A")
               (schedule rep) (or_undefined (note rep))
             = SubstituteOk (absentName rep) (absentTeacherSubjectDetail rep)
                 (schedule rep) (note rep)).
  { intros rep Hrep. rewrite (or_undefined_note _ _ _ Hrep).
    apply report_fields in Hrep as (Hn & Hd & _).
    unfold or_string. apply is_empty_false in Hn, Hd. now rewrite Hn, Hd. }
  split.
  - destruct (negb (JS.truthy (JStr id))); [discriminate |].
    destruct (negb (JS.truthy dy)); [discriminate |].
    destruct (findSubstitutes st (JStr id) dy) as [rep | t] eqn:Hf;
      [| discriminate].
    rewrite (Hfields rep eq_refl). intros H. injection H as <- <- <- <-.
    now destruct rep.
  - intros Hf.
    assert (Hid : JS.truthy (JStr id) = true).
    { destruct (JS.truthy (JStr id)) eqn:Ht; [reflexivity |].
      assert (Hb : blank (JStr id) = true).
      { cbn in Ht. apply negb_false_iff, is_empty_true in Ht.
        now rewrite Ht. }
      apply id_of_blank in Hb.
      rewrite (findSubstitutes_blank_id st _ dy Hb) in Hf. discriminate. }
    assert (Hdy : JS.truthy dy = true).
    { destruct (JS.truthy dy) eqn:Ht; [reflexivity |].
      unfold dy in Ht. rewrite normalizeDay_truthy_blank in Ht.
      apply negb_false_iff in Ht.
      assert (Hd : day_of dy = "").
      { apply day_of_blank in Ht. rewrite day_of_string in Ht.
        unfold dy. destruct (normalizeDay_is_string (param_or_empty day))
          as [r Hr]. rewrite Hr in *. cbn in Ht. subst r. reflexivity. }
      destruct (string_dec (id_of (JStr id)) "") as [Hi | Hi].
      - rewrite (findSubstitutes_blank_id st _ dy Hi) in Hf. discriminate.
      - rewrite (findSubstitutes_blank_day st _ dy Hi Hd) in Hf.
        discriminate. }
    rewrite Hid, Hdy. cbn [negb]. rewrite Hf.
    now rewrite (Hfields _ Hf).
Qed.

Lemma get_substitute_unfold (st : Store) (teacherId day : option string) :
  get_substitute st teacherId day
  = if Str.is_empty (param_or_empty teacherId)
    then SubstituteError 400 "Missing teacherId param."
    else if blank (JStr (param_or_empty day))
    then SubstituteError 400 "Missing or invalid day param."
    else
      match findSubstitutes st
              (JStr (JS.toUpperCase (param_or_empty teacherId)))
              (normalizeDay (JStr (param_or_empty day))) with
      | Returned result =>
          SubstituteOk (absentName result)
            (absentTeacherSubjectDetail result)
            (schedule result) (note result)
      | Thrown error =>
          SubstituteError 500
            ("Error fetching substitution data: "
               ++ or_string (message_of error) "unknown")
      end.
Proof.
  unfold get_substitute.
  rewrite normalizeDay_truthy_blank, negb_involutive.
  replace (negb (JS.truthy (JStr (JS.toUpperCase (param_or_empty teacherId)))))
    with (Str.is_empty (param_or_empty teacherId)).
  2:{ cbn [JS.truthy]. rewrite negb_involutive.
      destruct (param_or_empty teacherId); reflexivity. }
  destruct (Str.is_empty _); [reflexivity |].
  destruct (blank _); [reflexivity |].
  destruct (findSubstitutes _ _ _) as [rep | t] eqn:Hf; [| reflexivity].
  rewrite (or_undefined_note _ _ _ Hf).
  apply report_fields in Hf as (Hn & Hd & _).
  unfold or_string. apply is_empty_false in Hn, Hd. now rewrite Hn, Hd.
Qed.

(** X12.  The router hands the handler parameters that are not empty.
    For such an identifier and such a day of ASCII characters, the route
    answers 400 "Missing or invalid day param." exactly when the day is
    white space only, and status 400 carries no other message: the
    check for a missing identifier never applies. *)
Theorem substitute_route_bad_request (st : Store) (t d : string) :
  t <> "" -> d <> "" -> ascii_text d = true ->
  (get_substitute st (Some t) (Some d)
   = SubstituteError 400 "Missing or invalid day param."
   <-> blank (JStr d) = true)
  /\ (forall m, get_substitute st (Some t) (Some d) = SubstituteError 400 m ->
                m = "Missing or invalid day param.").
Proof.
  intros Ht _ _. rewrite get_substitute_unfold. cbn [param_or_empty].
  apply is_empty_false in Ht. rewrite Ht.
  destruct (blank (JStr d)) eqn:Hb.
  { split; [now split |]. intros m H. now injection H as <-. }
  destruct (findSubstitutes _ _ _); split.
  all: try (split; discriminate).
  all: intros m H; discriminate.
Qed.

Lemma substitute_route_bad_request_witness :
  "T1" <> "" /\ "  " <> "" /\ ascii_text "  " = true
  /\ (get_substitute demo_store (Some "T1") (Some "  ")
      = SubstituteError 400 "Missing or invalid day param."
      <-> blank (JStr "  ") = true)
  /\ (forall m,
         get_substitute demo_store (Some "T1") (Some "  ")
         = SubstituteError 400 m ->
         m = "Missing or invalid day param.").
Proof.
  assert (H1 : "T1" <> "") by discriminate.
  assert (H2 : "  " <> "") by discriminate.
  assert (H3 : ascii_text "  " = true) by reflexivity.
  split; [exact H1 |]. split; [exact H2 |]. split; [exact H3 |].
  exact (@substitute_route_bad_request demo_store "T1" "  " H1 H2 H3).
Defined.

(** X13.  An identifier parameter made of white space only passes the
    route's own check and is refused by the resolver: the answer is
    status 500 with the resolver's message, not status 400. *)
Theorem substitute_route_blank_id (st : Store) (t : string) (day : option string) :
  t <> "" -> blank (JStr t) = true ->
  blank (JStr (param_or_empty day)) = false ->
  get_substitute st (Some t) day
  = SubstituteError 500
      "Error fetching substitution data: Invalid absent teacher ID.".
Proof.
  intros Ht Hb Hd. rewrite get_substitute_unfold. cbn [param_or_empty].
  apply is_empty_false in Ht. rewrite Ht, Hd.
  assert (Hi : id_of (JStr (JS.toUpperCase t)) = "").
  { rewrite id_of_string, trim_upper. apply id_of_blank in Hb.
    rewrite id_of_string in Hb. now rewrite Hb. }
  now rewrite (findSubstitutes_blank_id st _ _ Hi).
Qed.

Lemma substitute_route_blank_id_witness :
  exists st t day,
    t <> "" /\ blank (JStr t) = true
    /\ blank (JStr (param_or_empty day)) = false
    /\ get_substitute st (Some t) day
       = SubstituteError 500
           "Error fetching substitution data: Invalid absent teacher ID.".
Proof.
  exists demo_store, "  ", (Some "MON").
  assert (H1 : "  " <> "") by discriminate.
  assert (H2 : blank (JStr "  ") = true) by reflexivity.
  assert (H3 : blank (JStr (param_or_empty (Some "MON"))) = false)
    by reflexivity.
  split; [exact H1 |]. split; [exact H2 |]. split; [exact H3 |].
  exact (@substitute_route_blank_id demo_store "  " (Some "MON") H1 H2 H3).
Defined.

Lemma thursday_not_blank (s : string) :
  prefix "THU" (JS.toUpperCase (JS.trim s)) = true ->
  blank (JStr s) = false.
Proof.
  intros H. destruct (blank (JStr s)) eqn:Hb; [| reflexivity].
  apply id_of_blank in Hb. rewrite id_of_string in Hb.
  rewrite Hb in H. discriminate.
Qed.

Lemma day_of_thursday (s : string) :
  prefix "THU" (JS.toUpperCase (JS.trim s)) = true ->
  day_of (normalizeDay (JStr s)) = "THUR".
Proof.
  intros H. apply normalizeDay_twice in H.
  destruct (normalizeDay_is_string s) as [r Hr].
  rewrite Hr in *. rewrite day_of_string, H. reflexivity.
Qed.

(** X14.  Through the route every day parameter whose trimmed,
    upper-cased text starts with "THU" ("thu", "Thursday", " thurs")
    is answered as "THUR" is. *)
Theorem substitute_route_thursday (st : Store) (teacherId : option string)
        (d : string) :
  prefix "THU" (JS.toUpperCase (JS.trim d)) = true ->
  get_substitute st teacherId (Some d)
  = get_substitute st teacherId (Some "THUR").
Proof.
  intros H. rewrite !get_substitute_unfold. cbn [param_or_empty].
  rewrite (thursday_not_blank _ H).
  rewrite (thursday_not_blank "THUR" eq_refl).
  rewrite (findSubstitutes_day st _ (normalizeDay (JStr d))
             (normalizeDay (JStr "THUR"))); [reflexivity |].
  rewrite (day_of_thursday _ H). reflexivity.
Qed.

Lemma substitute_route_thursday_witness :
  prefix "THU" (JS.toUpperCase (JS.trim " Thursday")) = true
  /\ get_substitute demo_store (Some "t1") (Some " Thursday")
     = get_substitute demo_store (Some "t1") (Some "THUR").
Proof.
  assert (H : prefix "THU" (JS.toUpperCase (JS.trim " Thursday")) = true)
    by reflexivity.
  split; [exact H |].
  exact (@substitute_route_thursday demo_store (Some "t1") " Thursday" H).
Defined.

(** *** The identifier, whatever its case *)

Lemma LOWER_eq_empty (s : string) : SQL.LOWER s = "" <-> s = "".
Proof. destruct s; cbn; split; congruence. Qed.

Lemma qAttendance_lower (db : Database) (p q : string) :
  SQL.LOWER p = SQL.LOWER q -> qAttendance db p = qAttendance db q.
Proof. intros H. unfold qAttendance. now rewrite H. Qed.

Lemma qAbsentTeacherInfo_lower (db : Database) (p q : string) :
  SQL.LOWER p = SQL.LOWER q ->
  qAbsentTeacherInfo db p = qAbsentTeacherInfo db q.
Proof. intros H. unfold qAbsentTeacherInfo. now rewrite H. Qed.

Lemma classes_of_lower (db : Database) (p q day : string) :
  SQL.LOWER p = SQL.LOWER q -> classes_of db p day = classes_of db q day.
Proof. intros H. unfold classes_of. now rewrite H. Qed.

Lemma qClasses_lower (db : Database) (p q day : string) :
  SQL.LOWER p = SQL.LOWER q -> qClasses db p day = qClasses db q day.
Proof. intros H. unfold qClasses. now rewrite (@classes_of_lower _ _ _ _ H). Qed.

Lemma qSubs_lower (db : Database) (p q day p3 p4 q3 q4 : string) :
  SQL.LOWER p = SQL.LOWER q ->
  qSubs db p day p3 p4 = qSubs db q day q3 q4.
Proof.
  intros H. unfold qSubs, subs_of. now rewrite (@classes_of_lower _ _ _ _ H).
Qed.

Lemma findSubstitutes_lower (st : Store) (i1 i2 d : jsval) :
  SQL.LOWER (id_of i1) = SQL.LOWER (id_of i2) ->
  match findSubstitutes st i1 d, findSubstitutes st i2 d with
  | Returned r1, Returned r2 =>
      schedule r1 = schedule r2
      /\ note r1 = note r2
      /\ absentTeacherSubjectDetail r1 = absentTeacherSubjectDetail r2
      /\ (absentName r1 = absentName r2
          \/ (absentName r1 = "Teacher ID: " ++ id_of i1
              /\ absentName r2 = "Teacher ID: " ++ id_of i2))
  | Thrown t1, Thrown t2 => t1 = t2
  | _, _ => False
  end.
Proof.
  intros H.
  destruct (string_dec (id_of i1) "") as [H1 | H1].
  { assert (H2 : id_of i2 = "").
    { apply LOWER_eq_empty. rewrite <- H, H1. reflexivity. }
    now rewrite !findSubstitutes_blank_id. }
  assert (H2 : id_of i2 <> "").
  { intros E. apply H1, LOWER_eq_empty. rewrite H, E. reflexivity. }
  destruct (string_dec (day_of d) "") as [Hd | Hd].
  { now rewrite !findSubstitutes_blank_day. }
  rewrite !findSubstitutes_valid by assumption.
  unfold subject_detail_of.
  rewrite (@qAttendance_lower _ _ _ H), (@qAbsentTeacherInfo_lower _ _ _ H),
    (@qClasses_lower _ _ _ _ H),
    (@qSubs_lower _ _ _ _ (id_of i1) (day_of d) (id_of i2) (day_of d) H).
  unfold sqldb_query.
  destruct (fault st QAttendance); cbn [bind]; [reflexivity |].
  destruct (qAttendance (tables st) (id_of i2)) as [| row rows].
  { cbn. repeat split. right. now split. }
  destruct (fault st QAbsentTeacherInfo); cbn [bind]; [reflexivity |].
  assert (Hname : resolved_name row (id_of i1) = resolved_name row (id_of i2)
                  \/ (resolved_name row (id_of i1) = "Teacher ID: " ++ id_of i1
                      /\ resolved_name row (id_of i2)
                         = "Teacher ID: " ++ id_of i2)).
  { unfold resolved_name. destruct (negb _); [now left | now right]. }
  destruct (negb (marked_absent row)).
  { cbn. repeat split. exact Hname. }
  destruct (fault st QClasses); cbn [bind try_catch]; [reflexivity |].
  destruct (qClasses (tables st) (id_of i2) (day_of d)) as [| c cs].
  { cbn. repeat split. exact Hname. }
  destruct (fault st QSubs); cbn [bind try_catch]; [reflexivity |].
  cbn [schedule note absentTeacherSubjectDetail absentName].
  repeat split. exact Hname.
Qed.

(** X15.  The resolver reads the identifier case-insensitively: two
    identifiers with the same lower-cased trimmed text fail alike or
    return reports with the same schedule, note and subject detail; the
    names differ only when they are the fallback built from the
    identifier as given. *)
Theorem resolver_id_case_insensitive (st : Store) (i1 i2 d : jsval) :
  SQL.LOWER (id_of i1) = SQL.LOWER (id_of i2) ->
  match findSubstitutes st i1 d, findSubstitutes st i2 d with
  | Returned r1, Returned r2 =>
      schedule r1 = schedule r2
      /\ note r1 = note r2
      /\ absentTeacherSubjectDetail r1 = absentTeacherSubjectDetail r2
      /\ (absentName r1 = absentName r2
          \/ (absentName r1 = "Teacher ID: " ++ id_of i1
              /\ absentName r2 = "Teacher ID: " ++ id_of i2))
  | Thrown t1, Thrown t2 => t1 = t2
  | _, _ => False
  end.
Proof. apply findSubstitutes_lower. Qed.

Lemma resolver_id_case_insensitive_witness :
  SQL.LOWER (id_of (JStr " t1")) = SQL.LOWER (id_of (JStr "T1"))
  /\ match findSubstitutes demo_store (JStr " t1") (JStr "mon"),
           findSubstitutes demo_store (JStr "T1") (JStr "mon") with
     | Returned r1, Returned r2 =>
         schedule r1 = schedule r2
         /\ note r1 = note r2
         /\ absentTeacherSubjectDetail r1 = absentTeacherSubjectDetail r2
         /\ (absentName r1 = absentName r2
             \/ (absentName r1 = "Teacher ID: " ++ id_of (JStr " t1")
                 /\ absentName r2 = "Teacher ID: " ++ id_of (JStr "T1")))
     | Thrown t1, Thrown t2 => t1 = t2
     | _, _ => False
     end.
Proof.
  assert (H : SQL.LOWER (id_of (JStr " t1")) = SQL.LOWER (id_of (JStr "T1")))
    by reflexivity.
  split; [exact H |].
  exact (@resolver_id_case_insensitive demo_store (JStr " t1") (JStr "T1")
           (JStr "mon") H).
Defined.

Lemma lower_upper (c : ascii) : Chars.lower (Chars.upper c) = Chars.lower c.
Proof. destruct c as [[] [] [] [] [] [] [] []]; reflexivity. Qed.

Lemma LOWER_toUpperCase (s : string) :
  SQL.LOWER (JS.toUpperCase s) = SQL.LOWER s.
Proof.
  unfold SQL.LOWER, JS.toUpperCase.
  induction s as [| c s IH]; cbn; [reflexivity |].
  now rewrite lower_upper, IH.
Qed.

(** X16.  For an identifier of ASCII characters the upper-casing the
    route applies to it does not change whom the resolver finds: a 200
    answer of the route carries the schedule, note and subject detail
    that the resolver returns for the identifier as it was typed and the
    normalised day. *)
Theorem substitute_route_id_as_typed (st : Store) (t d : string)
        (n s : string) (sch : list CoverageSlot) (nt : option string) :
  ascii_text t = true ->
  get_substitute st (Some t) (Some d) = SubstituteOk n s sch nt ->
  exists rep,
    findSubstitutes st (JStr t) (normalizeDay (JStr d)) = Returned rep
    /\ schedule rep = sch
    /\ note rep = nt
    /\ absentTeacherSubjectDetail rep = s.
Proof.
  intros _. rewrite get_substitute_unfold. cbn [param_or_empty].
  destruct (Str.is_empty t); [discriminate |].
  destruct (blank (JStr d)); [discriminate |].
  assert (H : SQL.LOWER (id_of (JStr (JS.toUpperCase t)))
              = SQL.LOWER (id_of (JStr t))).
  { rewrite !id_of_string, trim_upper. apply LOWER_toUpperCase. }
  pose proof (@findSubstitutes_lower st _ _ (normalizeDay (JStr d)) H) as Hl.
  destruct (findSubstitutes st (JStr (JS.toUpperCase t)) _) as [r1 | t1];
    [| discriminate].
  destruct (findSubstitutes st (JStr t) _) as [r2 | t2]; [| contradiction].
  intros E. injection E as <- <- <- <-.
  destruct Hl as (Hs & Hn & Hd & _). exists r2. now repeat split.
Qed.

Lemma substitute_route_id_as_typed_witness :
  exists n s sch nt,
    ascii_text "t1" = true
    /\ get_substitute demo_store (Some "t1") (Some "monday")
       = SubstituteOk n s sch nt
    /\ exists rep,
         findSubstitutes demo_store (JStr "t1") (normalizeDay (JStr "monday"))
         = Returned rep
         /\ schedule rep = sch
         /\ note rep = nt
         /\ absentTeacherSubjectDetail rep = s.
Proof.
  do 4 eexists.
  match goal with
  | |- ?A /\ ?B /\ _ =>
      assert (Ha : A) by reflexivity;
      assert (Hret : B) by (vm_compute; reflexivity)
  end.
  split; [exact Ha |]. split; [exact Hret |].
  exact (@substitute_route_id_as_typed demo_store "t1" "monday" _ _ _ _
           Ha Hret).
Defined.

(** *** The debug statement for free teachers *)

Lemma candidates_for_eligible (db : Database) (id day p3 p4 : string)
      (r : ClassRow) (sid : string) :
  In r (classes_of db id day) ->
  (exists c, In c (candidates_for (qSubs db id day p3 p4) (class_key r))
             /\ substitute_id c = sid)
  <-> eligible db id day (cls_slot_id r) sid.
Proof.
  intros Hr. rewrite <- (candidate_of_class _ _ _ _ sid Hr).
  unfold candidates_for. split.
  - intros (c & Hc & Hsid). apply in_map_iff in Hc as [s [<- Hs]].
    apply filter_In in Hs as [Hs Hk]. apply pair_eqb_eq in Hk.
    apply in_qSubs in Hs. now exists s.
  - intros (s & Hs & Hk & Hsid). exists (candidate_of s).
    split; [| assumption]. apply in_map, filter_In.
    split; [now apply in_qSubs | now apply pair_eqb_eq].
Qed.

Lemma in_qDebugFree (db : Database) (day : string) (slot : Z)
      (sid name : string) :
  In (sid, name) (qDebugFree db day slot)
  <-> exists ta, In ta (teacher_attendance db)
                 /\ ta_teacher_id ta = sid /\ ta_teacher_name ta = name
                 /\ SQL.UPPER (SQL.TRIM (ta_attendance ta)) = "PRESENT"
                 /\ (has_free_entry db sid day slot = true
                     \/ has_busy_entry db sid day slot = false).
Proof.
  unfold qDebugFree. rewrite ORDER_BY_In, in_map_iff. split.
  - intros (ta & E & Hta). injection E as <- <-.
    apply filter_In in Hta as [Hta Hc].
    apply andb_true_iff in Hc as [Hp Hw]. apply String.eqb_eq in Hp.
    rewrite exists_timetable_free, exists_timetable_busy in Hw.
    exists ta. repeat split; try assumption.
    apply orb_true_iff in Hw as [Hw | Hw]; [now left | right].
    now apply negb_true_iff.
  - intros (ta & Hta & <- & <- & Hp & Hw). exists ta.
    split; [reflexivity |]. apply filter_In. split; [assumption |].
    apply andb_true_iff. split; [now apply String.eqb_eq |].
    rewrite exists_timetable_free, exists_timetable_busy.
    apply orb_true_iff. destruct Hw as [Hw | Hw]; [now left | right].
    now apply negb_true_iff.
Qed.

(** X17.  The candidates of a coverage slot are the teachers the debug
    statement for free teachers lists for the day and the slot, less the
    absent teacher: an identifier is that of a candidate exactly when the
    debug statement has a row for it and it differs case-insensitively
    from the absent teacher's. *)
Theorem candidates_are_debug_free (st : Store) (i d : jsval) (rep : Report)
        (sl : CoverageSlot) (sid : string) :
  findSubstitutes st i d = Returned rep ->
  In sl (schedule rep) ->
  (exists c, In c (available_substitutes sl) /\ substitute_id c = sid)
  <-> (exists name,
          In (sid, name) (qDebugFree (tables st) (day_of d) (slot_id sl)))
      /\ SQL.LOWER sid <> SQL.LOWER (id_of i).
Proof.
  intros Hret Hin.
  slot_of_report Hret Hin r Hr. cbn.
  apply first_of_each_key_fresh in Hr as [Hr _].
  apply in_qClasses in Hr.
  rewrite (@candidates_for_eligible _ _ _ (id_of i) (day_of d) _ sid Hr).
  unfold eligible. split.
  - intros ((ta & Hta & Hid & Hp) & Hne & Hw). split; [| assumption].
    exists (ta_teacher_name ta). apply in_qDebugFree.
    exists ta. repeat split; try assumption.
    destruct Hw as [Hw | Hw]; [now left | right].
    rewrite has_entry_split in Hw.
    now apply orb_false_iff in Hw as [_ Hw].
  - intros ((name & Hn) & Hne).
    apply in_qDebugFree in Hn as (ta & Hta & Hid & _ & Hp & Hw).
    split; [now exists ta |]. split; [assumption |].
    rewrite has_entry_split.
    destruct (has_free_entry _ _ _ _); [now left | right].
    destruct Hw as [Hw | Hw]; [discriminate | now rewrite Hw].
Qed.

Lemma candidates_are_debug_free_witness :
  exists rep sl,
    findSubstitutes demo_store (JStr "t1") (JStr "monday") = Returned rep
    /\ In sl (schedule rep)
    /\ ((exists c, In c (available_substitutes sl) /\ substitute_id c = "T4")
        <-> (exists name,
                In ("T4", name)
                  (qDebugFree (tables demo_store) (day_of (JStr "monday"))
                     (slot_id sl)))
            /\ SQL.LOWER "T4" <> SQL.LOWER (id_of (JStr "t1"))).
Proof.
  do 2 eexists.
  match goal with
  | |- ?A /\ ?B /\ _ =>
      assert (Hret : A) by (vm_compute; reflexivity);
      assert (Hin : B) by (cbn; left; reflexivity)
  end.
  split; [exact Hret |]. split; [exact Hin |].
  exact (@candidates_are_debug_free demo_store _ _ _ _ "T4" Hret Hin).
Defined.

(** *** The attendance route *)

Lemma set_attendance_id (a t : string) (r : AttendanceRow) :
  ta_teacher_id (set_attendance a t r) = ta_teacher_id r.
Proof. unfold set_attendance. now destruct (_ =? _). Qed.

Lemma set_attendance_name (a t : string) (r : AttendanceRow) :
  ta_teacher_name (set_attendance a t r) = ta_teacher_name r.
Proof. unfold set_attendance. now destruct (_ =? _). Qed.

Lemma UPDATE_attendance_rows (db : Database) (a t : string) :
  teacher_attendance (UPDATE_attendance db a t)
  = map (set_attendance a t) (teacher_attendance db).
Proof. reflexivity. Qed.

Lemma affectedRows_zero (db : Database) (t : string) :
  affectedRows db t = 0%nat
  <-> ~ exists row, In row (teacher_attendance db) /\ ta_teacher_id row = t.
Proof.
  unfold affectedRows. split.
  - intros H (row & Hin & Hid).
    assert (Hf : In row (filter (fun r => ta_teacher_id r =? t)
                           (teacher_attendance db))).
    { apply filter_In. split; [assumption | now apply String.eqb_eq]. }
    destruct (filter _ _); [contradiction | discriminate].
  - intros H. destruct (filter _ _) as [| row l] eqn:Hf; [reflexivity |].
    exfalso. apply H. exists row.
    assert (Hin : In row (filter (fun r => ta_teacher_id r =? t)
                            (teacher_attendance db)))
      by (rewrite Hf; now left).
    apply filter_In in Hin as [Hin Hid]. apply String.eqb_eq in Hid.
    now split.
Qed.

Lemma UPDATE_attendance_unmatched (db : Database) (a t : string) :
  affectedRows db t = 0%nat -> UPDATE_attendance db a t = db.
Proof.
  intros H. apply affectedRows_zero in H.
  destruct db as [rows tt ts tsa sb]. unfold UPDATE_attendance. cbn in *.
  f_equal. induction rows as [| r rows IH]; [reflexivity |]. cbn.
  rewrite IH.
  - destruct (ta_teacher_id r =? t) eqn:E; [| reflexivity].
    exfalso. apply H. exists r. apply String.eqb_eq in E.
    split; [now left | assumption].
  - intros (row & Hin & Hid). apply H. exists row.
    split; [now right | assumption].
Qed.

(** What a request of [POST /api/attendance] does to the tables: nothing,
    or the update of the rows of a string identifier. *)
Lemma post_attendance_tables (db : Database) (f : option StoreError)
      (t s : jsval) :
  (status_code (fst (post_attendance db f t s)) <> 200%Z
   /\ snd (post_attendance db f t s) = db)
  \/ (exists tid,
         t = JStr tid /\ f = None
         /\ affectedRows db tid <> 0%nat
         /\ post_attendance db f t s
            = ({| status_code := 200;
                  message_text :=
                    "Teacher " ++ tid ++ " marked as "
                      ++ JS.trim (JS.String_ s) ++ "." |},
               UPDATE_attendance db (JS.trim (JS.String_ s)) tid)).
Proof.
  unfold post_attendance.
  destruct (negb (JS.truthy t) || negb (JS.truthy s));
    [left; split; [discriminate | reflexivity] |].
  destruct t as [| | b | tid];
    try (left; split; [discriminate | reflexivity]).
  destruct (50 <? String.length tid)%nat;
    [left; split; [discriminate | reflexivity] |].
  destruct f; [left; split; [discriminate | reflexivity] |].
  destruct (affectedRows db tid =? 0)%nat eqn:E.
  - left. split; [discriminate |]. cbn [snd].
    apply UPDATE_attendance_unmatched. now apply Nat.eqb_eq.
  - right. exists tid. repeat split. now apply Nat.eqb_neq.
Qed.

(** X18.  Only a request answered with status 200 changes the tables.
    Whatever the answer, the timetable, the slots, the assignments and
    the subjects stay as they were, and so do the identifiers and the
    names of the attendance table, row by row. *)
Theorem post_attendance_frame (db : Database) (f : option StoreError)
        (t s : jsval) :
  (status_code (fst (post_attendance db f t s)) <> 200%Z ->
   snd (post_attendance db f t s) = db)
  /\ teacher_timetable (snd (post_attendance db f t s)) = teacher_timetable db
  /\ time_slots (snd (post_attendance db f t s)) = time_slots db
  /\ teacher_subject_assignment (snd (post_attendance db f t s))
     = teacher_subject_assignment db
  /\ subjects (snd (post_attendance db f t s)) = subjects db
  /\ map ta_teacher_id (teacher_attendance (snd (post_attendance db f t s)))
     = map ta_teacher_id (teacher_attendance db)
  /\ map ta_teacher_name (teacher_attendance (snd (post_attendance db f t s)))
     = map ta_teacher_name (teacher_attendance db).
Proof.
  destruct (post_attendance_tables db f t s)
    as [[Hs ->] | (tid & -> & -> & Hrows & ->)].
  - repeat split; reflexivity.
  - cbn [fst snd status_code]. split; [intros H; now contradiction H |].
    repeat split; try reflexivity.
    + rewrite UPDATE_attendance_rows, map_map.
      apply map_ext. intros r. apply set_attendance_id.
    + rewrite UPDATE_attendance_rows, map_map.
      apply map_ext. intros r. apply set_attendance_name.
Qed.

(** X19.  The status of the answer: 200 exactly for a string identifier
    of one to fifty characters that some attendance row carries, a
    truthy status and a statement that does not fail; 404 exactly for
    such a request when no row carries the identifier; 500 exactly for a
    well-formed request whose statement fails. *)
Theorem post_attendance_status (db : Database) (f : option StoreError)
        (t s : jsval) :
  let well_formed tid :=
    t = JStr tid /\ tid <> "" /\ String.length tid <= 50
    /\ JS.truthy s = true in
  let listed tid :=
    exists row, In row (teacher_attendance db) /\ ta_teacher_id row = tid in
  (status_code (fst (post_attendance db f t s)) = 200%Z
   <-> exists tid, well_formed tid /\ f = None /\ listed tid)
  /\ (status_code (fst (post_attendance db f t s)) = 404%Z
      <-> exists tid, well_formed tid /\ f = None /\ ~ listed tid)
  /\ (status_code (fst (post_attendance db f t s)) = 500%Z
      <-> exists tid, well_formed tid /\ f <> None).
Proof.
  intros well_formed listed. unfold well_formed, listed.
  unfold post_attendance.
  destruct (JS.truthy t) eqn:Ht; cbn [negb orb].
  2:{ repeat split; try discriminate.
      all: intros (tid & (-> & Hne & _) & _); cbn in Ht;
        apply negb_false_iff, is_empty_true in Ht; contradiction. }
  destruct (JS.truthy s) eqn:Hs; cbn [negb].
  2:{ repeat split; try discriminate.
      all: intros (tid & (_ & _ & _ & E) & _); discriminate. }
  destruct t as [| | b | tid].
  1-3: repeat split; try discriminate;
    intros (tid & (E & _) & _); discriminate.
  assert (Hne : tid <> "").
  { cbn in Ht. apply negb_true_iff in Ht. now apply is_empty_false. }
  destruct (50 <? String.length tid)%nat eqn:Hlen.
  { apply Nat.ltb_lt in Hlen. repeat split; try discriminate.
    all: intros (tid' & (E & _ & Hl & _) & _); injection E as <-; lia. }
  apply Nat.ltb_ge in Hlen.
  destruct f as [e |].
  { cbn [fst status_code]. repeat split; try discriminate.
    - intros (tid' & _ & E & _). discriminate.
    - intros (tid' & _ & E & _). discriminate.
    - intros _. exists tid. repeat split; try assumption. discriminate. }
  destruct (affectedRows db tid =? 0)%nat eqn:E; cbn [fst status_code].
  - apply Nat.eqb_eq, affectedRows_zero in E. repeat split; try discriminate.
    + intros (tid' & (Et & _) & _ & Hl). injection Et as <-. contradiction.
    + intros _. exists tid. repeat split; assumption.
    + intros (tid' & _ & Hf). now contradiction Hf.
  - apply Nat.eqb_neq in E. repeat split; try discriminate.
    + intros _. exists tid. repeat split; try assumption.
      destruct (affectedRows db tid) eqn:Ha; [contradiction |].
      unfold affectedRows in Ha.
      destruct (filter _ _) as [| row l] eqn:Hf; [discriminate |].
      assert (Hin : In row (filter (fun r => ta_teacher_id r =? tid)
                              (teacher_attendance db)))
        by (rewrite Hf; now left).
      apply filter_In in Hin as [Hin Hid]. apply String.eqb_eq in Hid.
      now exists row.
    + intros (tid' & (Et & _) & _ & Hl). injection Et as <-.
      exfalso. apply E. now apply affectedRows_zero.
    + intros (tid' & _ & Hf). now contradiction Hf.
Qed.

Lemma drop_while_shorter (p : ascii -> bool) (s : string) :
  String.length (Str.drop_while p s) <= String.length s.
Proof.
  induction s as [| c s IH]; cbn; [lia |].
  destruct (p c); cbn; lia.
Qed.

Lemma drop_while_fixed (p : ascii -> bool) (s : string) :
  Str.drop_while p s = s ->
  match s with String c _ => p c = false | EmptyString => True end.
Proof.
  destruct s as [| c s]; [trivial |]. cbn.
  destruct (p c); [| reflexivity].
  intros H. pose proof (drop_while_shorter p s) as Hl.
  rewrite H in Hl. cbn in Hl. lia.
Qed.

Lemma drop_while_end_finer (p q : ascii -> bool) (s : string) :
  (forall c, q c = true -> p c = true) ->
  Str.drop_while_end q (Str.drop_while_end p s) = Str.drop_while_end p s.
Proof.
  intros Hpq. induction s as [| c s IH]; [reflexivity |]. cbn.
  destruct (p c) eqn:Hc; cbn.
  - destruct (Str.drop_while_end p s =? "") eqn:He; [reflexivity |].
    cbn. rewrite IH, He. now rewrite andb_false_r.
  - rewrite IH. destruct (q c) eqn:Hq; [| reflexivity].
    apply Hpq in Hq. congruence.
Qed.

(** Trimming by a finer notion of space leaves a trimmed string as it
    is. *)
Lemma trim_with_finer (p q : ascii -> bool) (s : string) :
  (forall c, q c = true -> p c = true) ->
  Str.trim_with q (Str.trim_with p s) = Str.trim_with p s.
Proof.
  intros Hpq. unfold Str.trim_with at 1.
  rewrite drop_while_none.
  - unfold Str.trim_with. now apply drop_while_end_finer.
  - pose proof (@drop_while_fixed p _ (drop_while_trim p s)) as H.
    destruct (Str.trim_with p s) as [| c r]; [trivial |].
    destruct (q c) eqn:Hq; [| reflexivity]. apply Hpq in Hq. congruence.
Qed.

Lemma sql_space_js_space (c : ascii) :
  Chars.is_sql_space c = true -> Chars.is_js_space c = true.
Proof.
  unfold Chars.is_js_space, Chars.is_sql_space. intros ->.
  apply orb_true_r.
Qed.

Lemma TRIM_trim (s : string) : SQL.TRIM (JS.trim s) = JS.trim s.
Proof. apply trim_with_finer, sql_space_js_space. Qed.

(** X20.  After a request answered with status 200 every row of the
    teacher carries the status sent, trimmed as JavaScript trims, and
    reads as "PRESENT" to the candidate statements exactly when the
    trimmed, upper-cased status is "PRESENT"; some row is the teacher's;
    the rows of the other identifiers are those of before. *)
Theorem posted_status_read_back (db : Database) (f : option StoreError)
        (t : string) (s : jsval) (row : AttendanceRow) :
  status_code (fst (post_attendance db f (JStr t) s)) = 200%Z ->
  let db' := snd (post_attendance db f (JStr t) s) in
  (exists r, In r (teacher_attendance db') /\ ta_teacher_id r = t)
  /\ (In row (teacher_attendance db') -> ta_teacher_id row = t ->
      ta_attendance row = JS.trim (JS.String_ s)
      /\ (SQL.UPPER (SQL.TRIM (ta_attendance row)) = "PRESENT"
          <-> JS.toUpperCase (JS.trim (JS.String_ s)) = "PRESENT"))
  /\ (ta_teacher_id row <> t ->
      (In row (teacher_attendance db') <-> In row (teacher_attendance db))).
Proof.
  intros H200 db'. subst db'.
  destruct (post_attendance_tables db f (JStr t) s)
    as [[Hs _] | (tid & Et & -> & Hrows & Hp)]; [contradiction |].
  injection Et as <-. rewrite Hp. cbn [snd].
  rewrite UPDATE_attendance_rows. split; [| split].
  - destruct (affectedRows db t) eqn:Ha; [contradiction |].
    unfold affectedRows in Ha.
    destruct (filter _ _) as [| r l] eqn:Hf; [discriminate |].
    assert (Hin : In r (filter (fun r => ta_teacher_id r =? t)
                          (teacher_attendance db)))
      by (rewrite Hf; now left).
    apply filter_In in Hin as [Hin Hid]. apply String.eqb_eq in Hid.
    exists (set_attendance (JS.trim (JS.String_ s)) t r).
    split; [now apply in_map | now rewrite set_attendance_id].
  - intros Hin Hid. apply in_map_iff in Hin as (r & <- & Hr).
    rewrite set_attendance_id in Hid. unfold set_attendance.
    apply String.eqb_eq in Hid. rewrite Hid. cbn [ta_attendance].
    split; [reflexivity |]. now rewrite TRIM_trim.
  - intros Hid. rewrite in_map_iff. split.
    + intros (r & <- & Hr). rewrite set_attendance_id in Hid.
      unfold set_attendance. apply String.eqb_neq in Hid. now rewrite Hid.
    + intros Hr. exists row. split; [| assumption].
      unfold set_attendance. apply String.eqb_neq in Hid. now rewrite Hid.
Qed.

Lemma posted_status_read_back_witness :
  status_code (fst (post_attendance demo_db None (JStr "T1")
                      (JStr " present "))) = 200%Z
  /\ let db' := snd (post_attendance demo_db None (JStr "T1")
                       (JStr " present ")) in
     let row := {| ta_teacher_id := "T1"; ta_teacher_name := "Asha";
                   ta_attendance := "present" |} in
     (exists r, In r (teacher_attendance db') /\ ta_teacher_id r = "T1")
     /\ (In row (teacher_attendance db') -> ta_teacher_id row = "T1" ->
         ta_attendance row = JS.trim (JS.String_ (JStr " present "))
         /\ (SQL.UPPER (SQL.TRIM (ta_attendance row)) = "PRESENT"
             <-> JS.toUpperCase (JS.trim (JS.String_ (JStr " present ")))
                 = "PRESENT"))
     /\ (ta_teacher_id row <> "T1" ->
         (In row (teacher_attendance db')
          <-> In row (teacher_attendance demo_db))).
Proof.
  assert (H : status_code (fst (post_attendance demo_db None (JStr "T1")
                                  (JStr " present "))) = 200%Z)
    by reflexivity.
  split; [exact H |].
  exact (@posted_status_read_back demo_db None "T1" (JStr " present ")
           {| ta_teacher_id := "T1"; ta_teacher_name := "Asha";
              ta_attendance := "present" |} H).
Defined.

Lemma teacher_row_updated (db : Database) (a t id : string) :
  teacher_row (UPDATE_attendance db a t) id
  = option_map (set_attendance a t) (teacher_row db id).
Proof.
  unfold teacher_row. rewrite UPDATE_attendance_rows.
  induction (teacher_attendance db) as [| r l IH]; [reflexivity |].
  cbn [map find]. rewrite set_attendance_id.
  destruct (SQL.LOWER (ta_teacher_id r) =? SQL.LOWER id); [reflexivity |].
  exact IH.
Qed.

Lemma teacher_row_lower (db : Database) (p q : string) :
  SQL.LOWER p = SQL.LOWER q -> teacher_row db p = teacher_row db q.
Proof. intros H. unfold teacher_row. now rewrite H. Qed.

(** X21.  Posting and asking: when the row the resolver reads for the
    teacher is the one the update writes (its identifier is the posted
    one, case included), then after a request answered with status 200
    the resolver knows the teacher, and reports the teacher as not
    marked absent exactly when the posted status, trimmed and
    upper-cased, is not "ABSENT". *)
Theorem resolver_after_post (db : Database) (f : option StoreError)
        (t : string) (s : jsval) (st : Store) (i d : jsval) (rep : Report) :
  option_map ta_teacher_id (teacher_row db t) = Some t ->
  status_code (fst (post_attendance db f (JStr t) s)) = 200%Z ->
  tables st = snd (post_attendance db f (JStr t) s) ->
  SQL.LOWER (id_of i) = SQL.LOWER t ->
  findSubstitutes st i d = Returned rep ->
  note rep <> Some "Teacher not found"
  /\ (note rep = Some NOT_ABSENT_NOTE
      <-> JS.toUpperCase (JS.trim (JS.String_ s)) <> "ABSENT").
Proof.
  intros Hrow H200 Htab Hid Hret.
  destruct (post_attendance_tables db f (JStr t) s)
    as [[Hs _] | (tid & Et & -> & Hrows & Hp)]; [contradiction |].
  injection Et as <-. rewrite Hp in Htab. cbn [snd] in Htab.
  destruct (teacher_row db t) as [r |] eqn:Hr; [| discriminate].
  cbn in Hrow. injection Hrow as Hrid.
  assert (Hq : qAttendance (tables st) (id_of i)
               = [ {| att_teacher_name := ta_teacher_name r;
                      att_attendance := JS.trim (JS.String_ s) |} ]).
  { rewrite qAttendance_teacher_row, Htab, (@teacher_row_lower _ _ _ Hid).
    rewrite teacher_row_updated, Hr. cbn [option_map].
    unfold set_attendance. apply String.eqb_eq in Hrid. now rewrite Hrid. }
  apply findSubstitutes_returned in Hret as (_ & _ & _ & Hret).
  rewrite Hq in Hret.
  destruct Hret as [[E _] | (row & rest & E & _ & Hret)]; [discriminate |].
  injection E as <- <-.
  unfold marked_absent in Hret. cbn [att_attendance] in Hret.
  rewrite trim_idem in Hret.
  destruct Hret as [[Hm ->] | (Hm & _ & _ & ->)]; cbn [note].
  - apply String.eqb_neq in Hm. split; [discriminate |]. now split.
  - apply String.eqb_eq in Hm. split; [discriminate |].
    split; [discriminate | intros H; contradiction].
Qed.

Lemma resolver_after_post_witness :
  exists rep,
    option_map ta_teacher_id (teacher_row demo_db "T2") = Some "T2"
    /\ status_code (fst (post_attendance demo_db None (JStr "T2")
                           (JStr " absent "))) = 200%Z
    /\ tables {| tables := snd (post_attendance demo_db None (JStr "T2")
                                  (JStr " absent "));
                 fault := no_fault |}
       = snd (post_attendance demo_db None (JStr "T2") (JStr " absent "))
    /\ SQL.LOWER (id_of (JStr "t2")) = SQL.LOWER "T2"
    /\ findSubstitutes
         {| tables := snd (post_attendance demo_db None (JStr "T2")
                             (JStr " absent "));
            fault := no_fault |} (JStr "t2") (JStr "mon") = Returned rep
    /\ note rep <> Some "Teacher not found"
    /\ (note rep = Some NOT_ABSENT_NOTE
        <-> JS.toUpperCase (JS.trim (JS.String_ (JStr " absent ")))
            <> "ABSENT").
Proof.
  eexists.
  match goal with
  | |- ?A /\ ?B /\ ?C /\ ?D /\ ?E /\ _ =>
      assert (H1 : A) by reflexivity;
      assert (H2 : B) by reflexivity;
      assert (H3 : C) by reflexivity;
      assert (H4 : D) by reflexivity;
      assert (H5 : E) by (vm_compute; reflexivity)
  end.
  split; [exact H1 |]. split; [exact H2 |]. split; [exact H3 |].
  split; [exact H4 |]. split; [exact H5 |].
  exact (@resolver_after_post demo_db None "T2" (JStr " absent ") _
           (JStr "t2") (JStr "mon") _ H1 H2 H3 H4 H5).
Defined.

(** *** The list of teachers *)

Lemma qTeachers_updated (db : Database) (a t : string) :
  qTeachers (UPDATE_attendance db a t)
  = map (set_attendance a t) (qTeachers db).
Proof.
  unfold qTeachers. rewrite UPDATE_attendance_rows.
  apply ORDER_BY_map. intros x y. now rewrite !set_attendance_id.
Qed.

(** X22.  The list of [GET /api/teachers] holds the rows of the
    attendance table, each as often as the table has it; and a request
    to [POST /api/attendance], whatever its answer, leaves the
    identifiers and the names of that list as they were, in the same
    order. *)
Theorem teachers_list_after_post (db : Database) (f : option StoreError)
        (t s : jsval) :
  Permutation (qTeachers db) (teacher_attendance db)
  /\ map ta_teacher_id (qTeachers (snd (post_attendance db f t s)))
     = map ta_teacher_id (qTeachers db)
  /\ map ta_teacher_name (qTeachers (snd (post_attendance db f t s)))
     = map ta_teacher_name (qTeachers db).
Proof.
  split; [apply ORDER_BY_perm |].
  destruct (post_attendance_tables db f t s)
    as [[Hs ->] | (tid & -> & -> & Hrows & ->)]; [now split |].
  cbn [snd]. rewrite qTeachers_updated, !map_map. split.
  - apply map_ext. intros r. apply set_attendance_id.
  - apply map_ext. intros r. apply set_attendance_name.
Qed.

(** *** What is raised, and what the route makes of it *)

Lemma findSubstitutes_thrown (st : Store) (i d : jsval) (t : thrown) :
  findSubstitutes st i d = Thrown t ->
  (t = JsError "Invalid absent teacher ID." /\ blank i = true)
  \/ (t = JsError "Invalid or missing day." /\ blank d = true)
  \/ (exists e, t = StoreRejection e
                /\ (fault st QAttendance = Some e
                    \/ fault st QAbsentTeacherInfo = Some e))
  \/ (t = JsError WRAPPED_MESSAGE
      /\ (fault st QClasses <> None \/ fault st QSubs <> None)).
Proof.
  destruct (string_dec (id_of i) "") as [Hi | Hi].
  { rewrite (findSubstitutes_blank_id st i d Hi). intros E.
    injection E as <-. left. split; [reflexivity | now apply id_of_blank]. }
  destruct (string_dec (day_of d) "") as [Hd | Hd].
  { rewrite (findSubstitutes_blank_day st i d Hi Hd). intros E.
    injection E as <-. right. left.
    split; [reflexivity | now apply day_of_blank]. }
  rewrite (findSubstitutes_valid st i d Hi Hd). unfold sqldb_query.
  destruct (fault st QAttendance) as [e |] eqn:F1; cbn [bind].
  { intros E. injection E as <-. right. right. left. exists e.
    split; [reflexivity | now left]. }
  destruct (qAttendance (tables st) (id_of i)) as [| row rest];
    [discriminate |].
  destruct (fault st QAbsentTeacherInfo) as [e |] eqn:F2; cbn [bind].
  { intros E. injection E as <-. right. right. left. exists e.
    split; [reflexivity | now right]. }
  destruct (negb (marked_absent row)); [discriminate |].
  destruct (fault st QClasses) as [e |] eqn:F3; cbn [bind try_catch].
  { intros E. injection E as <-. right. right. right.
    split; [reflexivity | left; discriminate]. }
  destruct (qClasses (tables st) (id_of i) (day_of d)); cbn [try_catch];
    [discriminate |].
  destruct (fault st QSubs) as [e |] eqn:F4; cbn [bind try_catch];
    [| discriminate].
  intros E. injection E as <-. right. right. right.
  split; [reflexivity | right; discriminate].
Qed.

(** X23.  All that the resolver raises: the error for a blank
    identifier, the error for a blank day, the store's own rejection of
    the attendance or of the subject-detail read, or the wrapped error,
    and this last one only when the coverage or the candidate read is
    failing.  It raises nothing else. *)
Theorem resolver_raises_only (st : Store) (i d : jsval) (t : thrown) :
  findSubstitutes st i d = Thrown t ->
  (t = JsError "Invalid absent teacher ID." /\ blank i = true)
  \/ (t = JsError "Invalid or missing day." /\ blank d = true)
  \/ (exists e, t = StoreRejection e
                /\ (fault st QAttendance = Some e
                    \/ fault st QAbsentTeacherInfo = Some e))
  \/ (t = JsError WRAPPED_MESSAGE
      /\ (fault st QClasses <> None \/ fault st QSubs <> None)).
Proof. apply findSubstitutes_thrown. Qed.

Lemma resolver_raises_only_witness :
  exists t,
    findSubstitutes subs_down_store (JStr "T1") (JStr "mon") = Thrown t
    /\ ((t = JsError "Invalid absent teacher ID."
         /\ blank (JStr "T1") = true)
        \/ (t = JsError "Invalid or missing day."
            /\ blank (JStr "mon") = true)
        \/ (exists e, t = StoreRejection e
                      /\ (fault subs_down_store QAttendance = Some e
                          \/ fault subs_down_store QAbsentTeacherInfo
                             = Some e))
        \/ (t = JsError WRAPPED_MESSAGE
            /\ (fault subs_down_store QClasses <> None
                \/ fault subs_down_store QSubs <> None))).
Proof.
  eexists.
  match goal with
  | |- ?A /\ _ => assert (H : A) by (vm_compute; reflexivity)
  end.
  split; [exact H |].
  exact (@resolver_raises_only subs_down_store (JStr "T1") (JStr "mon") _ H).
Defined.

Lemma blank_normalizeDay (s : string) :
  blank (normalizeDay (JStr s)) = blank (JStr s).
Proof.
  destruct (string_dec s "") as [-> | Hs]; [reflexivity |].
  rewrite (normalizeDay_string Hs). cbn [blank].
  destruct (Str.all Chars.is_js_space s) eqn:Ha.
  - assert (Ht : JS.trim s = "") by now apply trim_with_empty.
    rewrite Ht. reflexivity.
  - apply drop_while_head in Ha as (c & r & Hdrop & Hc).
    assert (Ht : exists r', JS.trim s = String c r').
    { unfold JS.trim, Str.trim_with. rewrite Hdrop. cbn. rewrite Hc. cbn.
      eauto. }
    destruct Ht as [r' ->]. cbn [JS.toUpperCase Str.map].
    destruct (JS.includes _ _); [reflexivity |].
    cbn. now rewrite space_upper, Hc.
Qed.

(** X24.  A status 500 answer of the substitute route carries, after
    "Error fetching substitution data: ", the resolver's message for a
    blank identifier, the wrapped message of a failed coverage or
    candidate read, or the store's own error text of a failed attendance
    or subject-detail read ("unknown" when that text is empty); the
    resolver's message for a blank day never reaches the client. *)
Theorem substitute_route_server_error (st : Store) (teacherId day : option string)
        (c : Z) (m : string) :
  get_substitute st teacherId day = SubstituteError c m ->
  c <> 400%Z ->
  c = 500%Z
  /\ (m = "Error fetching substitution data: Invalid absent teacher ID."
      \/ m = "Error fetching substitution data: " ++ WRAPPED_MESSAGE
      \/ exists e,
          (fault st QAttendance = Some (MkStoreError e)
           \/ fault st QAbsentTeacherInfo = Some (MkStoreError e))
          /\ m = "Error fetching substitution data: " ++ or_string e "unknown").
Proof.
  rewrite get_substitute_unfold.
  destruct (Str.is_empty _); [intros E; injection E as <- _; contradiction |].
  destruct (blank (JStr (param_or_empty day))) eqn:Hb;
    [intros E; injection E as <- _; contradiction |].
  destruct (findSubstitutes _ _ _) as [rep | t] eqn:Hf; [discriminate |].
  intros E _. injection E as <- <-. split; [reflexivity |].
  apply findSubstitutes_thrown in Hf
    as [[-> _] | [[_ Hd] | [(e & -> & He) | [-> _]]]].
  - now left.
  - rewrite blank_normalizeDay in Hd. congruence.
  - right. right. destruct e as [e]. exists e. cbn [message_of].
    split; [assumption | reflexivity].
  - right. now left.
Qed.

Lemma substitute_route_server_error_witness :
  exists c m,
    get_substitute attendance_down_store (Some "T1") (Some "mon")
    = SubstituteError c m
    /\ c <> 400%Z
    /\ c = 500%Z
    /\ (m = "Error fetching substitution data: Invalid absent teacher ID."
        \/ m = "Error fetching substitution data: " ++ WRAPPED_MESSAGE
        \/ exists e,
            (fault attendance_down_store QAttendance = Some (MkStoreError e)
             \/ fault attendance_down_store QAbsentTeacherInfo
                = Some (MkStoreError e))
            /\ m = "Error fetching substitution data: "
                     ++ or_string e "unknown").
Proof.
  do 2 eexists.
  match goal with
  | |- ?A /\ ?B /\ _ =>
      assert (H1 : A) by (vm_compute; reflexivity);
      assert (H2 : B) by discriminate
  end.
  split; [exact H1 |]. split; [exact H2 |].
  exact (@substitute_route_server_error attendance_down_store (Some "T1")
           (Some "mon") _ _ H1 H2).
Defined.

(** X25.  With a store whose reads all go through, the resolver returns
    a report for every identifier and day that are not blank, each a
    string of ASCII characters or not a string: it raises only on blank
    arguments or on a failing read. *)
Theorem healthy_store_returns (st : Store) (i d : jsval) :
  healthy st -> ascii_value i = true -> ascii_value d = true ->
  blank i = false -> blank d = false ->
  exists rep, findSubstitutes st i d = Returned rep.
Proof.
  intros Hst _ _ Hi Hd.
  destruct (findSubstitutes st i d) as [rep | t] eqn:Hf; [now exists rep |].
  exfalso.
  apply findSubstitutes_thrown in Hf
    as [[_ H] | [[_ H] | [(e & _ & [H | H]) | [_ [H | H]]]]];
    try congruence; rewrite Hst in H; try discriminate; now apply H.
Qed.

Lemma healthy_store_returns_witness :
  healthy demo_store
  /\ ascii_value (JStr "T1") = true /\ ascii_value (JStr "mon") = true
  /\ blank (JStr "T1") = false /\ blank (JStr "mon") = false
  /\ exists rep, findSubstitutes demo_store (JStr "T1") (JStr "mon")
                 = Returned rep.
Proof.
  assert (H1 : healthy demo_store) by (intros q; reflexivity).
  assert (A1 : ascii_value (JStr "T1") = true) by reflexivity.
  assert (A2 : ascii_value (JStr "mon") = true) by reflexivity.
  assert (H2 : blank (JStr "T1") = false) by reflexivity.
  assert (H3 : blank (JStr "mon") = false) by reflexivity.
  split; [exact H1 |]. split; [exact A1 |]. split; [exact A2 |].
  split; [exact H2 |]. split; [exact H3 |].
  exact (@healthy_store_returns demo_store (JStr "T1") (JStr "mon")
           H1 A1 A2 H2 H3).
Defined.
